(** * ProteinKnotDetector: the fragmentation-and-classification pipeline

    A shallow embedding of the three variants of the pipeline,
    [pipeline(with_ModeII_Removed).py], [alpha_lookup.py] and [app.py], and
    the properties of the window planner, the quality assessor, the topology
    adapter and the verdict logic.

    Python [int] is [Z]; Python [float] is IEEE 754 binary64, which is what
    Rocq's primitive [float] is, with the same rounding; [str] is [string];
    a [dict] is an association list in insertion order, since [max] over a
    dict breaks ties by iteration order. *)

From Stdlib Require Import ZArith List String Ascii Bool Lia.
From Stdlib Require Import Floats DecimalString.
From Stdlib Require DecimalPos DecimalZ.
From Equations Require Import Equations.
Import ListNotations.

Set Warnings "-inexact-float".
Local Open Scope string_scope.
Local Open Scope Z_scope.

(* ================================================================== *)
(** * Python built-ins used by the three files *)
(* ================================================================== *)

Module Py.

(** [len(range(start, stop, step))] for [step > 0], as CPython computes it. *)
Definition range_length (lo hi step : Z) : Z :=
  if lo <? hi then (hi - lo - 1) / step + 1 else 0.

(** [range(start, stop, step)], fully unfolded. [None] is the [ValueError]
    that [range] raises for a zero step; a negative step counts downwards. *)
Definition range (start stop step : Z) : option (list Z) :=
  if step =? 0 then None
  else
    let n := if 0 <? step then range_length start stop step
             else range_length stop start (- step) in
    Some (map (fun i => start + Z.of_nat i * step) (seq 0 (Z.to_nat n))).

(** [len(s)]. *)
Definition len (s : string) : Z := Z.of_nat (String.length s).

(** [s[lo:hi]] for [0 <= lo]; the slice is cut at the end of the string. *)
Definition slice (s : string) (lo hi : Z) : string :=
  substring (Z.to_nat lo) (Z.to_nat (hi - lo)) s.

(** [str.isspace] on the code points below 256. *)
Definition isspace (c : ascii) : bool :=
  let n := nat_of_ascii c in
  ((9 <=? n) && (n <=? 13) || (28 <=? n) && (n <=? 32)
   || (n =? 133) || (n =? 160))%nat.

Fixpoint lstrip (s : string) : string :=
  match s with
  | String c s' => if isspace c then lstrip s' else s
  | EmptyString => EmptyString
  end.

Fixpoint rstrip (s : string) : string :=
  match s with
  | String c s' =>
      match rstrip s' with
      | EmptyString => if isspace c then EmptyString else String c EmptyString
      | t => String c t
      end
  | EmptyString => EmptyString
  end.

(** [s.strip()]. *)
Definition strip (s : string) : string := rstrip (lstrip s).

(** [s.replace(c, empty)] for a one-character [c] and the empty string. *)
Fixpoint remove_char (c : ascii) (s : string) : string :=
  match s with
  | String d s' =>
      if Ascii.eqb c d then remove_char c s' else String d (remove_char c s')
  | EmptyString => EmptyString
  end.

(** [str(n)] for an [int]. *)
Definition str (n : Z) : string := NilZero.string_of_int (Z.to_int n).

(** A [dict] from knot-type labels to probabilities, in insertion order.
    The keys of a dict are distinct, so [d.get(k)] for a key [k] of [d] is
    the value stored next to it. *)
Definition dict := list (string * float).

(** [d.get(k, default)]. *)
Fixpoint get (d : dict) (k : string) (default : float) : float :=
  match d with
  | [] => default
  | (k', v) :: rest => if String.eqb k k' then v else get rest k default
  end.

(** The loop of [max(d, key=d.get)]: the running maximum is replaced only
    by an item whose key value is strictly greater ([item > best]). *)
Fixpoint max_loop (best : string * float) (items : dict) : string * float :=
  match items with
  | [] => best
  | item :: rest =>
      if (snd best <? snd item)%float then max_loop item rest
      else max_loop best rest
  end.

(** [max(d, key=d.get)] with the value of the key it returns; [None] is the
    [ValueError] of an empty argument. *)
Definition max_by_value (d : dict) : option (string * float) :=
  match d with
  | [] => None
  | first :: rest => Some (max_loop first rest)
  end.

(** [c.upper()] for a code point below 128: a lower-case letter becomes
    the capital, every other character stays. *)
Definition upper_char (c : ascii) : ascii :=
  let n := nat_of_ascii c in
  if ((97 <=? n) && (n <=? 122))%nat then ascii_of_nat (n - 32) else c.

(** [s.upper()] for a string of code points below 128. Above 128 Python
    maps some lower-case letters to capitals, and one of them to two
    characters; the statements about [upper] are for ASCII strings. *)
Fixpoint upper (s : string) : string :=
  match s with
  | String c s' => String (upper_char c) (upper s')
  | EmptyString => EmptyString
  end.

(** [s.isascii()]. *)
Fixpoint isascii (s : string) : bool :=
  match s with
  | String c s' => (nat_of_ascii c <? 128)%nat && isascii s'
  | EmptyString => true
  end.

(** [s.split()]: the maximal runs of characters that are not whitespace,
    in order. A character that is not whitespace starts a word of its own
    when whitespace or the end follows, and otherwise joins the word that
    the next character is in. *)
Fixpoint split (s : string) : list string :=
  match s with
  | EmptyString => []
  | String c s' =>
      if isspace c then split s'
      else
        match s' with
        | EmptyString => [String c EmptyString]
        | String d _ =>
            if isspace d then String c EmptyString :: split s'
            else
              match split s' with
              | word :: words => String c word :: words
              | [] => [String c EmptyString]
              end
        end
  end.

(** [sep.join(words)]. *)
Fixpoint join (sep : string) (words : list string) : string :=
  match words with
  | [] => EmptyString
  | [word] => word
  | word :: rest => word ++ sep ++ join sep rest
  end.

(** The characters of a string that satisfy [keep], in order: the
    comprehension [[char for char in s if keep(char)]] joined. *)
Fixpoint keep_chars (keep : ascii -> bool) (s : string) : string :=
  match s with
  | String c s' =>
      if keep c then String c (keep_chars keep s') else keep_chars keep s'
  | EmptyString => EmptyString
  end.

(** [char in s]. *)
Fixpoint contains (s : string) (char : ascii) : bool :=
  match s with
  | String c s' => Ascii.eqb char c || contains s' char
  | EmptyString => false
  end.

End Py.

(* ================================================================== *)
(** * The external collaborators and the state of a run *)
(* ================================================================== *)

(** A structure document, as the lines that iterating over the open file
    yields. *)
Definition document := list string.

(** What the outside world answers. Nothing is assumed about it.
    - [py_float s] is [float(s)]; [None] is its [ValueError].
    - [np_mean l] is [np.mean(l)] for a non-empty list.
    - [requests_post n data] is the answer to the [n]-th request of the run
      (counting from 0): [None] when [requests.post] raises, otherwise the
      status code and the body of the response.
    - [topoly_alexander path doc] is [topoly.alexander] on the file [path]
      that holds [doc]: [None] when it raises, [Some None] when it returns
      [None], otherwise the dictionary. Every path is analysed once in a
      run, so the stochastic closures need no more than this.
    - [topoly_jones path doc] tells whether [topoly.jones] returns
      ([true]) or raises ([false]); its value is never used. *)
Record Env := {
  py_float : string -> option float;
  np_mean : list float -> float;
  requests_post : nat -> string -> option (Z * document);
  topoly_alexander : string -> document -> option (option Py.dict);
  topoly_jones : string -> document -> bool
}.

(** What the working directory does when a path is opened for writing and
    a text is written to it: the text is stored; or [open] raises (no
    permission, a directory under that name, a name that is no path) and
    nothing changes; or the write raises once the file is open, and the
    file is left with what got through. *)
Inductive WriteOutcome :=
| WRITTEN
| OPEN_FAILED
| WRITE_FAILED (leftover : document).

(** The state a run threads: the files of the working directory, the
    payloads posted so far (latest first), the fragments announced on the
    console (latest first), and what the directory does with a write to
    each path, which a run does not change. *)
Record State := {
  files : string -> option document;
  posted : list string;
  announced : list (Z * Z);
  disk : string -> WriteOutcome
}.

(** An empty directory in which every write goes through. *)
Definition initial_state : State :=
  {| files := fun _ => None;
     posted := [];
     announced := [];
     disk := fun _ => WRITTEN |}.

(** The state in which the file [filename] holds [text]: what [save] below
    leaves when the write goes through, and, with the text that got
    through, when it stops half way. Whether a write goes through is for
    [save] to tell. *)
Definition write_file (filename : string) (text : document) (st : State) : State :=
  {| files := fun p => if String.eqb p filename then Some text else files st p;
     posted := posted st;
     announced := announced st;
     disk := disk st |}.

(** [with open(filename, "w") as f: f.write(text)], whether it went
    through ([true]) or raised ([false]), and the state after it. *)
Definition save (filename : string) (text : document) (st : State)
  : bool * State :=
  match disk st filename with
  | WRITTEN => (true, write_file filename text st)
  | OPEN_FAILED => (false, st)
  | WRITE_FAILED leftover => (false, write_file filename leftover st)
  end.

(** [requests.post(API_ENDPOINT, data=sequence, verify=False)]. *)
Definition post (E : Env) (sequence : string) (st : State)
  : option (Z * document) * State :=
  (requests_post E (List.length (posted st)) sequence,
   {| files := files st;
      posted := sequence :: posted st;
      announced := announced st;
      disk := disk st |}).

(** [print("[INFO] Processing Fragment: Residues ... to ...")]. *)
Definition announce (start_index end_index : Z) (st : State) : State :=
  {| files := files st;
     posted := posted st;
     announced := (start_index, end_index) :: announced st;
     disk := disk st |}.

(** The windowing settings: the module-level [WINDOW_SIZE] and [OVERLAP],
    and the literal 50 below which a trailing chunk is not processed. *)
Record Config := {
  WINDOW_SIZE : Z;
  OVERLAP : Z;
  MIN_FRAGMENT_SIZE : Z
}.

(** [WINDOW_SIZE = 400], [OVERLAP = 200], and the 50 of
    [if (end - start) < 50: break]. *)
Definition settings : Config :=
  {| WINDOW_SIZE := 400; OVERLAP := 200; MIN_FRAGMENT_SIZE := 50 |}.

(** [KNOT_THRESHOLD = 0.50] and [MINIMUM_PLDDT = 70.0], the same in the
    three files. *)
Definition KNOT_THRESHOLD : float := 0.5%float.
Definition MINIMUM_PLDDT : float := 70%float.

(** The loop that the three [calculate_plddt] share word for word:
    for every line that starts with ATOM, [float(line[60:66].strip())] is
    appended, and a line whose field does not parse is skipped. *)
Fixpoint plddt_values (E : Env) (lines : document) : list float :=
  match lines with
  | [] => []
  | line :: rest =>
      if prefix "ATOM" line then
        match py_float E (Py.strip (Py.slice line 60 66)) with
        | Some val => val :: plddt_values E rest
        | None => plddt_values E rest
        end
      else plddt_values E rest
  end.

(** The conclusions that the reports print. *)
Inductive Conclusion :=
| KNOT_DETECTED (knot_type : option string)
| UNKNOTTED
| AMBIGUOUS
| KNOTS_DETECTED (fragments : nat)
| NO_KNOTS_DETECTED.

Inductive QualityStatus := PASS | UNRELIABLE.

(** How a run ends: with an exception that nothing catches, without a
    report (the structure could not be retrieved), or with a report: its
    conclusion and the fragments it lists. *)
Inductive Outcome (A : Type) :=
| RAISED
| NO_REPORT
| REPORT (quality : option QualityStatus) (conclusion : Conclusion)
    (listed : list A).
Arguments RAISED {A}.
Arguments NO_REPORT {A}.
Arguments REPORT {A} quality conclusion listed.

(** [if pdb_file:] on a value that is [None] or a string. *)
Definition truthy (pdb_file : option string) : bool :=
  match pdb_file with
  | Some s => negb (String.eqb s EmptyString)
  | None => false
  end.

(** The sanitising of [retrieve_structure]: every newline and every space
    of the sequence is replaced by nothing, and the result is stripped. *)
Definition sanitize (sequence : string) : string :=
  Py.strip (Py.remove_char " "%char (Py.remove_char "010"%char sequence)).

(* ================================================================== *)
(** * pipeline(with_ModeII_Removed).py *)
(* ================================================================== *)

Module Pipeline.

Definition retrieve_structure (E : Env) (sequence job_id : string) (st : State)
  : option string * State :=
  let filename := job_id ++ ".pdb" in
  let sequence := sanitize sequence in
  if 2000 <? Py.len sequence then (None, st)
  else
    match post E sequence st with
    | (Some (status_code, text), st1) =>
        if status_code =? 200 then
          match save filename text st1 with
          | (true, st2) => (Some filename, st2)
          | (false, st2) => (None, st2)
          end
        else (None, st1)
    | (None, st1) => (None, st1)
    end.

Definition calculate_plddt (E : Env) (st : State) (pdb_path : string) : float :=
  match files st pdb_path with
  | Some lines =>
      match plddt_values E lines with
      | [] => 100%float
      | plddt_values =>
          let mean_plddt := np_mean E plddt_values in
          if (mean_plddt <=? 1)%float then (mean_plddt * 100)%float
          else mean_plddt
      end
  | None => 0%float
  end.

(** The result is [(dominant_knot, dominant_conf, prob_knotted)]. *)
Definition run_topology_analysis (E : Env) (st : State) (pdb_path : string)
  : option string * float * float :=
  match files st pdb_path with
  | Some doc =>
      match topoly_alexander E pdb_path doc with
      | Some alex_dist =>
          if topoly_jones E pdb_path doc then
            match alex_dist with
            | None | Some [] => (Some "0_1", 0%float, 0%float)
            | Some d =>
                let prob_unknotted := Py.get d "0_1" 0%float in
                let prob_knotted := (1 - prob_unknotted)%float in
                match Py.max_by_value d with
                | Some (dominant_knot, dominant_conf) =>
                    (Some dominant_knot, dominant_conf, prob_knotted)
                | None => (None, 0%float, 0%float)
                end
            end
          else (None, 0%float, 0%float)
      | None => (None, 0%float, 0%float)
      end
  | None => (None, 0%float, 0%float)
  end.

(** The quality verdict of the report. *)
Definition quality_verdict (quality_score : float) : QualityStatus :=
  if (quality_score <? MINIMUM_PLDDT)%float then UNRELIABLE else PASS.

(** The topology verdict of the report. *)
Definition topology_verdict (knot_type : option string) (knot_prob : float)
  : Conclusion :=
  if (KNOT_THRESHOLD <? knot_prob)%float then KNOT_DETECTED knot_type
  else if (knot_prob <? 0.2)%float then UNKNOTTED
  else AMBIGUOUS.

(** The [__main__] block, on the line that the user typed. *)
Definition main (E : Env) (typed : string) (st : State)
  : Outcome unit * State :=
  let raw_seq := Py.strip typed in
  let job_name := "analysis_result" in
  let '(target_file, st1) := retrieve_structure E raw_seq job_name st in
  match target_file with
  | Some f =>
      if truthy target_file then
        let quality_score := calculate_plddt E st1 f in
        let '(knot_type, _, knot_prob) := run_topology_analysis E st1 f in
        (REPORT (Some (quality_verdict quality_score))
           (topology_verdict knot_type knot_prob) [], st1)
      else (NO_REPORT, st1)
  | None => (NO_REPORT, st1)
  end.

End Pipeline.

(* ================================================================== *)
(** * alpha_lookup.py *)
(* ================================================================== *)

Module AlphaLookup.

Definition retrieve_structure (E : Env) (sequence filename : string) (st : State)
  : option string * State :=
  let sequence := sanitize sequence in
  match post E sequence st with
  | (Some (status_code, text), st1) =>
      if status_code =? 200 then
        match save filename text st1 with
        | (true, st2) => (Some filename, st2)
        | (false, st2) => (None, st2)
        end
      else (None, st1)
  | (None, st1) => (None, st1)
  end.

Definition calculate_plddt (E : Env) (st : State) (pdb_path : string) : float :=
  match files st pdb_path with
  | Some lines =>
      match plddt_values E lines with
      | [] => 0%float
      | plddt_values =>
          let mean := np_mean E plddt_values in
          if (mean <=? 1)%float then (mean * 100)%float else mean
      end
  | None => 0%float
  end.

(** The result is [(dominant_knot, 0, prob_knotted)]. *)
Definition run_topology_analysis (E : Env) (st : State) (pdb_path : string)
  : option string * float * float :=
  match files st pdb_path with
  | Some doc =>
      match topoly_alexander E pdb_path doc with
      | Some None | Some (Some []) => (Some "0_1", 0%float, 0%float)
      | Some (Some d) =>
          let prob_unknotted := Py.get d "0_1" 0%float in
          let prob_knotted := (1 - prob_unknotted)%float in
          match Py.max_by_value d with
          | Some (dominant_knot, _) => (Some dominant_knot, 0%float, prob_knotted)
          | None => (None, 0%float, 0%float)
          end
      | None => (None, 0%float, 0%float)
      end
  | None => (None, 0%float, 0%float)
  end.

(** The result is [(is_knotted, knot_type, plddt, filename)]. *)
Definition analyze_chunk (E : Env) (sequence : string)
  (start_index end_index : Z) (st : State)
  : (bool * option string * float * option string) * State :=
  let chunk_id := "fragment_" ++ Py.str start_index ++ "_" ++ Py.str end_index in
  let filename := chunk_id ++ ".pdb" in
  let st0 := announce start_index end_index st in
  let '(pdb_file, st1) := retrieve_structure E sequence filename st0 in
  match pdb_file with
  | Some f =>
      if truthy pdb_file then
        let plddt := calculate_plddt E st1 f in
        let '(knot_type, _, prob) := run_topology_analysis E st1 f in
        if (KNOT_THRESHOLD <? prob)%float
        then ((true, knot_type, plddt, Some filename), st1)
        else ((false, None, 0%float, None), st1)
      else ((false, None, 0%float, None), st1)
  | None => ((false, None, 0%float, None), st1)
  end.

(** An entry of [knots_found]. *)
Record Knot := {
  range : string;
  type : option string;
  quality : float
}.

(** The body of [for start in range(0, seq_len, step)], over the starts
    that the range yields; [break] leaves the loop. *)
Fixpoint sliding_loop (cfg : Config) (E : Env) (full_sequence : string)
  (seq_len : Z) (starts : list Z) (knots_found : list Knot) (st : State)
  : list Knot * State :=
  match starts with
  | [] => (knots_found, st)
  | start :: rest =>
      let end_ := Z.min (start + WINDOW_SIZE cfg) seq_len in
      if end_ - start <? MIN_FRAGMENT_SIZE cfg then (knots_found, st)
      else
        let sub_seq := Py.slice full_sequence start end_ in
        let '((is_knotted, k_type, qual, fname), st1) :=
          analyze_chunk E sub_seq (start + 1) end_ st in
        let knots_found' :=
          if is_knotted
          then (knots_found ++
               [ {| range := Py.str (start + 1) ++ "-" ++ Py.str end_;
                    type := k_type;
                    quality := qual |} ])%list
          else knots_found in
        sliding_loop cfg E full_sequence seq_len rest knots_found' st1
  end.

(** [None] is the [ValueError] of [range] with a zero step. *)
Definition run_sliding_window (cfg : Config) (E : Env) (full_sequence : string)
  (st : State) : option (list Knot) * State :=
  let seq_len := Py.len full_sequence in
  let step := WINDOW_SIZE cfg - OVERLAP cfg in
  match Py.range 0 seq_len step with
  | Some starts =>
      let '(knots_found, st1) :=
        sliding_loop cfg E full_sequence seq_len starts [] st in
      (Some knots_found, st1)
  | None => (None, st)
  end.

(** The verdict of the direct mode. *)
Definition direct_verdict (k_type : option string) (prob : float) : Conclusion :=
  if (KNOT_THRESHOLD <? prob)%float then KNOT_DETECTED k_type else UNKNOTTED.

Definition quality_status (qual : float) : QualityStatus :=
  if (70 <=? qual)%float then PASS else UNRELIABLE.

(** The [__main__] block, on the line that the user typed. *)
Definition main (cfg : Config) (E : Env) (typed : string) (st : State)
  : Outcome Knot * State :=
  let raw_seq := Py.strip typed in
  if 400 <? Py.len raw_seq then
    match run_sliding_window cfg E raw_seq st with
    | (Some results, st1) =>
        match results with
        | [] => (REPORT None NO_KNOTS_DETECTED results, st1)
        | _ => (REPORT None (KNOTS_DETECTED (List.length results)) results, st1)
        end
    | (None, st1) => (RAISED, st1)
    end
  else
    let fname := "analysis_result.pdb" in
    let '(pdb_file, st1) := retrieve_structure E raw_seq fname st in
    match pdb_file with
    | Some f =>
        if truthy pdb_file then
          let qual := calculate_plddt E st1 fname in
          let '(k_type, _, prob) := run_topology_analysis E st1 fname in
          (REPORT (Some (quality_status qual)) (direct_verdict k_type prob) [],
           st1)
        else (NO_REPORT, st1)
    | None => (NO_REPORT, st1)
    end.

End AlphaLookup.

(* ================================================================== *)
(** * app.py *)
(* ================================================================== *)

Module App.

Definition calculate_plddt (E : Env) (st : State) (pdb_path : string) : float :=
  match files st pdb_path with
  | Some lines =>
      match plddt_values E lines with
      | [] => 0%float
      | plddt_values => np_mean E plddt_values
      end
  | None => 0%float
  end.

(** The result is [(dominant_knot, prob_knotted)]. *)
Definition run_topology_analysis (E : Env) (st : State) (pdb_path : string)
  : option string * float :=
  match files st pdb_path with
  | Some doc =>
      match topoly_alexander E pdb_path doc with
      | Some None | Some (Some []) => (Some "0_1", 0%float)
      | Some (Some d) =>
          let prob_unknotted := Py.get d "0_1" 0%float in
          let prob_knotted := (1 - prob_unknotted)%float in
          match Py.max_by_value d with
          | Some (dominant_knot, _) => (Some dominant_knot, prob_knotted)
          | None => (None, 0%float)
          end
      | None => (None, 0%float)
      end
  | None => (None, 0%float)
  end.

(** The body of the loop that fills [chunks], over the starts that the
    range yields; [break] leaves the loop. *)
Fixpoint chunks_loop (cfg : Config) (seq_len : Z) (starts : list Z)
  : list (Z * Z) :=
  match starts with
  | [] => []
  | start :: rest =>
      let end_ := Z.min (start + WINDOW_SIZE cfg) seq_len in
      if end_ - start <? MIN_FRAGMENT_SIZE cfg then []
      else (start, end_) :: chunks_loop cfg seq_len rest
  end.

(** The list [chunks]; [None] is the [ValueError] of [range] with a zero
    step. *)
Definition chunks (cfg : Config) (seq_len : Z) : option (list (Z * Z)) :=
  let step := WINDOW_SIZE cfg - OVERLAP cfg in
  match Py.range 0 seq_len step with
  | Some starts => Some (chunks_loop cfg seq_len starts)
  | None => None
  end.

(** A row of [results]; the probability and the pLDDT are kept as the
    numbers that the row prints. *)
Record Row := {
  Fragment : string;
  Type_ : option string;
  Probability : float;
  pLDDT : float;
  File : string
}.

(** The body of [for i, (start, end) in enumerate(chunks)]; an exception
    of the request or of the writing of the file is passed over. *)
Fixpoint analysis_loop (E : Env) (clean_seq : string) (chunks : list (Z * Z))
  (results : list Row) (st : State) : list Row * State :=
  match chunks with
  | [] => (results, st)
  | (start, end_) :: rest =>
      let chunk_id := "fragment_" ++ Py.str (start + 1) ++ "_" ++ Py.str end_ in
      let filename := chunk_id ++ ".pdb" in
      let sub_seq := Py.slice clean_seq start end_ in
      match post E sub_seq st with
      | (Some (status_code, text), st1) =>
          if status_code =? 200 then
            match save filename text st1 with
            | (true, st2) =>
                let plddt := calculate_plddt E st2 filename in
                let '(knot_type, prob) :=
                  run_topology_analysis E st2 filename in
                let results' :=
                  if (KNOT_THRESHOLD <? prob)%float
                  then (results ++
                       [ {| Fragment :=
                              Py.str (start + 1) ++ "-" ++ Py.str end_;
                            Type_ := knot_type;
                            Probability := prob;
                            pLDDT := plddt;
                            File := filename |} ])%list
                  else results in
                analysis_loop E clean_seq rest results' st2
            | (false, st2) => analysis_loop E clean_seq rest results st2
            end
          else analysis_loop E clean_seq rest results st1
      | (None, st1) => analysis_loop E clean_seq rest results st1
      end
  end.

(** The large sequence logic. *)
Definition large_sequence_logic (cfg : Config) (E : Env) (clean_seq : string)
  (st : State) : Outcome Row * State :=
  let seq_len := Py.len clean_seq in
  match chunks cfg seq_len with
  | Some chunks =>
      let '(results, st1) := analysis_loop E clean_seq chunks [] st in
      match results with
      | [] => (REPORT None NO_KNOTS_DETECTED results, st1)
      | _ => (REPORT None (KNOTS_DETECTED (List.length results)) results, st1)
      end
  | None => (RAISED, st)
  end.

(** The verdict of the small sequence logic. *)
Definition small_sequence_verdict (knot_type : option string) (prob : float)
  : Conclusion :=
  if (KNOT_THRESHOLD <? prob)%float then KNOT_DETECTED knot_type
  else if (prob <? 0.2)%float then UNKNOTTED
  else AMBIGUOUS.

Definition quality_status (plddt : float) : QualityStatus :=
  if (plddt <? MINIMUM_PLDDT)%float then UNRELIABLE else PASS.

(** The small sequence logic. *)
Definition small_sequence_logic (E : Env) (clean_seq : string) (st : State)
  : Outcome Row * State :=
  let filename := "analysis_result.pdb" in
  match post E clean_seq st with
  | (Some (status_code, text), st1) =>
      if status_code =? 200 then
        match save filename text st1 with
        | (true, st2) =>
            let plddt := calculate_plddt E st2 filename in
            let '(knot_type, prob) := run_topology_analysis E st2 filename in
            (REPORT (Some (quality_status plddt))
               (small_sequence_verdict knot_type prob) [], st2)
        | (false, st2) => (NO_REPORT, st2)
        end
      else (NO_REPORT, st1)
  | (None, st1) => (NO_REPORT, st1)
  end.

(** What the Run Analysis button does, from the sanitized sequence on. *)
Definition run_analysis (cfg : Config) (E : Env) (clean_seq : string)
  (st : State) : Outcome Row * State :=
  let seq_len := Py.len clean_seq in
  if 400 <? seq_len then large_sequence_logic cfg E clean_seq st
  else small_sequence_logic E clean_seq st.

(** The twenty standard amino-acid codes. *)
Definition standard_codes : string := "ACDEFGHIKLMNPQRSTVWY".

Definition sanitize_sequence (sequence : string) : string :=
  let sequence := Py.upper sequence in
  let sequence := Py.join EmptyString (Py.split sequence) in
  let clean_seq := Py.keep_chars (Py.contains standard_codes) sequence in
  clean_seq.

(** What the Run Analysis button does with the text of the input area: an
    empty text is refused with an error message, and nothing else is. *)
Definition on_run_analysis (cfg : Config) (E : Env) (sequence_input : string)
  (st : State) : Outcome Row * State :=
  if String.eqb sequence_input EmptyString then (NO_REPORT, st)
  else run_analysis cfg E (sanitize_sequence sequence_input) st.

End App.

(* ================================================================== *)
(** * The window planner as the specification words it *)
(* ================================================================== *)

(** Start at [start = 0]; emit [[start, min(start + window_size,
    sequence_length))]; advance by [step]; stop, without emitting, as soon
    as [start >= sequence_length] or the candidate is shorter than
    [min_fragment_size]. The guard on [step] only makes the recursion well
    founded. *)
Equations? emit_from (sequence_length window_size step min_fragment_size : Z)
  (start : Z) : list (Z * Z)
  by wf (Z.to_nat (sequence_length - start)) lt :=
  emit_from n w step m start with Z_lt_dec 0 step, Z_lt_dec start n := {
    | left _, left _ with Z.min (start + w) n - start <? m := {
        | true := [];
        | false := (start, Z.min (start + w) n) :: emit_from n w step m (start + step) };
    | _, _ := [] }.
Proof. lia. Qed.

(** The planner of the specification: a non-positive step is a
    configuration error ([None]). *)
Definition window_planner (sequence_length window_size overlap
  min_fragment_size : Z) : option (list (Z * Z)) :=
  let step := window_size - overlap in
  if 0 <? step
  then Some (emit_from sequence_length window_size step min_fragment_size 0)
  else None.

(** Whether a request was answered with status 200. *)
Definition succeeded (response : option (Z * document)) : bool :=
  match response with
  | Some (status_code, _) => status_code =? 200
  | None => false
  end.

(** The verdict that the adapter owes for a distribution [d]: the dominant
    type is a label of [d] whose probability no label exceeds, and the
    knotted probability is one minus the probability of the unknotted
    label, taken as 0.0 when [d] has none. *)
Definition verdict_of (d : Py.dict) (dominant : option string) (prob : float)
  : Prop :=
  (exists k v,
     dominant = Some k /\ In (k, v) d
     /\ forall x, In x d -> (v <? snd x)%float = false)
  /\ prob = (1 - Py.get d "0_1" 0)%float.

(** The first component of what [analyze_chunk] returns. *)
Definition is_knotted (result : bool * option string * float * option string)
  : bool :=
  let '(knotted, _, _, _) := result in knotted.

(** The file name that [analyze_chunk] derives from a range. *)
Definition fragment_file (start_index end_index : Z) : string :=
  ("fragment_" ++ Py.str start_index ++ "_" ++ Py.str end_index) ++ ".pdb".

(** Two worlds whose structures differ at most in their confidence values:
    every request is answered with the same status in both, and the
    topology library, which reads the coordinates, finds the same
    distribution in the two answers. The bodies, the parsing of the
    confidence fields and the mean are free to differ. *)
Definition same_topology (E1 E2 : Env) : Prop :=
  forall n data,
    match requests_post E1 n data, requests_post E2 n data with
    | Some (code1, doc1), Some (code2, doc2) =>
        code1 = code2
        /\ forall path, topoly_alexander E1 path doc1 = topoly_alexander E2 path doc2
    | None, None => True
    | _, _ => False
    end.

(** A knotted fragment of the report without its quality. *)
Definition knot_location (k : AlphaLookup.Knot) : string * option string :=
  (AlphaLookup.range k, AlphaLookup.type k).

Definition row_location (r : App.Row) : string * option string * float * string :=
  (App.Fragment r, App.Type_ r, App.Probability r, App.File r).

(* ================================================================== *)
(** * The order of binary64 values *)
(* ================================================================== *)

(** A key whose lexicographic order is the order of the values that are
    not NaN: the class of the value (minus infinity, negative, zero,
    positive, plus infinity), then exponent and mantissa, both negated
    for a negative value. *)
Definition sf_key (x : spec_float) : option (Z * Z * Z) :=
  match x with
  | S754_nan => None
  | S754_zero _ => Some (0, 0, 0)
  | S754_infinity s => Some (if s then -2 else 2, 0, 0)
  | S754_finite s m e =>
      if s then Some (-1, - e, Z.neg m) else Some (1, e, Z.pos m)
  end.

Definition lex (a b : Z * Z * Z) : comparison :=
  let '(a1, a2, a3) := a in
  let '(b1, b2, b3) := b in
  match a1 ?= b1 with
  | Eq => match a2 ?= b2 with
          | Eq => a3 ?= b3
          | c => c
          end
  | c => c
  end.

(* ================================================================== *)
(** * Sample collaborators for the concrete runs *)
(* ================================================================== *)

Module Sample.

Fixpoint digits (s : string) (acc : Z) : option Z :=
  match s with
  | EmptyString => Some acc
  | String c s' =>
      let n := Z.of_nat (nat_of_ascii c) - 48 in
      if (0 <=? n) && (n <=? 9) then digits s' (10 * acc + n) else None
  end.

Definition of_Z (n : Z) : float := PrimFloat.of_uint63 (Uint63.of_Z n).

(** [float] on the plain decimals [ddd] and [ddd.ddd] of at most fifteen
    digits: both the digits read as an integer and the power of ten are
    binary64 values, and their quotient is rounded once. Anything else is
    refused, which [float] does not do for every other string. *)
Definition plain_decimal (s : string) : option float :=
  let '(int_part, frac_part) :=
    match index 0 "." s with
    | Some i => (substring 0 i s,
                 substring (i + 1) (String.length s - i - 1) s)
    | None => (s, EmptyString)
    end in
  let all := int_part ++ frac_part in
  if ((1 <=? String.length all) && (String.length all <=? 15))%nat then
    match digits all 0 with
    | Some n => Some (of_Z n / of_Z (10 ^ Z.of_nat (String.length frac_part)))%float
    | None => None
    end
  else None.

(** The mean of a short list: the sum from left to right over the count. *)
Definition mean (l : list float) : float :=
  (fold_left PrimFloat.add l 0 / of_Z (Z.of_nat (List.length l)))%float.

(** Two structure documents with the same atoms and different confidence
    values in columns 60 to 66. *)
Definition normalized_doc : document :=
  [ "ATOM      1  N   MET A   1      -8.901   4.127  -0.555  1.00  0.50           N";
    "ATOM      2  CA  MET A   1      -7.500   4.500  -0.300  1.00  0.50           C" ].

Definition percent_doc : document :=
  [ "ATOM      1  N   MET A   1      -8.901   4.127  -0.555  1.00 90.00           N";
    "ATOM      2  CA  MET A   1      -7.500   4.500  -0.300  1.00 90.00           C" ].

(** A document without any confidence value: a header, an atom record
    that ends before column 60, and one whose columns 60 to 66 hold no
    number. *)
Definition unscored_doc : document :=
  [ "HEADER    PREDICTED STRUCTURE";
    "ATOM      1  N   MET A   1      -8.901   4.127  -0.555";
    "ATOM      2  CA  MET A   1      -7.500   4.500  -0.300  1.00   n/a           C" ].

(** The distribution of the specification's example, and one above the
    threshold. *)
Definition mostly_unknotted : Py.dict := [("0_1", 0.7%float); ("3_1", 0.3%float)].
Definition trefoil : Py.dict := [("0_1", 0.25%float); ("3_1", 0.75%float)].
Definition at_threshold : Py.dict := [("0_1", 0.5%float); ("3_1", 0.5%float)].

(** A world whose service answers every request with [doc] and whose
    topology library finds [dist] in every structure. *)
Definition world (doc : document) (dist : Py.dict) : Env :=
  {| py_float := plain_decimal;
     np_mean := mean;
     requests_post := fun _ _ => Some (200, doc);
     topoly_alexander := fun _ _ => Some (Some dist);
     topoly_jones := fun _ _ => true |}.

(** A world whose service is down: odd requests fail in transport, even
    ones are answered with status 503. *)
Definition service_down : Env :=
  {| py_float := plain_decimal;
     np_mean := mean;
     requests_post := fun n _ => if Nat.even n then Some (503, []) else None;
     topoly_alexander := fun _ _ => Some (Some trefoil);
     topoly_jones := fun _ _ => true |}.

(** A sequence of [n] alanines. *)
Fixpoint poly_alanine (n : nat) : string :=
  match n with
  | O => EmptyString
  | S n' => String "A" (poly_alanine n')
  end.

End Sample.

(* ================================================================== *)
(** * Notions for the properties of the whole runs *)
(* ================================================================== *)

(** [l1] is [l2] with some elements left out, the order kept. *)
Inductive subsequence {A : Type} : list A -> list A -> Prop :=
| subsequence_nil : subsequence [] []
| subsequence_keep (x : A) (l1 l2 : list A) :
    subsequence l1 l2 -> subsequence (x :: l1) (x :: l2)
| subsequence_skip (x : A) (l1 l2 : list A) :
    subsequence l1 l2 -> subsequence l1 (x :: l2).

(** The label under which both windowed reports list a range. *)
Definition range_label (r : Z * Z) : string :=
  Py.str (fst r + 1) ++ "-" ++ Py.str (snd r).

(** The confidence fields of a document: columns 60 to 66, stripped, of
    the lines that start with ATOM. *)
Definition confidence_fields (lines : document) : list string :=
  map (fun line => Py.strip (Py.slice line 60 66))
    (filter (prefix "ATOM") lines).

(** The characters of a string. *)
Definition chars (s : string) : list ascii := list_ascii_of_string s.

(** [q == q], which is false for NaN only. *)
Definition is_number (q : float) : bool := (q =? q)%float.

(* ================================================================== *)
(** * More sample collaborators *)
(* ================================================================== *)

Module Fixture.

(** A world whose topology library raises on every structure. *)
Definition topology_down : Env :=
  {| py_float := Sample.plain_decimal;
     np_mean := Sample.mean;
     requests_post := fun _ _ => Some (200, Sample.percent_doc);
     topoly_alexander := fun _ _ => None;
     topoly_jones := fun _ _ => true |}.

(** A world in which the Alexander computation finds a trefoil and the
    Jones computation raises. *)
Definition jones_down : Env :=
  {| py_float := Sample.plain_decimal;
     np_mean := Sample.mean;
     requests_post := fun _ _ => Some (200, Sample.percent_doc);
     topoly_alexander := fun _ _ => Some (Some Sample.trefoil);
     topoly_jones := fun _ _ => false |}.

(** A distribution without the unknotted label. *)
Definition no_unknot : Py.dict := [("3_1", 0.6%float); ("4_1", 0.4%float)].

(** The atoms of [Sample.percent_doc] moved, behind a remark, with the
    same confidence values. *)
Definition moved_doc : document :=
  [ "REMARK    SHIFTED BY ONE ANGSTROM";
    "ATOM      1  N   MET A   1      -7.901   5.127   0.445  1.00 90.00           N";
    "ATOM      2  CA  MET A   1      -6.500   5.500   0.700  1.00 90.00           C" ].

(** An empty directory in which no file can be opened for writing. *)
Definition read_only : State :=
  {| files := fun _ => None;
     posted := [];
     announced := [];
     disk := fun _ => OPEN_FAILED |}.

End Fixture.

(* ================================================================== *)
(** * The built-ins on small inputs *)
(* ================================================================== *)

Example range_counts_up : Py.range 0 1000 200 = Some [0; 200; 400; 600; 800].
Proof. reflexivity. Qed.

Example range_stops_before_the_end : Py.range 0 401 200 = Some [0; 200; 400].
Proof. reflexivity. Qed.

Example range_refuses_a_zero_step : Py.range 0 1000 0 = None.
Proof. reflexivity. Qed.

Example range_counts_down : Py.range 10 0 (-4) = Some [10; 6; 2].
Proof. reflexivity. Qed.

Example strip_keeps_the_inside : Py.strip "  0.50 " = "0.50".
Proof. reflexivity. Qed.

Example slice_is_cut_at_the_end : Py.slice "ATOM" 2 66 = "OM".
Proof. reflexivity. Qed.

Example fragment_file_of_the_first_window :
  fragment_file 1 400 = "fragment_1_400.pdb".
Proof. reflexivity. Qed.

Example max_keeps_the_first_of_equals :
  Py.max_by_value Sample.at_threshold = Some ("0_1", 0.5%float).
Proof. reflexivity. Qed.

Example confidence_column_of_an_atom_record :
  map (fun line => Py.strip (Py.slice line 60 66)) Sample.percent_doc
  = ["90.00"; "90.00"].
Proof. reflexivity. Qed.

(* ================================================================== *)
(** * Writing a file *)
(* ================================================================== *)

(** A write touches the files only, and only the file that is written; when
    it goes through, the file holds the text. *)
Lemma save_spec (filename : string) (text : document) (st : State) :
  let r := save filename text st in
  posted (snd r) = posted st
  /\ announced (snd r) = announced st
  /\ disk (snd r) = disk st
  /\ (fst r = true -> snd r = write_file filename text st)
  /\ (fst r = false -> disk st filename <> WRITTEN)
  /\ (forall other, other <> filename -> files (snd r) other = files st other).
Proof.
  unfold save. destruct (disk st filename) eqn:Hdisk; cbn;
    repeat split; try discriminate; try reflexivity;
    intros other Hother; now rewrite (proj2 (String.eqb_neq _ _) Hother).
Qed.

(** Splits on a write in the goal, keeping what [save_spec] says of it. *)
Ltac save_cases H :=
  match goal with
  | |- context [save ?f ?t ?s] =>
      pose proof (save_spec f t s) as H; cbn zeta in H;
      destruct (save f t s) as [[|] ?]; cbn [fst snd] in H
  end.

(* ================================================================== *)
(** * The window planner *)
(* ================================================================== *)

(** One unfolding of the specification's loop. *)
Lemma emit_from_step (n w step m s : Z) :
  emit_from n w step m s =
  if (0 <? step) && (s <? n) then
    if Z.min (s + w) n - s <? m then []
    else (s, Z.min (s + w) n) :: emit_from n w step m (s + step)
  else [].
Proof.
  funelim (emit_from n w step m s);
    repeat match goal with
    | H : ?a < ?b |- context [?a <? ?b] => rewrite (proj2 (Z.ltb_lt a b) H)
    | H : ~ ?a < ?b |- context [?a <? ?b] => rewrite (proj2 (Z.ltb_nlt a b) H)
    | H : (?c <? ?d) = _ |- context [?c <? ?d] => rewrite H
    end; cbn [andb]; try reflexivity.
Qed.

(** The starts that [range(0, seq_len, step)] yields for a positive step. *)
Lemma range_positive_step (n step : Z) :
  0 < step ->
  Py.range 0 n step =
  Some (map (fun i => 0 + Z.of_nat i * step)
          (seq 0 (Z.to_nat (Py.range_length 0 n step)))).
Proof.
  intros Hstep. unfold Py.range.
  destruct (Z.eqb_spec step 0); [lia |].
  now rewrite (proj2 (Z.ltb_lt 0 step) Hstep).
Qed.

(** Moving the start of a range one step forward drops its first element. *)
Lemma range_length_next (s n step : Z) :
  0 < step -> s < n ->
  Py.range_length (s + step) n step = Py.range_length s n step - 1.
Proof.
  intros Hstep Hlt. unfold Py.range_length.
  rewrite (proj2 (Z.ltb_lt s n) Hlt).
  destruct (Z.ltb_spec (s + step) n) as [H | H].
  - replace (n - s - 1) with (n - (s + step) - 1 + 1 * step) by lia.
    rewrite Z.div_add by lia. lia.
  - rewrite Z.div_small by lia. lia.
Qed.

Lemma range_length_nonneg (s n step : Z) :
  0 < step -> 0 <= Py.range_length s n step.
Proof.
  intros Hstep. unfold Py.range_length.
  destruct (Z.ltb_spec s n); [| lia].
  assert (0 <= (n - s - 1) / step) by (apply Z.div_pos; lia). lia.
Qed.

Lemma range_length_zero (s n step : Z) :
  0 < step -> Py.range_length s n step = 0 -> n <= s.
Proof.
  intros Hstep. unfold Py.range_length.
  destruct (Z.ltb_spec s n); [| lia].
  assert (0 <= (n - s - 1) / step) by (apply Z.div_pos; lia). lia.
Qed.

(** The loop of the code over the starts of the range is the loop of the
    specification. *)
Lemma chunks_loop_emit_from (cfg : Config) (n : Z) :
  let step := WINDOW_SIZE cfg - OVERLAP cfg in
  0 < step ->
  forall (count : nat) (s : Z),
    Z.to_nat (Py.range_length s n step) = count ->
    App.chunks_loop cfg n (map (fun i => s + Z.of_nat i * step) (seq 0 count)) =
    emit_from n (WINDOW_SIZE cfg) step (MIN_FRAGMENT_SIZE cfg) s.
Proof.
  intros step Hstep count.
  induction count as [| count IH]; intros s Hcount.
  - cbn. rewrite emit_from_step.
    assert (n <= s).
    { apply (range_length_zero s n step Hstep).
      pose proof (range_length_nonneg s n step Hstep). lia. }
    rewrite (proj2 (Z.ltb_ge s n)) by lia. now rewrite andb_false_r.
  - assert (Hlt : s < n).
    { destruct (Z.lt_ge_cases s n) as [H | H]; [exact H |].
      unfold Py.range_length in Hcount.
      rewrite (proj2 (Z.ltb_ge s n)) in Hcount by lia. discriminate. }
    cbn [seq map App.chunks_loop]. rewrite emit_from_step.
    rewrite (proj2 (Z.ltb_lt 0 step) Hstep), (proj2 (Z.ltb_lt s n) Hlt).
    cbn [andb]. replace (s + Z.of_nat 0 * step) with s by lia.
    destruct (Z.min (s + WINDOW_SIZE cfg) n - s <? MIN_FRAGMENT_SIZE cfg);
      [reflexivity |].
    f_equal. rewrite <- seq_shift, map_map.
    rewrite <- (IH (s + step)).
    + f_equal. apply map_ext. intros i. lia.
    + rewrite range_length_next by lia. lia.
Qed.

(** Retrieving a structure announces nothing. *)
Lemma retrieve_structure_announced (E : Env) (sequence filename : string)
  (st : State) :
  announced (snd (AlphaLookup.retrieve_structure E sequence filename st)) =
  announced st.
Proof.
  unfold AlphaLookup.retrieve_structure, post.
  destruct (requests_post E _ _) as [[status_code text] |]; [| reflexivity].
  destruct (status_code =? 200); [| reflexivity].
  save_cases Hsave; destruct Hsave as [_ [Ha _]]; cbn [snd]; now rewrite Ha.
Qed.

(** Analysing a chunk announces its range, once. *)
Lemma analyze_chunk_announced (E : Env) (sequence : string)
  (start_index end_index : Z) (st : State) :
  announced (snd (AlphaLookup.analyze_chunk E sequence start_index end_index st)) =
  (start_index, end_index) :: announced st.
Proof.
  unfold AlphaLookup.analyze_chunk.
  match goal with
  | |- context [AlphaLookup.retrieve_structure E ?s ?f ?st0] =>
      pose proof (retrieve_structure_announced E s f st0) as H;
      destruct (AlphaLookup.retrieve_structure E s f st0) as [pdb_file st1]
  end.
  cbn [snd] in H.
  destruct pdb_file as [f |]; [| exact H].
  destruct (truthy (Some f)); [| exact H].
  destruct (AlphaLookup.run_topology_analysis E st1 f) as [[knot_type c] prob].
  destruct (KNOT_THRESHOLD <? prob)%float; exact H.
Qed.

(** The fragments that [run_sliding_window] analyses are the chunks of
    [app.py], named from 1. *)
Lemma sliding_loop_announced (cfg : Config) (E : Env) (full_sequence : string)
  (seq_len : Z) (starts : list Z) :
  forall (knots_found : list AlphaLookup.Knot) (st : State),
    announced (snd (AlphaLookup.sliding_loop cfg E full_sequence seq_len
                      starts knots_found st)) =
    (rev (map (fun r => (fst r + 1, snd r)) (App.chunks_loop cfg seq_len starts))
       ++ announced st)%list.
Proof.
  induction starts as [| start rest IH]; intros knots_found st; [reflexivity |].
  cbn [AlphaLookup.sliding_loop App.chunks_loop].
  destruct (Z.min (start + WINDOW_SIZE cfg) seq_len - start
            <? MIN_FRAGMENT_SIZE cfg); [reflexivity |].
  match goal with
  | |- context [AlphaLookup.analyze_chunk E ?s ?a ?b st] =>
      pose proof (analyze_chunk_announced E s a b st) as H;
      destruct (AlphaLookup.analyze_chunk E s a b st)
        as [[[[is_knotted k_type] qual] fname] st1]
  end.
  cbn [snd] in H. rewrite IH, H. cbn [map rev fst snd].
  now rewrite <- app_assoc.
Qed.

(** C1. For a positive step the planner of the code emits exactly the
    ranges of the specification's loop: the list [chunks] of [app.py] is
    that list, and the fragments that [run_sliding_window] of
    [alpha_lookup.py] announces are those ranges, in that order, named from
    1. For a sequence of 1000 residues and the settings 400, 200 and 50 the
    ranges are [0,400), [200,600), [400,800), [600,1000) and [800,1000). *)
Theorem window_planner_follows_the_specification :
  forall (cfg : Config) (E : Env) (full_sequence : string) (st : State)
         (sequence_length : Z),
    0 < WINDOW_SIZE cfg - OVERLAP cfg ->
    App.chunks cfg sequence_length =
      Some (emit_from sequence_length (WINDOW_SIZE cfg)
              (WINDOW_SIZE cfg - OVERLAP cfg) (MIN_FRAGMENT_SIZE cfg) 0)
    /\ App.chunks cfg sequence_length =
         window_planner sequence_length (WINDOW_SIZE cfg) (OVERLAP cfg)
           (MIN_FRAGMENT_SIZE cfg)
    /\ rev (announced (snd (AlphaLookup.run_sliding_window cfg E full_sequence st))) =
         (rev (announced st) ++
          map (fun r => (fst r + 1, snd r))
            (emit_from (Py.len full_sequence) (WINDOW_SIZE cfg)
               (WINDOW_SIZE cfg - OVERLAP cfg) (MIN_FRAGMENT_SIZE cfg) 0))%list
    /\ App.chunks settings 1000 =
         Some [(0, 400); (200, 600); (400, 800); (600, 1000); (800, 1000)].
Proof.
  intros cfg E full_sequence st n Hstep.
  assert (Hchunks : forall len,
    App.chunks cfg len =
    Some (emit_from len (WINDOW_SIZE cfg) (WINDOW_SIZE cfg - OVERLAP cfg)
            (MIN_FRAGMENT_SIZE cfg) 0)).
  { intros len. unfold App.chunks. rewrite range_positive_step by exact Hstep.
    f_equal. now apply chunks_loop_emit_from. }
  split; [| split; [| split]].
  - apply Hchunks.
  - rewrite Hchunks. unfold window_planner.
    now rewrite (proj2 (Z.ltb_lt _ _) Hstep).
  - specialize (Hchunks (Py.len full_sequence)).
    unfold App.chunks in Hchunks. unfold AlphaLookup.run_sliding_window.
    destruct (Py.range 0 (Py.len full_sequence) _) as [starts |];
      [| discriminate].
    injection Hchunks as Hchunks.
    pose proof (sliding_loop_announced cfg E full_sequence
                  (Py.len full_sequence) starts [] st) as H.
    destruct (AlphaLookup.sliding_loop _ _ _ _ _ _ _) as [knots_found st1].
    cbn [snd] in *. rewrite H, Hchunks, rev_app_distr, rev_involutive.
    reflexivity.
  - reflexivity.
Qed.

Lemma window_planner_follows_the_specification_witness :
  0 < WINDOW_SIZE settings - OVERLAP settings
  /\ App.chunks settings 900 =
       Some (emit_from 900 400 200 50 0).
Proof.
  split; [reflexivity |].
  exact (proj1 (window_planner_follows_the_specification settings
                  {| py_float := fun _ => None;
                     np_mean := fun _ => 0%float;
                     requests_post := fun _ _ => None;
                     topoly_alexander := fun _ _ => None;
                     topoly_jones := fun _ _ => true |}
                  EmptyString initial_state 900
                  (eq_refl : (0 ?= WINDOW_SIZE settings - OVERLAP settings) = Lt))).
Defined.

(** The [i]-th range that the loop emits, in closed form. *)
Lemma emit_from_nth (n w step m : Z) :
  forall (i : nat) (s : Z) (r : Z * Z),
    nth_error (emit_from n w step m s) i = Some r ->
    fst r = s + Z.of_nat i * step
    /\ snd r = Z.min (fst r + w) n
    /\ fst r < n
    /\ m <= snd r - fst r.
Proof.
  induction i as [| i IH]; intros s r; rewrite emit_from_step;
    destruct (Z.ltb_spec 0 step) as [Hstep | Hstep];
    destruct (Z.ltb_spec s n) as [Hlt | Hlt];
    destruct (Z.ltb_spec (Z.min (s + w) n - s) m) as [Hm | Hm];
    cbn [andb nth_error]; try discriminate.
  - intros [= <-]. cbn [fst snd]. lia.
  - intros H. apply IH in H. lia.
Qed.

Lemma nth_error_split {A : Type} (pre : list A) (a : A) (post : list A) :
  nth_error (pre ++ a :: post) (List.length pre) = Some a.
Proof.
  rewrite nth_error_app2 by lia. now rewrite Nat.sub_diag.
Qed.

(** Counterexample to C6: with a window of 400 and an overlap of 300 the
    ranges [700,1000) and [800,1000) are consecutive, neither is the final
    range [900,1000), and they share 200 residues, not 300. *)
Lemma overlap_differs_before_the_final_range :
  let cfg := {| WINDOW_SIZE := 400; OVERLAP := 300; MIN_FRAGMENT_SIZE := 50 |} in
  0 < OVERLAP cfg < WINDOW_SIZE cfg
  /\ exists ranges pre a b c post,
       App.chunks cfg 1000 = Some ranges
       /\ ranges = (pre ++ a :: b :: c :: post)%list
       /\ snd a - fst b <> OVERLAP cfg.
Proof.
  cbn zeta. split; [cbn; lia |].
  exists [(0, 400); (100, 500); (200, 600); (300, 700); (400, 800);
          (500, 900); (600, 1000); (700, 1000); (800, 1000); (900, 1000)].
  exists [(0, 400); (100, 500); (200, 600); (300, 700); (400, 800);
          (500, 900); (600, 1000)].
  exists (700, 1000), (800, 1000), (900, 1000), [].
  split; [reflexivity |]. split; [reflexivity |]. cbn. lia.
Qed.

(** C6, amended. For [0 < overlap < window_size] the planner emits a list
    of ranges in which: consecutive starts are exactly [window_size -
    overlap] apart, hence strictly increasing; every range starts at 0 or
    later, ends at [sequence_length] or before, and is at least
    [min_fragment_size] and at most [window_size] long; two consecutive
    ranges share exactly [overlap] residues whenever the earlier one is a
    full window; and when the overlap is at most half the window, as with
    the settings 400 and 200 of the code, every consecutive pair whose
    later range is not the final one shares exactly [overlap] residues. *)
Theorem window_planner_invariants :
  forall (cfg : Config) (sequence_length : Z),
    0 < OVERLAP cfg < WINDOW_SIZE cfg ->
    exists ranges,
      App.chunks cfg sequence_length = Some ranges
      /\ (forall pre a b post,
            ranges = (pre ++ a :: b :: post)%list ->
            fst b = fst a + (WINDOW_SIZE cfg - OVERLAP cfg) /\ fst a < fst b)
      /\ (forall r,
            In r ranges ->
            0 <= fst r /\ snd r <= sequence_length
            /\ MIN_FRAGMENT_SIZE cfg <= snd r - fst r <= WINDOW_SIZE cfg)
      /\ (forall pre a b post,
            ranges = (pre ++ a :: b :: post)%list ->
            snd a - fst a = WINDOW_SIZE cfg ->
            snd a - fst b = OVERLAP cfg)
      /\ (2 * OVERLAP cfg <= WINDOW_SIZE cfg ->
          forall pre a b c post,
            ranges = (pre ++ a :: b :: c :: post)%list ->
            snd a - fst b = OVERLAP cfg).
Proof.
  intros cfg n Hcfg.
  assert (Hstep : 0 < WINDOW_SIZE cfg - OVERLAP cfg) by lia.
  set (step := WINDOW_SIZE cfg - OVERLAP cfg) in *.
  set (m := MIN_FRAGMENT_SIZE cfg).
  exists (emit_from n (WINDOW_SIZE cfg) step m 0).
  assert (Hat : forall pre a post,
    emit_from n (WINDOW_SIZE cfg) step m 0 = (pre ++ a :: post)%list ->
    fst a = Z.of_nat (List.length pre) * step
    /\ snd a = Z.min (fst a + WINDOW_SIZE cfg) n
    /\ fst a < n /\ m <= snd a - fst a).
  { intros pre a post Heq.
    pose proof (nth_error_split pre a post) as Hnth. rewrite <- Heq in Hnth.
    apply emit_from_nth in Hnth. lia. }
  assert (Hnext : forall pre a b post,
    emit_from n (WINDOW_SIZE cfg) step m 0 = (pre ++ a :: b :: post)%list ->
    fst b = fst a + step).
  { intros pre a b post Heq.
    pose proof (Hat pre a (b :: post) Heq) as Ha.
    replace (pre ++ a :: b :: post)%list with ((pre ++ [a]) ++ b :: post)%list
      in Heq by (now rewrite <- app_assoc).
    pose proof (Hat (pre ++ [a])%list b post Heq) as Hb.
    rewrite length_app in Hb. cbn [List.length] in Hb. lia. }
  split; [| split; [| split; [| split]]].
  - unfold App.chunks. fold step. rewrite range_positive_step by exact Hstep.
    f_equal. exact (chunks_loop_emit_from cfg n Hstep _ 0 eq_refl).
  - intros pre a b post Heq. pose proof (Hnext pre a b post Heq). lia.
  - intros r Hin. apply in_split in Hin as [pre [post Heq]].
    pose proof (Hat pre r post Heq). nia.
  - intros pre a b post Heq Hfull. pose proof (Hnext pre a b post Heq). lia.
  - intros Hhalf pre a b c post Heq.
    pose proof (Hnext pre a b (c :: post) Heq) as Hb.
    pose proof (Hat pre a (b :: c :: post) Heq) as Ha.
    replace (pre ++ a :: b :: c :: post)%list
      with ((pre ++ [a]) ++ b :: c :: post)%list
      in Heq by (now rewrite <- app_assoc).
    pose proof (Hnext (pre ++ [a])%list b c post Heq) as Hc.
    replace ((pre ++ [a]) ++ b :: c :: post)%list
      with ((pre ++ [a; b]) ++ c :: post)%list
      in Heq by (now rewrite <- !app_assoc).
    pose proof (Hat (pre ++ [a; b])%list c post Heq) as Hcn.
    lia.
Qed.

Lemma window_planner_invariants_witness :
  0 < OVERLAP settings < WINDOW_SIZE settings
  /\ exists ranges, App.chunks settings 900 = Some ranges.
Proof.
  split; [cbn; lia |].
  destruct (window_planner_invariants settings 900 ltac:(cbn; lia))
    as [ranges [H _]].
  exists ranges. exact H.
Defined.

(** [range] over a sequence with a negative step yields nothing. *)
Lemma range_negative_step (full_sequence : string) (step : Z) :
  step < 0 -> Py.range 0 (Py.len full_sequence) step = Some [].
Proof.
  intros Hstep. unfold Py.range, Py.range_length, Py.len.
  destruct (Z.eqb_spec step 0); [lia |].
  destruct (Z.ltb_spec 0 step); [lia |].
  destruct (Z.ltb_spec (Z.of_nat (String.length full_sequence)) 0); [lia |].
  reflexivity.
Qed.

(** Counterexample to C7: with a window of 200 and an overlap of 400 the
    step is negative, and planning raises nothing: the planner emits the
    empty list, and both windowed runs on a sequence of 1000 residues end
    with the report that no knots were detected. *)
Lemma negative_step_raises_nothing :
  let cfg := {| WINDOW_SIZE := 200; OVERLAP := 400; MIN_FRAGMENT_SIZE := 50 |} in
  WINDOW_SIZE cfg - OVERLAP cfg <= 0
  /\ App.chunks cfg 1000 = Some []
  /\ fst (AlphaLookup.main cfg (Sample.world Sample.normalized_doc Sample.trefoil)
            (Sample.poly_alanine 1000) initial_state)
     = REPORT None NO_KNOTS_DETECTED []
  /\ fst (App.run_analysis cfg (Sample.world Sample.normalized_doc Sample.trefoil)
            (Sample.poly_alanine 1000) initial_state)
     = REPORT None NO_KNOTS_DETECTED [].
Proof.
  cbn zeta. split; [cbn; lia |]. repeat split; vm_compute; reflexivity.
Qed.

(** C7, amended. With a zero step, planning raises: [range] refuses the
    step with its [ValueError] before any fragment is analysed, nothing is
    posted, announced or written, and the run aborts. With a negative step
    nothing is raised: the planner emits no range, no fragment is analysed,
    nothing is posted, announced or written, and the run completes with an
    empty report. *)
Theorem non_positive_step_plans_no_fragment :
  forall (cfg : Config) (E : Env) (full_sequence : string) (st : State),
    WINDOW_SIZE cfg - OVERLAP cfg <= 0 ->
    (WINDOW_SIZE cfg - OVERLAP cfg = 0 ->
       App.chunks cfg (Py.len full_sequence) = None
       /\ AlphaLookup.run_sliding_window cfg E full_sequence st = (None, st)
       /\ App.large_sequence_logic cfg E full_sequence st = (RAISED, st))
    /\ (WINDOW_SIZE cfg - OVERLAP cfg < 0 ->
       App.chunks cfg (Py.len full_sequence) = Some []
       /\ AlphaLookup.run_sliding_window cfg E full_sequence st = (Some [], st)
       /\ App.large_sequence_logic cfg E full_sequence st
          = (REPORT None NO_KNOTS_DETECTED [], st)).
Proof.
  intros cfg E full_sequence st _. split; intros Hstep.
  - unfold App.large_sequence_logic, App.chunks, AlphaLookup.run_sliding_window.
    rewrite Hstep. repeat split; reflexivity.
  - unfold App.large_sequence_logic, App.chunks, AlphaLookup.run_sliding_window.
    rewrite range_negative_step by exact Hstep. repeat split; reflexivity.
Qed.

Lemma non_positive_step_plans_no_fragment_witness :
  let cfg := {| WINDOW_SIZE := 300; OVERLAP := 300; MIN_FRAGMENT_SIZE := 50 |} in
  WINDOW_SIZE cfg - OVERLAP cfg <= 0
  /\ fst (AlphaLookup.run_sliding_window cfg Sample.service_down
            (Sample.poly_alanine 1000) initial_state) = None.
Proof.
  cbn zeta. split; [cbn; lia |].
  destruct (non_positive_step_plans_no_fragment
              {| WINDOW_SIZE := 300; OVERLAP := 300; MIN_FRAGMENT_SIZE := 50 |}
              Sample.service_down (Sample.poly_alanine 1000) initial_state
              ltac:(cbn; lia)) as [Hzero _].
  destruct (Hzero eq_refl) as [_ [H _]]. now rewrite H.
Defined.

(* ================================================================== *)
(** * Runs in which every request fails *)
(* ================================================================== *)

Section ServiceDown.

Variable E : Env.
Hypothesis down : forall n data, succeeded (requests_post E n data) = false.

Lemma retrieve_structure_fails (sequence filename : string) (st : State) :
  fst (AlphaLookup.retrieve_structure E sequence filename st) = None.
Proof.
  unfold AlphaLookup.retrieve_structure, post.
  pose proof (down (List.length (posted st)) (sanitize sequence)) as H.
  destruct (requests_post E _ _) as [[status_code text] |]; [| reflexivity].
  cbn in H. now rewrite H.
Qed.

Lemma analyze_chunk_fails (sequence : string) (start_index end_index : Z)
  (st : State) :
  fst (AlphaLookup.analyze_chunk E sequence start_index end_index st) =
  (false, None, 0%float, None).
Proof.
  unfold AlphaLookup.analyze_chunk.
  match goal with
  | |- context [AlphaLookup.retrieve_structure E ?s ?f ?st0] =>
      pose proof (retrieve_structure_fails s f st0) as H;
      destruct (AlphaLookup.retrieve_structure E s f st0) as [pdb_file st1]
  end.
  cbn in H. now subst pdb_file.
Qed.

Lemma sliding_loop_fails (cfg : Config) (full_sequence : string) (seq_len : Z)
  (starts : list Z) :
  forall (knots_found : list AlphaLookup.Knot) (st : State),
    fst (AlphaLookup.sliding_loop cfg E full_sequence seq_len starts
           knots_found st) = knots_found.
Proof.
  induction starts as [| start rest IH]; intros knots_found st; [reflexivity |].
  cbn [AlphaLookup.sliding_loop].
  destruct (_ <? _); [reflexivity |].
  match goal with
  | |- context [AlphaLookup.analyze_chunk E ?s ?a ?b st] =>
      pose proof (analyze_chunk_fails s a b st) as H;
      destruct (AlphaLookup.analyze_chunk E s a b st)
        as [[[[is_knotted k_type] qual] fname] st1]
  end.
  cbn in H. injection H as -> _ _ _. apply IH.
Qed.

Lemma analysis_loop_fails (clean_seq : string) (chunks : list (Z * Z)) :
  forall (results : list App.Row) (st : State),
    fst (App.analysis_loop E clean_seq chunks results st) = results.
Proof.
  induction chunks as [| [start end_] rest IH]; intros results st;
    [reflexivity |].
  cbn [App.analysis_loop]. unfold post.
  match goal with
  | |- context [requests_post E ?n ?d] =>
      pose proof (down n d) as H; destruct (requests_post E n d) as [[c t] |]
  end.
  - cbn in H. rewrite H. apply IH.
  - apply IH.
Qed.

End ServiceDown.

Lemma range_nonzero_step (start stop step : Z) :
  step <> 0 -> exists starts, Py.range start stop step = Some starts.
Proof.
  intros Hstep. unfold Py.range.
  destruct (Z.eqb_spec step 0); [contradiction |]. eauto.
Qed.

(** C3. When every request of a windowed run fails, in transport or with a
    status other than 200, the analysis of each fragment returns the
    no-result tuple, the run completes, the list of knotted fragments is
    empty and the conclusion is that no knots were detected, in
    [alpha_lookup.py] and in [app.py]. *)
Theorem all_fragments_failing_reports_no_knots :
  forall (cfg : Config) (E : Env) (sequence : string) (st : State),
    (forall n data, succeeded (requests_post E n data) = false) ->
    WINDOW_SIZE cfg - OVERLAP cfg <> 0 ->
    400 < Py.len (Py.strip sequence) ->
    400 < Py.len sequence ->
    (forall fragment start_index end_index st',
       fst (AlphaLookup.analyze_chunk E fragment start_index end_index st') =
       (false, None, 0%float, None))
    /\ fst (AlphaLookup.run_sliding_window cfg E (Py.strip sequence) st) = Some []
    /\ fst (AlphaLookup.main cfg E sequence st) = REPORT None NO_KNOTS_DETECTED []
    /\ fst (App.run_analysis cfg E sequence st) = REPORT None NO_KNOTS_DETECTED [].
Proof.
  intros cfg E sequence st Hdown Hstep Hlong1 Hlong2.
  assert (Hrun : forall s,
    fst (AlphaLookup.run_sliding_window cfg E s st) = Some []).
  { intros s. unfold AlphaLookup.run_sliding_window.
    destruct (range_nonzero_step 0 (Py.len s) _ Hstep) as [starts ->].
    pose proof (sliding_loop_fails E Hdown cfg s (Py.len s) starts [] st) as H.
    destruct (AlphaLookup.sliding_loop _ _ _ _ _ _ _) as [found st1].
    cbn in H. now subst found. }
  split; [| split; [| split]].
  - intros. now apply analyze_chunk_fails.
  - apply Hrun.
  - unfold AlphaLookup.main.
    rewrite (proj2 (Z.ltb_lt _ _) Hlong1).
    specialize (Hrun (Py.strip sequence)).
    destruct (AlphaLookup.run_sliding_window _ _ _ _) as [[results |] st1];
      cbn in Hrun; [| discriminate].
    injection Hrun as ->. reflexivity.
  - unfold App.run_analysis, App.large_sequence_logic, App.chunks.
    rewrite (proj2 (Z.ltb_lt _ _) Hlong2).
    destruct (range_nonzero_step 0 (Py.len sequence) _ Hstep) as [starts ->].
    pose proof (analysis_loop_fails E Hdown sequence
                  (App.chunks_loop cfg (Py.len sequence) starts) [] st) as H.
    destruct (App.analysis_loop _ _ _ _ _) as [results st1].
    cbn in H. now subst results.
Qed.

Lemma service_down_never_succeeds :
  forall n data, succeeded (requests_post Sample.service_down n data) = false.
Proof.
  intros n data. cbn. destruct (Nat.even n); reflexivity.
Defined.

Lemma all_fragments_failing_reports_no_knots_witness :
  fst (AlphaLookup.main settings Sample.service_down
         (Sample.poly_alanine 1000) initial_state)
  = REPORT None NO_KNOTS_DETECTED []
  /\ fst (App.run_analysis settings Sample.service_down
            (Sample.poly_alanine 1000) initial_state)
     = REPORT None NO_KNOTS_DETECTED [].
Proof.
  destruct (all_fragments_failing_reports_no_knots settings Sample.service_down
              (Sample.poly_alanine 1000) initial_state
              service_down_never_succeeds
              ltac:(cbn; lia) ltac:(vm_compute; reflexivity)
              ltac:(vm_compute; reflexivity)) as [_ [_ [H1 H2]]].
  split; assumption.
Defined.

(* ================================================================== *)
(** * The order of binary64 values, and [max] over a dictionary *)
(* ================================================================== *)

Lemma lex_lt (a1 a2 a3 b1 b2 b3 : Z) :
  lex (a1, a2, a3) (b1, b2, b3) = Lt <->
  a1 < b1 \/ (a1 = b1 /\ (a2 < b2 \/ (a2 = b2 /\ a3 < b3))).
Proof.
  unfold lex.
  destruct (Z.compare_spec a1 b1); destruct (Z.compare_spec a2 b2);
    destruct (Z.compare_spec a3 b3);
    split; intros Hlex; try discriminate; try reflexivity; lia.
Qed.

(** The comparison of two values is the lexicographic comparison of their
    keys, and there is none when either is NaN. *)
Lemma SFcompare_key (x y : spec_float) :
  SFcompare x y =
  match sf_key x, sf_key y with
  | Some a, Some b => Some (lex a b)
  | _, _ => None
  end.
Proof.
  destruct x as [sx | sx | | sx mx ex]; destruct y as [sy | sy | | sy my ey];
    try destruct sx; try destruct sy; try reflexivity.
  cbn. rewrite Z.compare_opp, (Z.compare_antisym ex ey).
  destruct (ex ?= ey); reflexivity.
Qed.

(** [x < y] on binary64 values, read on the keys. *)
Lemma ltb_key (x y : float) :
  (x <? y)%float = true <->
  exists a b,
    sf_key (Prim2SF x) = Some a /\ sf_key (Prim2SF y) = Some b /\ lex a b = Lt.
Proof.
  rewrite ltb_spec. unfold SFltb. rewrite SFcompare_key.
  destruct (sf_key (Prim2SF x)) as [a |]; destruct (sf_key (Prim2SF y)) as [b |].
  - split.
    + intros Hc. exists a, b. destruct (lex a b); try discriminate. auto.
    + intros [a' [b' [[= <-] [[= <-] ->]]]]. reflexivity.
  - split; [discriminate | intros [a' [b' [_ [Hb _]]]]; discriminate].
  - split; [discriminate | intros [a' [b' [Ha _]]]; discriminate].
  - split; [discriminate | intros [a' [b' [Ha _]]]; discriminate].
Qed.

(** [<] is transitive. *)
Lemma ltb_trans (x y z : float) :
  (x <? y)%float = true -> (y <? z)%float = true -> (x <? z)%float = true.
Proof.
  rewrite !ltb_key.
  intros [a [b [Ha [Hb Hab]]]] [b' [c [Hb' [Hc Hbc]]]].
  rewrite Hb in Hb'. injection Hb' as <-.
  exists a, c. repeat split; try assumption.
  destruct a as [[a1 a2] a3], b as [[b1 b2] b3], c as [[c1 c2] c3].
  rewrite lex_lt in *. lia.
Qed.

(** If [x < z], a value [y] that is not NaN and not below [z] is above
    [x]. *)
Lemma ltb_below_the_rest (x y z : float) :
  (x <? z)%float = true -> (y <? z)%float = false ->
  sf_key (Prim2SF y) <> None ->
  (x <? y)%float = true.
Proof.
  intros Hxz Hyz Hy.
  apply ltb_key in Hxz as [a [c [Ha [Hc Hac]]]].
  destruct (sf_key (Prim2SF y)) as [b |] eqn:Hb; [| contradiction].
  apply ltb_key. exists a, b. repeat split; try assumption.
  destruct (lex b c) eqn:Hbc.
  1,3: destruct a as [[a1 a2] a3], b as [[b1 b2] b3], c as [[c1 c2] c3];
       rewrite lex_lt in *; unfold lex in Hbc;
       destruct (Z.compare_spec b1 c1); destruct (Z.compare_spec b2 c2);
       destruct (Z.compare_spec b3 c3); try discriminate; lia.
  exfalso. assert ((y <? z)%float = true) as Hcontra; [| congruence].
  apply ltb_key. exists b, c. auto.
Qed.

(** NaN is below nothing. *)
Lemma ltb_nan (x y : float) :
  sf_key (Prim2SF x) = None -> (x <? y)%float = false.
Proof.
  intros Hx. destruct (x <? y)%float eqn:Hlt; [| reflexivity].
  apply ltb_key in Hlt as [a [b [Ha _]]]. congruence.
Qed.

(** From a NaN, the loop of [max] never moves. *)
Lemma max_loop_nan (best : string * float) (items : Py.dict) :
  sf_key (Prim2SF (snd best)) = None -> Py.max_loop best items = best.
Proof.
  intros Hnan. induction items as [| item rest IH]; [reflexivity |].
  cbn [Py.max_loop]. now rewrite ltb_nan.
Qed.

(** What the loop of [max] returns: the start or one of the items, with a
    value that no item and not the start exceeds. *)
Lemma max_loop_spec (items : Py.dict) :
  forall best : string * float,
    let r := Py.max_loop best items in
    (r = best \/ In r items)
    /\ (snd r <? snd best)%float = false
    /\ (forall x, In x items -> (snd r <? snd x)%float = false).
Proof.
  induction items as [| item rest IH]; intros best; cbn zeta.
  - cbn [Py.max_loop]. split; [now left |]. split; [| intros x []].
    destruct (snd best <? snd best)%float eqn:Hlt; [| reflexivity].
    apply ltb_key in Hlt as [a [b [Ha [Hb Hab]]]].
    rewrite Ha in Hb. injection Hb as <-.
    destruct a as [[a1 a2] a3]. rewrite lex_lt in Hab. lia.
  - cbn [Py.max_loop].
    destruct (snd best <? snd item)%float eqn:Hstep.
    + destruct (IH item) as [Hin [Hitem Hrest]].
      split; [right; destruct Hin as [-> | Hin]; [now left | now right] |].
      split.
      * destruct (snd (Py.max_loop item rest) <? snd best)%float eqn:Hlt;
          [| reflexivity].
        rewrite (ltb_trans _ _ _ Hlt Hstep) in Hitem. discriminate.
      * intros x [<- | Hx]; [exact Hitem | now apply Hrest].
    + destruct (IH best) as [Hin [Hbest Hrest]].
      split; [destruct Hin as [-> | Hin]; [now left | right; now right] |].
      split; [exact Hbest |].
      intros x [<- | Hx]; [| now apply Hrest].
      destruct (sf_key (Prim2SF (snd best))) as [k |] eqn:Hk.
      * destruct (snd (Py.max_loop best rest) <? snd item)%float eqn:Hlt;
          [| reflexivity].
        rewrite (ltb_below_the_rest _ _ _ Hlt Hstep) in Hbest;
          [discriminate | congruence].
      * rewrite max_loop_nan by exact Hk. exact Hstep.
Qed.

(** [max(d, key=d.get)] on a dictionary that is not empty. *)
Lemma max_by_value_spec (d : Py.dict) :
  d <> [] ->
  exists k v,
    Py.max_by_value d = Some (k, v) /\ In (k, v) d
    /\ forall x, In x d -> (v <? snd x)%float = false.
Proof.
  destruct d as [| first rest]; [contradiction |]. intros _.
  destruct (max_loop_spec rest first) as [Hin [Hfirst Hrest]].
  destruct (Py.max_loop first rest) as [k v] eqn:Hmax.
  exists k, v. cbn [Py.max_by_value]. rewrite Hmax.
  split; [reflexivity |]. split.
  - destruct Hin as [<- | Hin]; [now left | now right].
  - intros x [<- | Hx]; [exact Hfirst | now apply Hrest].
Qed.

(* ================================================================== *)
(** * The topology adapter *)
(* ================================================================== *)

(** Counterexample to C4: on the distribution that gives 0.7 to the
    unknotted label and 0.3 to the trefoil, the knotted probability that
    the three variants return does not compare equal to 0.3: it is
    [1.0 - 0.7], the binary64 value 0.30000000000000004. And in the
    pipeline, whose adapter calls [topoly.jones] in the same [try] block,
    a Jones computation that raises leaves neither the dominant type nor
    the knotted probability of the distribution: on the distribution that
    gives 0.75 to the trefoil the lookup returns the trefoil with 0.75 and
    the pipeline returns no type with 0.0. *)
Lemma knotted_probability_of_the_example_differs_from_0_3 :
  let E := Sample.world Sample.percent_doc Sample.mostly_unknotted in
  let st := write_file "analysis_result.pdb" Sample.percent_doc initial_state in
  AlphaLookup.run_topology_analysis E st "analysis_result.pdb"
    = (Some "0_1", 0%float, 0.30000000000000004%float)
  /\ (snd (AlphaLookup.run_topology_analysis E st "analysis_result.pdb")
        =? 0.3)%float = false
  /\ (snd (Pipeline.run_topology_analysis E st "analysis_result.pdb")
        =? 0.3)%float = false
  /\ (snd (App.run_topology_analysis E st "analysis_result.pdb")
        =? 0.3)%float = false
  /\ topoly_alexander Fixture.jones_down "analysis_result.pdb"
       Sample.percent_doc = Some (Some Sample.trefoil)
  /\ AlphaLookup.run_topology_analysis Fixture.jones_down st
       "analysis_result.pdb" = (Some "3_1", 0%float, 0.75%float)
  /\ Pipeline.run_topology_analysis Fixture.jones_down st
       "analysis_result.pdb" = (None, 0%float, 0%float).
Proof.
  cbn zeta. repeat split; vm_compute; reflexivity.
Qed.

(** C4, amended. For every distribution that is not empty the lookup and the
    application return as dominant type a label whose probability no label
    of the distribution exceeds, and as knotted probability one minus the
    probability of the label 0_1, taken as 0.0 when it is absent, in
    binary64 arithmetic; so does the pipeline when its Jones computation
    returns. For the distribution that gives 0.7 to 0_1 and 0.3 to 3_1
    they return the dominant type 0_1 and the knotted probability
    [1.0 - 0.7], which is 0.30000000000000004 and within [2^-54] of 0.3.
    For an empty distribution, and when the library returns [None], they
    return the type 0_1 with knotted probability 0.0. When the Jones
    computation raises, the pipeline returns no type, the confidence 0.0
    and the knotted probability 0.0, whatever the distribution, and its
    verdict on that is unknotted. *)
Theorem topology_adapter_verdict :
  forall (E : Env) (st : State) (pdb_path : string) (doc : document),
    files st pdb_path = Some doc ->
    (forall d,
       topoly_alexander E pdb_path doc = Some (Some d) -> d <> [] ->
       let '(alpha_type, _, alpha_prob) :=
         AlphaLookup.run_topology_analysis E st pdb_path in
       let '(app_type, app_prob) := App.run_topology_analysis E st pdb_path in
       let '(pipeline_type, _, pipeline_prob) :=
         Pipeline.run_topology_analysis E st pdb_path in
       verdict_of d alpha_type alpha_prob
       /\ verdict_of d app_type app_prob
       /\ (topoly_jones E pdb_path doc = true ->
           verdict_of d pipeline_type pipeline_prob))
    /\ (topoly_alexander E pdb_path doc = Some (Some Sample.mostly_unknotted) ->
        AlphaLookup.run_topology_analysis E st pdb_path
          = (Some "0_1", 0%float, (1 - 0.7)%float)
        /\ App.run_topology_analysis E st pdb_path
          = (Some "0_1", (1 - 0.7)%float)
        /\ (topoly_jones E pdb_path doc = true ->
            Pipeline.run_topology_analysis E st pdb_path
            = (Some "0_1", 0.7%float, (1 - 0.7)%float))
        /\ (1 - 0.7)%float = 0.30000000000000004%float
        /\ (abs ((1 - 0.7) - 0.3) <=? 0x1p-54)%float = true)
    /\ (topoly_alexander E pdb_path doc = Some (Some [])
        \/ topoly_alexander E pdb_path doc = Some None ->
        AlphaLookup.run_topology_analysis E st pdb_path
          = (Some "0_1", 0%float, 0%float)
        /\ App.run_topology_analysis E st pdb_path = (Some "0_1", 0%float)
        /\ (topoly_jones E pdb_path doc = true ->
            Pipeline.run_topology_analysis E st pdb_path
            = (Some "0_1", 0%float, 0%float)))
    /\ (topoly_jones E pdb_path doc = false ->
        Pipeline.run_topology_analysis E st pdb_path
          = (None, 0%float, 0%float)
        /\ Pipeline.topology_verdict None 0 = UNKNOTTED).
Proof.
  intros E st pdb_path doc Hfile.
  unfold AlphaLookup.run_topology_analysis, Pipeline.run_topology_analysis,
    App.run_topology_analysis.
  rewrite Hfile. split; [| split; [| split]].
  - intros d -> Hd.
    destruct (max_by_value_spec d Hd) as [k [v [Hmax [Hin Htop]]]].
    rewrite Hmax. destruct d as [| first rest]; [contradiction |].
    destruct (topoly_jones E pdb_path doc).
    + repeat split; exists k, v; auto.
    + repeat split; try discriminate; exists k, v; auto.
  - intros ->. destruct (topoly_jones E pdb_path doc);
      repeat split; discriminate.
  - intros [-> | ->]; destruct (topoly_jones E pdb_path doc);
      repeat split; discriminate.
  - intros ->. split; [| reflexivity].
    now destruct (topoly_alexander E pdb_path doc).
Qed.

Lemma topology_adapter_verdict_witness :
  let E := Sample.world Sample.percent_doc Sample.trefoil in
  let st := write_file "analysis_result.pdb" Sample.percent_doc initial_state in
  files st "analysis_result.pdb" = Some Sample.percent_doc
  /\ topoly_alexander E "analysis_result.pdb" Sample.percent_doc
     = Some (Some Sample.trefoil)
  /\ verdict_of Sample.trefoil (Some "3_1") 0.75%float
  /\ Pipeline.run_topology_analysis Fixture.jones_down st "analysis_result.pdb"
     = (None, 0%float, 0%float).
Proof.
  cbn zeta. split; [reflexivity |]. split; [reflexivity |]. split.
  - destruct (topology_adapter_verdict
                (Sample.world Sample.percent_doc Sample.trefoil)
                (write_file "analysis_result.pdb" Sample.percent_doc
                   initial_state)
                "analysis_result.pdb" Sample.percent_doc eq_refl)
      as [H _].
    specialize (H Sample.trefoil eq_refl ltac:(discriminate)).
    destruct H as [H _]. exact H.
  - apply (topology_adapter_verdict Fixture.jones_down
             (write_file "analysis_result.pdb" Sample.percent_doc
                initial_state)
             "analysis_result.pdb" Sample.percent_doc eq_refl).
    reflexivity.
Defined.

(* ================================================================== *)
(** * The quality assessor *)
(* ================================================================== *)

(** What the three variants return when some confidence value parses: the
    pipeline and the lookup rescale a mean of at most 1.0, the application
    returns the mean as it is. *)
Lemma quality_of_parsed_values (E : Env) (st : State) (pdb_path : string)
  (lines : document) :
  files st pdb_path = Some lines ->
  plddt_values E lines <> [] ->
  let mean := np_mean E (plddt_values E lines) in
  Pipeline.calculate_plddt E st pdb_path
    = (if (mean <=? 1)%float then (mean * 100)%float else mean)
  /\ AlphaLookup.calculate_plddt E st pdb_path
    = (if (mean <=? 1)%float then (mean * 100)%float else mean)
  /\ App.calculate_plddt E st pdb_path = mean.
Proof.
  intros Hfile Hvalues mean. subst mean.
  unfold Pipeline.calculate_plddt, AlphaLookup.calculate_plddt,
    App.calculate_plddt.
  rewrite Hfile. destruct (plddt_values E lines); [contradiction |].
  repeat split.
Qed.

(** C2, at the failing input: a structure whose two confidence values are
    0.50 has the mean 0.5; the pipeline and the lookup return 50.0 for it,
    the application returns 0.5. *)
Theorem application_returns_the_mean_unscaled :
  let E := Sample.world Sample.normalized_doc Sample.trefoil in
  let st := write_file "analysis_result.pdb" Sample.normalized_doc initial_state in
  plddt_values E Sample.normalized_doc = [0.5%float; 0.5%float]
  /\ np_mean E [0.5%float; 0.5%float] = 0.5%float
  /\ Pipeline.calculate_plddt E st "analysis_result.pdb" = 50%float
  /\ AlphaLookup.calculate_plddt E st "analysis_result.pdb" = 50%float
  /\ App.calculate_plddt E st "analysis_result.pdb" = 0.5%float.
Proof.
  cbn zeta. repeat split; vm_compute; reflexivity.
Qed.

(** No value is collected from a document in which no atom record yields a
    number. *)
Lemma plddt_values_of_unscored (E : Env) (lines : document) :
  (forall line,
     In line lines -> prefix "ATOM" line = true ->
     py_float E (Py.strip (Py.slice line 60 66)) = None) ->
  plddt_values E lines = [].
Proof.
  induction lines as [| line rest IH]; intros Hnone; [reflexivity |].
  cbn [plddt_values].
  destruct (prefix "ATOM" line) eqn:Hatom.
  - rewrite (Hnone line (or_introl eq_refl) Hatom).
    apply IH. intros l Hl. apply Hnone. now right.
  - apply IH. intros l Hl. apply Hnone. now right.
Qed.

(** C9. For a structure document in which no atom record yields a number
    in columns 60 to 66, the pipeline returns 100.0 while the lookup and
    the application return 0.0, and these two defaults are different. *)
Theorem default_quality_differs_between_variants :
  forall (E : Env) (st : State) (pdb_path : string) (lines : document),
    files st pdb_path = Some lines ->
    (forall line,
       In line lines -> prefix "ATOM" line = true ->
       py_float E (Py.strip (Py.slice line 60 66)) = None) ->
    Pipeline.calculate_plddt E st pdb_path = 100%float
    /\ AlphaLookup.calculate_plddt E st pdb_path = 0%float
    /\ App.calculate_plddt E st pdb_path = 0%float
    /\ (100 =? 0)%float = false.
Proof.
  intros E st pdb_path lines Hfile Hnone.
  unfold Pipeline.calculate_plddt, AlphaLookup.calculate_plddt,
    App.calculate_plddt.
  rewrite Hfile, (plddt_values_of_unscored E lines Hnone).
  repeat split.
Qed.

Lemma unscored_doc_yields_no_number :
  forall line,
    In line Sample.unscored_doc -> prefix "ATOM" line = true ->
    py_float (Sample.world Sample.unscored_doc Sample.trefoil)
      (Py.strip (Py.slice line 60 66)) = None.
Proof.
  intros line [<- | [<- | [<- | []]]] Hatom; try discriminate; reflexivity.
Defined.

Lemma default_quality_differs_between_variants_witness :
  let E := Sample.world Sample.unscored_doc Sample.trefoil in
  let st := write_file "analysis_result.pdb" Sample.unscored_doc initial_state in
  Pipeline.calculate_plddt E st "analysis_result.pdb" = 100%float
  /\ AlphaLookup.calculate_plddt E st "analysis_result.pdb" = 0%float.
Proof.
  cbn zeta.
  destruct (default_quality_differs_between_variants
              (Sample.world Sample.unscored_doc Sample.trefoil)
              (write_file "analysis_result.pdb" Sample.unscored_doc initial_state)
              "analysis_result.pdb" Sample.unscored_doc eq_refl
              unscored_doc_yields_no_number) as [H1 [H2 _]].
  split; assumption.
Defined.

(* ================================================================== *)
(** * The threshold *)
(* ================================================================== *)

(** What [retrieve_structure] returns is the file name it was given. *)
Lemma retrieve_structure_some (E : Env) (sequence filename f : string)
  (st st1 : State) :
  AlphaLookup.retrieve_structure E sequence filename st = (Some f, st1) ->
  f = filename.
Proof.
  unfold AlphaLookup.retrieve_structure.
  destruct (post E (sanitize sequence) st) as [[[status_code text] |] st0];
    [| discriminate].
  destruct (status_code =? 200); [| discriminate].
  destruct (save filename text st0) as [[|] st2];
    [now intros [= <- _] | discriminate].
Qed.

(** The three-way verdict of the pipeline and of the application. *)
Lemma three_way_verdict (knot_type : option string) (prob : float) :
  Pipeline.topology_verdict knot_type prob
    = App.small_sequence_verdict knot_type prob
  /\ ((KNOT_THRESHOLD <? prob)%float = true ->
      Pipeline.topology_verdict knot_type prob = KNOT_DETECTED knot_type)
  /\ ((KNOT_THRESHOLD <? prob)%float = false -> (prob <? 0.2)%float = true ->
      Pipeline.topology_verdict knot_type prob = UNKNOTTED)
  /\ ((KNOT_THRESHOLD <? prob)%float = false -> (prob <? 0.2)%float = false ->
      Pipeline.topology_verdict knot_type prob = AMBIGUOUS).
Proof.
  unfold Pipeline.topology_verdict, App.small_sequence_verdict.
  repeat split; intros; repeat match goal with H : _ = _ |- _ => rewrite H end;
    reflexivity.
Qed.

(** C5. A fragment whose structure was retrieved is knotted exactly when
    the knotted probability of its structure is strictly greater than
    [KNOT_THRESHOLD], and it is not knotted when that probability is 0.50;
    the verdict of the pipeline is a detected knot exactly when the
    probability is strictly greater than the threshold, and it is not for
    0.50. *)
Theorem knotted_iff_strictly_above_threshold :
  forall (E : Env) (sequence : string) (start_index end_index : Z)
         (st st1 : State) (f : string),
    AlphaLookup.retrieve_structure E sequence
      (fragment_file start_index end_index)
      (announce start_index end_index st) = (Some f, st1) ->
    let prob := snd (AlphaLookup.run_topology_analysis E st1 f) in
    let result :=
      fst (AlphaLookup.analyze_chunk E sequence start_index end_index st) in
    (is_knotted result = true <-> (KNOT_THRESHOLD <? prob)%float = true)
    /\ (prob = 0.5%float -> is_knotted result = false)
    /\ (forall knot_type p,
          Pipeline.topology_verdict knot_type p = KNOT_DETECTED knot_type
          <-> (KNOT_THRESHOLD <? p)%float = true)
    /\ (forall knot_type,
          Pipeline.topology_verdict knot_type 0.5 <> KNOT_DETECTED knot_type).
Proof.
  intros E sequence start_index end_index st st1 f Hget prob result.
  assert (Hresult :
    is_knotted result = (KNOT_THRESHOLD <? prob)%float).
  { subst result prob. unfold AlphaLookup.analyze_chunk.
    fold (fragment_file start_index end_index). rewrite Hget.
    apply retrieve_structure_some in Hget as ->.
    replace (truthy (Some (fragment_file start_index end_index))) with true
      by reflexivity.
    destruct (AlphaLookup.run_topology_analysis E st1 _) as [[knot_type c] p].
    cbn [snd]. destruct (KNOT_THRESHOLD <? p)%float; reflexivity. }
  split; [| split; [| split]].
  - now rewrite Hresult.
  - intros Hhalf. rewrite Hresult, Hhalf. reflexivity.
  - intros knot_type p. unfold Pipeline.topology_verdict.
    destruct (KNOT_THRESHOLD <? p)%float; [tauto |].
    destruct (p <? 0.2)%float; split; discriminate.
  - intros knot_type. vm_compute. discriminate.
Qed.

Lemma knotted_iff_strictly_above_threshold_witness :
  let E := Sample.world Sample.normalized_doc Sample.at_threshold in
  snd (AlphaLookup.run_topology_analysis E
         (snd (AlphaLookup.retrieve_structure E (Sample.poly_alanine 400)
                 (fragment_file 1 400) (announce 1 400 initial_state)))
         (fragment_file 1 400)) = 0.5%float
  /\ is_knotted (fst (AlphaLookup.analyze_chunk E (Sample.poly_alanine 400)
                       1 400 initial_state)) = false.
Proof.
  cbn zeta. split; [vm_compute; reflexivity |].
  refine (proj1 (proj2 (knotted_iff_strictly_above_threshold
            (Sample.world Sample.normalized_doc Sample.at_threshold)
            (Sample.poly_alanine 400) 1 400 initial_state _ _ eq_refl)) _).
  vm_compute; reflexivity.
Defined.

(* ================================================================== *)
(** * The verdict of the direct mode *)
(* ================================================================== *)

(** The direct mode of the lookup never concludes that the topology is
    ambiguous. *)
Lemma lookup_direct_verdict_is_two_way (k_type : option string) (prob : float) :
  AlphaLookup.direct_verdict k_type prob <> AMBIGUOUS
  /\ ((KNOT_THRESHOLD <? prob)%float = false ->
      AlphaLookup.direct_verdict k_type prob = UNKNOTTED).
Proof.
  unfold AlphaLookup.direct_verdict.
  destruct (KNOT_THRESHOLD <? prob)%float; split; intros; try discriminate;
    reflexivity.
Qed.

(** C8, at the failing input: a sequence of 100 residues whose structure
    has the knotted probability [1.0 - 0.7], which is neither above the
    threshold nor below 0.2. The pipeline and the application conclude
    that the topology is ambiguous; the direct mode of the lookup
    concludes that the sequence is unknotted. *)
Theorem lookup_direct_mode_reports_unknotted_in_the_ambiguity_band :
  let E := Sample.world Sample.percent_doc Sample.mostly_unknotted in
  let typed := Sample.poly_alanine 100 in
  (KNOT_THRESHOLD <? 1 - 0.7)%float = false
  /\ (1 - 0.7 <? 0.2)%float = false
  /\ fst (Pipeline.main E typed initial_state)
     = REPORT (Some PASS) AMBIGUOUS []
  /\ fst (App.run_analysis settings E typed initial_state)
     = REPORT (Some PASS) AMBIGUOUS []
  /\ fst (AlphaLookup.main settings E typed initial_state)
     = REPORT (Some PASS) UNKNOTTED [].
Proof.
  cbn zeta. repeat split; vm_compute; reflexivity.
Qed.

(* ================================================================== *)
(** * The quality score decides nothing *)
(* ================================================================== *)

Section QualityBlind.

Variables E1 E2 : Env.
Hypothesis same : same_topology E1 E2.

(** The topology analysis reads the structure through the library only. *)
Lemma lookup_topology_quality_blind (st1 st2 : State) (f : string)
  (doc1 doc2 : document) :
  files st1 f = Some doc1 -> files st2 f = Some doc2 ->
  topoly_alexander E1 f doc1 = topoly_alexander E2 f doc2 ->
  AlphaLookup.run_topology_analysis E1 st1 f
  = AlphaLookup.run_topology_analysis E2 st2 f.
Proof.
  intros H1 H2 Htopo. unfold AlphaLookup.run_topology_analysis.
  now rewrite H1, H2, Htopo.
Qed.

Lemma application_topology_quality_blind (st1 st2 : State) (f : string)
  (doc1 doc2 : document) :
  files st1 f = Some doc1 -> files st2 f = Some doc2 ->
  topoly_alexander E1 f doc1 = topoly_alexander E2 f doc2 ->
  App.run_topology_analysis E1 st1 f = App.run_topology_analysis E2 st2 f.
Proof.
  intros H1 H2 Htopo. unfold App.run_topology_analysis.
  now rewrite H1, H2, Htopo.
Qed.

Lemma files_write_file (filename : string) (text : document) (st : State) :
  files (write_file filename text st) filename = Some text.
Proof.
  cbn [write_file files]. now rewrite String.eqb_refl.
Qed.

(** The analysis of one fragment in the two worlds, from states in which
    as many requests were posted and the directory takes writes alike: the
    same outcome, type and file, and as many requests posted afterwards. *)
Lemma analyze_chunk_quality_blind (sequence : string)
  (start_index end_index : Z) (st1 st2 : State) :
  List.length (posted st1) = List.length (posted st2) ->
  disk st1 = disk st2 ->
  let r1 := AlphaLookup.analyze_chunk E1 sequence start_index end_index st1 in
  let r2 := AlphaLookup.analyze_chunk E2 sequence start_index end_index st2 in
  is_knotted (fst r1) = is_knotted (fst r2)
  /\ snd (fst (fst (fst r1))) = snd (fst (fst (fst r2)))
  /\ List.length (posted (snd r1)) = List.length (posted (snd r2))
  /\ disk (snd r1) = disk (snd r2).
Proof.
  intros Hposted Hdisk. cbn zeta.
  unfold AlphaLookup.analyze_chunk, AlphaLookup.retrieve_structure, post, save.
  cbn [announce posted files disk].
  pose proof (same (List.length (posted st1)) (sanitize sequence)) as Hsame.
  rewrite <- Hposted, Hdisk.
  destruct (requests_post E1 _ _) as [[code1 doc1] |];
    destruct (requests_post E2 _ _) as [[code2 doc2] |];
    try contradiction.
  - destruct Hsame as [<- Htopo].
    destruct (code1 =? 200); [| cbn; auto].
    destruct (disk st2 _); [| cbn; auto | cbn; auto].
    match goal with
    | |- context [truthy (Some ?f)] =>
        replace (truthy (Some f)) with true by reflexivity
    end.
    match goal with
    | |- context [AlphaLookup.run_topology_analysis E1 ?s1 ?f] =>
        match goal with
        | |- context [AlphaLookup.run_topology_analysis E2 ?s2 f] =>
            rewrite (lookup_topology_quality_blind s1 s2 f doc1 doc2
                       (files_write_file _ _ _) (files_write_file _ _ _)
                       (Htopo f))
        end
    end.
    destruct (AlphaLookup.run_topology_analysis E2 _ _) as [[knot_type c] prob].
    destruct (KNOT_THRESHOLD <? prob)%float; cbn; auto.
  - cbn. auto.
Qed.

Lemma sliding_loop_quality_blind (cfg : Config) (full_sequence : string)
  (seq_len : Z) (starts : list Z) :
  forall (found1 found2 : list AlphaLookup.Knot) (st1 st2 : State),
    map knot_location found1 = map knot_location found2 ->
    List.length (posted st1) = List.length (posted st2) ->
    disk st1 = disk st2 ->
    map knot_location
      (fst (AlphaLookup.sliding_loop cfg E1 full_sequence seq_len starts
              found1 st1)) =
    map knot_location
      (fst (AlphaLookup.sliding_loop cfg E2 full_sequence seq_len starts
              found2 st2)).
Proof.
  induction starts as [| start rest IH];
    intros found1 found2 st1 st2 Hfound Hposted Hdisk; [exact Hfound |].
  cbn [AlphaLookup.sliding_loop].
  destruct (_ <? _); [exact Hfound |].
  match goal with
  | |- context [AlphaLookup.analyze_chunk E1 ?s ?a ?b st1] =>
      pose proof (analyze_chunk_quality_blind s a b st1 st2 Hposted Hdisk) as H;
      cbn zeta in H;
      destruct (AlphaLookup.analyze_chunk E1 s a b st1)
        as [[[[knotted1 type1] qual1] fname1] st1'];
      destruct (AlphaLookup.analyze_chunk E2 s a b st2)
        as [[[[knotted2 type2] qual2] fname2] st2']
  end.
  cbn in H. destruct H as [-> [-> [Hposted' Hdisk']]].
  apply IH; [| exact Hposted' | exact Hdisk'].
  destruct knotted2; [| exact Hfound].
  rewrite !map_app, Hfound. reflexivity.
Qed.

Lemma analysis_loop_quality_blind (clean_seq : string) (chunks : list (Z * Z)) :
  forall (results1 results2 : list App.Row) (st1 st2 : State),
    map row_location results1 = map row_location results2 ->
    List.length (posted st1) = List.length (posted st2) ->
    disk st1 = disk st2 ->
    map row_location (fst (App.analysis_loop E1 clean_seq chunks results1 st1)) =
    map row_location (fst (App.analysis_loop E2 clean_seq chunks results2 st2)).
Proof.
  induction chunks as [| [start end_] rest IH];
    intros results1 results2 st1 st2 Hresults Hposted Hdisk;
    [exact Hresults |].
  cbn [App.analysis_loop]. unfold post, save. cbn [disk].
  pose proof (same (List.length (posted st1))
                (Py.slice clean_seq start end_)) as Hsame.
  rewrite <- Hposted, Hdisk.
  destruct (requests_post E1 _ _) as [[code1 doc1] |];
    destruct (requests_post E2 _ _) as [[code2 doc2] |];
    try contradiction.
  - destruct Hsame as [<- Htopo].
    destruct (code1 =? 200);
      [| apply IH; [exact Hresults | cbn; lia | cbn; congruence]].
    destruct (disk st2 _);
      [| apply IH; [exact Hresults | cbn; lia | cbn; congruence]
       | apply IH; [exact Hresults | cbn; lia | cbn; congruence]].
    match goal with
    | |- context [App.run_topology_analysis E1 ?s1 ?f] =>
        match goal with
        | |- context [App.run_topology_analysis E2 ?s2 f] =>
            rewrite (application_topology_quality_blind s1 s2 f doc1 doc2
                       (files_write_file _ _ _) (files_write_file _ _ _)
                       (Htopo f))
        end
    end.
    destruct (App.run_topology_analysis E2 _ _) as [knot_type prob].
    destruct (KNOT_THRESHOLD <? prob)%float;
      (apply IH; [| cbn; lia | cbn; congruence]); [| exact Hresults].
    rewrite !map_app, Hresults. reflexivity.
  - apply IH; [exact Hresults | cbn; lia | cbn; congruence].
Qed.

End QualityBlind.

(** C10. The quality score decides nothing. In two worlds whose
    structures differ at most in their confidence values, so that the
    quality scores may differ and the distributions of knot types do not,
    the analysis of a fragment gives the same [is_knotted], and the
    windowed runs of the lookup and of the application list the same
    fragments with the same types. *)
Theorem quality_never_decides :
  forall (cfg : Config) (E1 E2 : Env) (sequence : string) (st : State),
    same_topology E1 E2 ->
    (forall start_index end_index,
       is_knotted (fst (AlphaLookup.analyze_chunk E1 sequence
                          start_index end_index st)) =
       is_knotted (fst (AlphaLookup.analyze_chunk E2 sequence
                          start_index end_index st)))
    /\ option_map (map knot_location)
         (fst (AlphaLookup.run_sliding_window cfg E1 sequence st)) =
       option_map (map knot_location)
         (fst (AlphaLookup.run_sliding_window cfg E2 sequence st))
    /\ (forall chunks,
          map row_location (fst (App.analysis_loop E1 sequence chunks [] st)) =
          map row_location (fst (App.analysis_loop E2 sequence chunks [] st))).
Proof.
  intros cfg E1 E2 sequence st Hsame. split; [| split].
  - intros start_index end_index.
    now destruct (analyze_chunk_quality_blind E1 E2 Hsame sequence
                    start_index end_index st st eq_refl eq_refl) as [H _].
  - unfold AlphaLookup.run_sliding_window.
    destruct (Py.range 0 (Py.len sequence) _) as [starts |]; [| reflexivity].
    pose proof (sliding_loop_quality_blind E1 E2 Hsame cfg sequence
                  (Py.len sequence) starts [] [] st st eq_refl eq_refl
                  eq_refl) as H.
    destruct (AlphaLookup.sliding_loop cfg E1 _ _ _ _ _) as [found1 st1].
    destruct (AlphaLookup.sliding_loop cfg E2 _ _ _ _ _) as [found2 st2].
    cbn in *. now rewrite H.
  - intros chunks.
    now apply analysis_loop_quality_blind.
Qed.

Lemma sample_worlds_have_the_same_topology :
  same_topology (Sample.world Sample.normalized_doc Sample.trefoil)
    (Sample.world Sample.percent_doc Sample.trefoil).
Proof.
  intros n data. cbn. split; reflexivity.
Defined.

Lemma quality_never_decides_witness :
  let E1 := Sample.world Sample.normalized_doc Sample.trefoil in
  let E2 := Sample.world Sample.percent_doc Sample.trefoil in
  let sequence := Sample.poly_alanine 400 in
  snd (fst (fst (AlphaLookup.analyze_chunk E1 sequence 1 400 initial_state)))
    = 50%float
  /\ snd (fst (fst (AlphaLookup.analyze_chunk E2 sequence 1 400 initial_state)))
    = 90%float
  /\ is_knotted (fst (AlphaLookup.analyze_chunk E1 sequence 1 400 initial_state))
     = is_knotted (fst (AlphaLookup.analyze_chunk E2 sequence 1 400 initial_state)).
Proof.
  cbn zeta. split; [vm_compute; reflexivity |].
  split; [vm_compute; reflexivity |].
  exact (proj1 (quality_never_decides settings
                  (Sample.world Sample.normalized_doc Sample.trefoil)
                  (Sample.world Sample.percent_doc Sample.trefoil)
                  (Sample.poly_alanine 400) initial_state
                  sample_worlds_have_the_same_topology) 1 400).
Defined.

(* ================================================================== *)
(** * More on the window planner: count, coverage, payloads *)
(* ================================================================== *)

(** A candidate that starts inside the sequence and is long enough is
    emitted, at the position of its start. *)
Lemma emit_from_nth_emitted (n w step m : Z) :
  0 < step ->
  forall (k : nat) (s : Z),
    s + Z.of_nat k * step < n ->
    m <= Z.min w (n - (s + Z.of_nat k * step)) ->
    nth_error (emit_from n w step m s) k =
    Some (s + Z.of_nat k * step, Z.min (s + Z.of_nat k * step + w) n).
Proof.
  intros Hstep. induction k as [| k IH]; intros s Hin Hlong;
    rewrite emit_from_step;
    rewrite (proj2 (Z.ltb_lt 0 step) Hstep);
    rewrite (proj2 (Z.ltb_lt s n)) by nia; cbn [andb];
    rewrite (proj2 (Z.ltb_ge (Z.min (s + w) n - s) m)) by nia;
    cbn [nth_error].
  - do 2 f_equal; lia.
  - rewrite IH by nia. do 2 f_equal; lia.
Qed.

Lemma last_nth_error {A : Type} (l : list A) (d x : A) :
  nth_error l (pred (List.length l)) = Some x -> last l d = x.
Proof.
  induction l as [| a [| b l'] IH]; cbn [List.length pred nth_error last].
  - discriminate.
  - now intros [= ->].
  - intros H. apply IH. exact H.
Qed.

Lemma chunks_is_emit_from (cfg : Config) (n : Z) :
  0 < WINDOW_SIZE cfg - OVERLAP cfg ->
  App.chunks cfg n =
  Some (emit_from n (WINDOW_SIZE cfg) (WINDOW_SIZE cfg - OVERLAP cfg)
          (MIN_FRAGMENT_SIZE cfg) 0).
Proof.
  intros Hstep. unfold App.chunks. rewrite range_positive_step by exact Hstep.
  f_equal. exact (chunks_loop_emit_from cfg n Hstep _ 0 eq_refl).
Qed.

(** The candidates up to the last long one are emitted, and no other. *)
Lemma emit_from_length (n w step m : Z) :
  0 < step -> 0 < m <= w -> m <= n ->
  Z.of_nat (List.length (emit_from n w step m 0)) = (n - m) / step + 1.
Proof.
  intros Hstep Hm Hn.
  set (l := emit_from n w step m 0).
  assert (Hq : 0 <= (n - m) / step) by (apply Z.div_pos; lia).
  pose proof (Z.mul_div_le (n - m) step Hstep) as Hlow.
  pose proof (Z.mul_succ_div_gt (n - m) step Hstep) as Hhigh.
  set (q := (n - m) / step) in *.
  assert (Hlast : nth_error l (Z.to_nat q) <> None).
  { unfold l. rewrite (emit_from_nth_emitted n w step m Hstep); try discriminate;
      rewrite Z2Nat.id by lia; lia. }
  assert (Hnone : nth_error l (Z.to_nat (q + 1)) = None).
  { destruct (nth_error l (Z.to_nat (q + 1))) as [r |] eqn:Hr; [| reflexivity].
    apply emit_from_nth in Hr. rewrite Z2Nat.id in Hr by lia. nia. }
  apply nth_error_Some in Hlast. apply nth_error_None in Hnone. lia.
Qed.

(** X1. The number of fragments of a windowed run: for a positive step and a
    minimum size between 1 and both the window and the length of the
    sequence, the planner emits [(sequence_length - min_fragment_size) /
    step + 1] ranges. *)
Theorem window_planner_count :
  forall (cfg : Config) (sequence_length : Z),
    0 < WINDOW_SIZE cfg - OVERLAP cfg ->
    0 < MIN_FRAGMENT_SIZE cfg <= WINDOW_SIZE cfg ->
    MIN_FRAGMENT_SIZE cfg <= sequence_length ->
    exists ranges,
      App.chunks cfg sequence_length = Some ranges
      /\ Z.of_nat (List.length ranges) =
         (sequence_length - MIN_FRAGMENT_SIZE cfg)
           / (WINDOW_SIZE cfg - OVERLAP cfg) + 1.
Proof.
  intros cfg n Hstep Hm Hn.
  rewrite chunks_is_emit_from by exact Hstep.
  eexists. split; [reflexivity |]. now apply emit_from_length.
Qed.

Lemma window_planner_count_witness :
  exists ranges,
    App.chunks settings 1000 = Some ranges
    /\ Z.of_nat (List.length ranges) = 5.
Proof.
  exact (window_planner_count settings 1000
           ltac:(cbn; lia) ltac:(cbn; lia) ltac:(cbn; lia)).
Defined.

(** X2. Coverage: for a positive step, an overlap that is not negative and a
    minimum size between 1 and the overlap plus one, as with the settings
    400, 200 and 50, every residue of a sequence that is long enough for a
    first fragment lies in an emitted range, and the last range ends where
    the sequence ends: what the dropped trailing candidate would cover is
    covered by the range before it. *)
Theorem window_planner_covers_the_sequence :
  forall (cfg : Config) (sequence_length : Z),
    0 < WINDOW_SIZE cfg - OVERLAP cfg ->
    0 < MIN_FRAGMENT_SIZE cfg <= OVERLAP cfg + 1 ->
    MIN_FRAGMENT_SIZE cfg <= sequence_length ->
    exists ranges,
      App.chunks cfg sequence_length = Some ranges
      /\ (forall i, 0 <= i < sequence_length ->
            exists r, In r ranges /\ fst r <= i < snd r)
      /\ (exists r, last ranges (0, 0) = r /\ In r ranges
                    /\ snd r = sequence_length).
Proof.
  intros cfg n Hstep Hm Hn.
  rewrite chunks_is_emit_from by exact Hstep.
  set (step := WINDOW_SIZE cfg - OVERLAP cfg) in *.
  set (m := MIN_FRAGMENT_SIZE cfg) in *. set (w := WINDOW_SIZE cfg) in *.
  assert (Hw : w = step + OVERLAP cfg) by (unfold step, w; lia).
  eexists. split; [reflexivity |].
  set (l := emit_from n w step m 0).
  assert (Hq : 0 <= (n - m) / step) by (apply Z.div_pos; lia).
  pose proof (Z.mul_div_le (n - m) step Hstep) as Hlow.
  pose proof (Z.mul_succ_div_gt (n - m) step Hstep) as Hhigh.
  set (q := (n - m) / step) in *.
  assert (Hat : forall k, 0 <= k <= q ->
    nth_error l (Z.to_nat k) = Some (k * step, Z.min (k * step + w) n)).
  { intros k Hk. unfold l.
    rewrite (emit_from_nth_emitted n w step m Hstep);
      rewrite Z2Nat.id by lia; [reflexivity | nia | nia]. }
  split.
  - intros i Hi.
    assert (Hi0 : 0 <= i / step) by (apply Z.div_pos; lia).
    pose proof (Z.mul_div_le i step Hstep) as Hilow.
    pose proof (Z.mul_succ_div_gt i step Hstep) as Hihigh.
    destruct (Z.le_gt_cases (i / step) q) as [Hle | Hgt].
    + exists (i / step * step, Z.min (i / step * step + w) n).
      split; [eapply nth_error_In; apply Hat; lia |]. cbn [fst snd]. lia.
    + exists (q * step, Z.min (q * step + w) n).
      split; [eapply nth_error_In; apply Hat; lia |]. cbn [fst snd]. nia.
  - assert (Hlen : Z.of_nat (List.length l) = q + 1).
    { assert (Hlast : nth_error l (Z.to_nat q) <> None)
        by (rewrite Hat by lia; discriminate).
      assert (Hnone : nth_error l (Z.to_nat (q + 1)) = None).
      { destruct (nth_error l (Z.to_nat (q + 1))) as [r |] eqn:Hr;
          [| reflexivity].
        apply emit_from_nth in Hr. rewrite Z2Nat.id in Hr by lia. nia. }
      apply nth_error_Some in Hlast. apply nth_error_None in Hnone. lia. }
    exists (q * step, Z.min (q * step + w) n).
    pose proof (Hat q ltac:(lia)) as Hqth.
    split; [| split; [eapply nth_error_In; exact Hqth | cbn [snd]; nia]].
    apply last_nth_error.
    replace (pred (List.length l)) with (Z.to_nat q) by lia. exact Hqth.
Qed.

Lemma window_planner_covers_the_sequence_witness :
  exists ranges,
    App.chunks settings 830 = Some ranges
    /\ (forall i, 0 <= i < 830 -> exists r, In r ranges /\ fst r <= i < snd r).
Proof.
  destruct (window_planner_covers_the_sequence settings 830
              ltac:(cbn; lia) ltac:(cbn; lia) ltac:(cbn; lia))
    as [ranges [H1 [H2 _]]].
  exists ranges. split; assumption.
Defined.

(** Analysing a chunk posts one request: its sequence, sanitised. *)
Lemma analyze_chunk_posted (E : Env) (sequence : string)
  (start_index end_index : Z) (st : State) :
  posted (snd (AlphaLookup.analyze_chunk E sequence start_index end_index st)) =
  sanitize sequence :: posted st.
Proof.
  unfold AlphaLookup.analyze_chunk, AlphaLookup.retrieve_structure, post.
  cbn [announce posted files].
  destruct (requests_post E _ _) as [[status_code text] |]; [| reflexivity].
  destruct (status_code =? 200); [| reflexivity].
  save_cases Hsave; destruct Hsave as [Hposted _]; cbn [posted] in Hposted;
    [| exact Hposted].
  match goal with
  | |- context [truthy (Some ?f)] =>
      replace (truthy (Some f)) with true by reflexivity
  end.
  destruct (AlphaLookup.run_topology_analysis E _ _) as [[knot_type c] prob].
  destruct (KNOT_THRESHOLD <? prob)%float; exact Hposted.
Qed.

Lemma sliding_loop_posted (cfg : Config) (E : Env) (full_sequence : string)
  (seq_len : Z) (starts : list Z) :
  forall (knots_found : list AlphaLookup.Knot) (st : State),
    posted (snd (AlphaLookup.sliding_loop cfg E full_sequence seq_len
                   starts knots_found st)) =
    (rev (map (fun r => sanitize (Py.slice full_sequence (fst r) (snd r)))
            (App.chunks_loop cfg seq_len starts))
       ++ posted st)%list.
Proof.
  induction starts as [| start rest IH]; intros knots_found st; [reflexivity |].
  cbn [AlphaLookup.sliding_loop App.chunks_loop].
  destruct (Z.min (start + WINDOW_SIZE cfg) seq_len - start
            <? MIN_FRAGMENT_SIZE cfg); [reflexivity |].
  match goal with
  | |- context [AlphaLookup.analyze_chunk E ?s ?a ?b st] =>
      pose proof (analyze_chunk_posted E s a b st) as H;
      destruct (AlphaLookup.analyze_chunk E s a b st)
        as [[[[is_knotted k_type] qual] fname] st1]
  end.
  cbn [snd] in H. rewrite IH, H. cbn [map rev fst snd].
  now rewrite <- app_assoc.
Qed.

Lemma analysis_loop_posted (E : Env) (clean_seq : string)
  (chunks : list (Z * Z)) :
  forall (results : list App.Row) (st : State),
    posted (snd (App.analysis_loop E clean_seq chunks results st)) =
    (rev (map (fun r => Py.slice clean_seq (fst r) (snd r)) chunks)
       ++ posted st)%list.
Proof.
  induction chunks as [| [start end_] rest IH]; intros results st;
    [reflexivity |].
  cbn [App.analysis_loop]. unfold post.
  destruct (requests_post E _ _) as [[status_code text] |].
  - destruct (status_code =? 200).
    + save_cases Hsave; destruct Hsave as [Hposted _]; cbn [posted] in Hposted.
      * destruct (App.run_topology_analysis E _ _) as [knot_type prob].
        rewrite IH, Hposted. cbn [map rev fst snd].
        now rewrite <- app_assoc.
      * rewrite IH, Hposted. cbn [map rev fst snd]. now rewrite <- app_assoc.
    + rewrite IH. cbn [posted map rev fst snd]. now rewrite <- app_assoc.
  - rewrite IH. cbn [posted map rev fst snd]. now rewrite <- app_assoc.
Qed.

(** X3. The requests of a windowed run are the slices of the planned ranges,
    one request for each range and in the order of the ranges: as they
    are in [app.py], sanitised in [alpha_lookup.py]. *)
Theorem windowed_requests_are_the_planned_slices :
  forall (cfg : Config) (E : Env) (sequence : string) (st : State)
         (ranges : list (Z * Z)),
    App.chunks cfg (Py.len sequence) = Some ranges ->
    rev (posted (snd (App.large_sequence_logic cfg E sequence st))) =
      (rev (posted st)
         ++ map (fun r => Py.slice sequence (fst r) (snd r)) ranges)%list
    /\ rev (posted (snd (AlphaLookup.run_sliding_window cfg E sequence st))) =
      (rev (posted st)
         ++ map (fun r => sanitize (Py.slice sequence (fst r) (snd r)))
              ranges)%list.
Proof.
  intros cfg E sequence st ranges Hchunks. split.
  - unfold App.large_sequence_logic. rewrite Hchunks.
    pose proof (analysis_loop_posted E sequence ranges [] st) as H.
    destruct (App.analysis_loop E sequence ranges [] st) as [results st1].
    cbn [snd] in H.
    assert (Hst : posted (snd (match results with
                     | [] => (REPORT None NO_KNOTS_DETECTED results, st1)
                     | _ :: _ =>
                         (REPORT None (KNOTS_DETECTED (List.length results))
                            results, st1)
                     end)) = posted st1) by (destruct results; reflexivity).
    rewrite Hst, H, rev_app_distr, rev_involutive. reflexivity.
  - unfold App.chunks in Hchunks. unfold AlphaLookup.run_sliding_window.
    destruct (Py.range 0 (Py.len sequence) _) as [starts |]; [| discriminate].
    injection Hchunks as <-.
    pose proof (sliding_loop_posted cfg E sequence (Py.len sequence)
                  starts [] st) as H.
    destruct (AlphaLookup.sliding_loop _ _ _ _ _ _ _) as [found st1].
    cbn [snd] in *. rewrite H, rev_app_distr, rev_involutive. reflexivity.
Qed.

Lemma windowed_requests_are_the_planned_slices_witness :
  let E := Sample.world Sample.percent_doc Sample.trefoil in
  List.length
    (posted (snd (App.large_sequence_logic settings E
                    (Sample.poly_alanine 1000) initial_state))) = 5%nat.
Proof.
  cbn zeta.
  destruct (windowed_requests_are_the_planned_slices settings
              (Sample.world Sample.percent_doc Sample.trefoil)
              (Sample.poly_alanine 1000) initial_state
              [(0, 400); (200, 600); (400, 800); (600, 1000); (800, 1000)]
              ltac:(vm_compute; reflexivity)) as [H _].
  rewrite <- length_rev, H. reflexivity.
Defined.

Lemma length_substring (s : string) :
  forall n m : nat,
    (n + m <= String.length s)%nat -> String.length (substring n m s) = m.
Proof.
  induction s as [| c s IH]; intros [| n] [| m] H; cbn in *;
    try reflexivity; try lia.
  - rewrite IH by lia. reflexivity.
  - apply IH. lia.
  - apply IH. lia.
Qed.

(** A slice inside the string has the length of its range. *)
Lemma len_slice (s : string) (lo hi : Z) :
  0 <= lo <= hi -> hi <= Py.len s -> Py.len (Py.slice s lo hi) = hi - lo.
Proof.
  unfold Py.len, Py.slice. intros Hlo Hhi.
  rewrite length_substring by lia. lia.
Qed.

Lemma length_remove_char (c : ascii) (s : string) :
  (String.length (Py.remove_char c s) <= String.length s)%nat.
Proof.
  induction s as [| d s IH]; cbn; [lia |].
  destruct (Ascii.eqb c d); cbn; lia.
Qed.

Lemma length_lstrip (s : string) :
  (String.length (Py.lstrip s) <= String.length s)%nat.
Proof.
  induction s as [| c s IH]; cbn; [lia |].
  destruct (Py.isspace c); cbn; lia.
Qed.

Lemma length_rstrip (s : string) :
  (String.length (Py.rstrip s) <= String.length s)%nat.
Proof.
  induction s as [| c s IH]; cbn; [lia |].
  destruct (Py.rstrip s); [destruct (Py.isspace c) |]; cbn in *; lia.
Qed.

(** Sanitising never makes a sequence longer. *)
Lemma len_sanitize (s : string) : Py.len (sanitize s) <= Py.len s.
Proof.
  unfold Py.len, sanitize, Py.strip.
  pose proof (length_rstrip
                (Py.lstrip (Py.remove_char " " (Py.remove_char "010" s)))).
  pose proof (length_lstrip (Py.remove_char " " (Py.remove_char "010" s))).
  pose proof (length_remove_char " " (Py.remove_char "010" s)).
  pose proof (length_remove_char "010" s).
  lia.
Qed.

(** The shape of every planned range of a sequence, for a positive step
    and an overlap that is not negative. *)
Lemma planned_range_shape (cfg : Config) (n : Z) (ranges : list (Z * Z))
  (r : Z * Z) :
  0 < WINDOW_SIZE cfg - OVERLAP cfg -> 0 <= OVERLAP cfg ->
  App.chunks cfg n = Some ranges -> In r ranges ->
  0 <= fst r < snd r /\ snd r <= n
  /\ MIN_FRAGMENT_SIZE cfg <= snd r - fst r <= WINDOW_SIZE cfg.
Proof.
  intros Hstep Hoverlap Hchunks Hin.
  rewrite chunks_is_emit_from in Hchunks by exact Hstep.
  injection Hchunks as <-.
  apply In_nth_error in Hin as [k Hk]. apply emit_from_nth in Hk. nia.
Qed.

(** X4. No request of a windowed run exceeds the window: with a positive step
    and an overlap that is not negative, every payload that the windowed
    run of [app.py] posts is not empty, at least [min_fragment_size] and
    at most [window_size] characters long, and every payload that the run
    of [alpha_lookup.py] posts is at most [window_size] characters long. *)
Theorem windowed_requests_fit_the_window :
  forall (cfg : Config) (E : Env) (sequence : string) (st : State),
    0 < WINDOW_SIZE cfg - OVERLAP cfg ->
    0 <= OVERLAP cfg ->
    (forall payload,
       In payload (posted (snd (App.large_sequence_logic cfg E sequence st))) ->
       In payload (posted st)
       \/ (0 < Py.len payload
           /\ MIN_FRAGMENT_SIZE cfg <= Py.len payload <= WINDOW_SIZE cfg))
    /\ (forall payload,
          In payload
            (posted (snd (AlphaLookup.run_sliding_window cfg E sequence st))) ->
          In payload (posted st) \/ Py.len payload <= WINDOW_SIZE cfg).
Proof.
  intros cfg E sequence st Hstep Hoverlap.
  pose proof (chunks_is_emit_from cfg (Py.len sequence) Hstep) as Hchunks.
  set (ranges := emit_from _ _ _ _ _) in Hchunks.
  assert (Hshape : forall r, In r ranges ->
    Py.len (Py.slice sequence (fst r) (snd r)) = snd r - fst r
    /\ 0 < snd r - fst r
    /\ MIN_FRAGMENT_SIZE cfg <= snd r - fst r <= WINDOW_SIZE cfg).
  { intros r Hr.
    pose proof (planned_range_shape cfg _ ranges r Hstep Hoverlap Hchunks Hr).
    rewrite len_slice by lia. lia. }
  split; intros payload Hin.
  - unfold App.large_sequence_logic in Hin. rewrite Hchunks in Hin.
    pose proof (analysis_loop_posted E sequence ranges [] st) as H.
    destruct (App.analysis_loop E sequence ranges [] st) as [results st1].
    cbn [snd] in H.
    assert (Hin' : In payload (posted st1)) by (destruct results; exact Hin).
    rewrite H in Hin'. apply in_app_or in Hin' as [Hnew | Hold];
      [| now left].
    right. apply in_rev, in_map_iff in Hnew as [r [<- Hr]].
    destruct (Hshape r Hr) as [-> ?]. lia.
  - unfold App.chunks in Hchunks.
    unfold AlphaLookup.run_sliding_window in Hin.
    destruct (Py.range 0 (Py.len sequence) _) as [starts |]; [| discriminate].
    injection Hchunks as Hchunks.
    pose proof (sliding_loop_posted cfg E sequence (Py.len sequence)
                  starts [] st) as H.
    destruct (AlphaLookup.sliding_loop _ _ _ _ _ _ _) as [found st1].
    cbn [snd] in *. rewrite H, Hchunks in Hin.
    apply in_app_or in Hin as [Hnew | Hold]; [| now left].
    right. apply in_rev, in_map_iff in Hnew as [r [<- Hr]].
    pose proof (len_sanitize (Py.slice sequence (fst r) (snd r))).
    destruct (Hshape r Hr) as [Hlen ?]. lia.
Qed.

Lemma windowed_requests_fit_the_window_witness :
  let E := Sample.world Sample.percent_doc Sample.trefoil in
  forallb (fun payload => (50 <=? Py.len payload) && (Py.len payload <=? 400))
    (posted (snd (App.large_sequence_logic settings E
                    (Sample.poly_alanine 830) initial_state))) = true.
Proof.
  cbn zeta. apply forallb_forall. intros payload Hin.
  destruct (windowed_requests_fit_the_window settings
              (Sample.world Sample.percent_doc Sample.trefoil)
              (Sample.poly_alanine 830) initial_state
              ltac:(cbn; lia) ltac:(cbn; lia)) as [H _].
  destruct (H payload Hin) as [[] | [_ Hlen]].
  cbn in Hlen. lia.
Defined.

(* ================================================================== *)
(** * The report of a windowed run *)
(* ================================================================== *)

Lemma subsequence_length {A : Type} (l1 l2 : list A) :
  subsequence l1 l2 -> (List.length l1 <= List.length l2)%nat.
Proof.
  induction 1; cbn; lia.
Qed.

(** A topology analysis that names no type gives the probability 0. *)
Lemma lookup_topology_without_type (E : Env) (st : State) (f : string)
  (c prob : float) :
  AlphaLookup.run_topology_analysis E st f = (None, c, prob) ->
  prob = 0%float.
Proof.
  unfold AlphaLookup.run_topology_analysis.
  destruct (files st f) as [doc |]; [| now intros [= _ <-]].
  destruct (topoly_alexander E f doc) as [[[| item rest] |] |];
    try discriminate; try (now intros [= _ <-]).
  destruct (Py.max_by_value (item :: rest)) as [[k v] |];
    [discriminate | now intros [= _ <-]].
Qed.

Lemma application_topology_without_type (E : Env) (st : State) (f : string)
  (prob : float) :
  App.run_topology_analysis E st f = (None, prob) -> prob = 0%float.
Proof.
  unfold App.run_topology_analysis.
  destruct (files st f) as [doc |]; [| now intros [= <-]].
  destruct (topoly_alexander E f doc) as [[[| item rest] |] |];
    try discriminate; try (now intros [= <-]).
  destruct (Py.max_by_value (item :: rest)) as [[k v] |];
    [discriminate | now intros [= <-]].
Qed.

(** A knotted chunk comes with a knot type. *)
Lemma analyze_chunk_knotted_has_type (E : Env) (sequence : string)
  (start_index end_index : Z) (st st1 : State) (k_type : option string)
  (qual : float) (fname : option string) :
  AlphaLookup.analyze_chunk E sequence start_index end_index st
  = ((true, k_type, qual, fname), st1) ->
  k_type <> None.
Proof.
  unfold AlphaLookup.analyze_chunk.
  destruct (AlphaLookup.retrieve_structure E _ _ _) as [[f |] st0];
    [| discriminate].
  destruct (truthy (Some f)); [| discriminate].
  destruct (AlphaLookup.run_topology_analysis E st0 f)
    as [[[t |] c] prob] eqn:Htopo.
  - destruct (KNOT_THRESHOLD <? prob)%float; [| discriminate].
    intros [= <- _ _ _]. discriminate.
  - apply lookup_topology_without_type in Htopo as ->.
    replace (KNOT_THRESHOLD <? 0)%float with false by reflexivity.
    discriminate.
Qed.

Lemma sliding_loop_found (cfg : Config) (E : Env) (full_sequence : string)
  (seq_len : Z) (starts : list Z) :
  forall (knots_found : list AlphaLookup.Knot) (st : State),
    exists extra,
      fst (AlphaLookup.sliding_loop cfg E full_sequence seq_len starts
             knots_found st) = (knots_found ++ extra)%list
      /\ subsequence (map AlphaLookup.range extra)
           (map range_label (App.chunks_loop cfg seq_len starts))
      /\ (forall k, In k extra -> AlphaLookup.type k <> None).
Proof.
  induction starts as [| start rest IH]; intros knots_found st.
  - exists []. cbn. rewrite app_nil_r.
    repeat split; [constructor | intros k []].
  - cbn [AlphaLookup.sliding_loop App.chunks_loop].
    destruct (Z.min (start + WINDOW_SIZE cfg) seq_len - start
              <? MIN_FRAGMENT_SIZE cfg).
    + exists []. cbn. rewrite app_nil_r.
      repeat split; [constructor | intros k []].
    + destruct (AlphaLookup.analyze_chunk E _ _ _ st)
        as [[[[is_knotted k_type] qual] fname] st1] eqn:Hchunk.
      destruct is_knotted.
      * apply analyze_chunk_knotted_has_type in Hchunk.
        match goal with
        | |- context [AlphaLookup.sliding_loop _ _ _ _ _ (_ ++ [?k]) _] =>
            destruct (IH (knots_found ++ [k])%list st1)
              as [extra [Hfound [Hsub Htype]]];
            exists (k :: extra)
        end.
        rewrite Hfound, <- app_assoc. split; [reflexivity |].
        split; [cbn [map]; now apply subsequence_keep |].
        intros k [<- | Hk]; [exact Hchunk | now apply Htype].
      * destruct (IH knots_found st1) as [extra [Hfound [Hsub Htype]]].
        exists extra. split; [exact Hfound |].
        split; [cbn [map]; now apply subsequence_skip | exact Htype].
Qed.

Lemma analysis_loop_found (E : Env) (clean_seq : string)
  (chunks : list (Z * Z)) :
  forall (results : list App.Row) (st : State),
    exists extra,
      fst (App.analysis_loop E clean_seq chunks results st)
      = (results ++ extra)%list
      /\ subsequence (map App.Fragment extra) (map range_label chunks)
      /\ (forall r, In r extra ->
            (KNOT_THRESHOLD <? App.Probability r)%float = true
            /\ App.Type_ r <> None).
Proof.
  induction chunks as [| [start end_] rest IH]; intros results st.
  - exists []. cbn. rewrite app_nil_r.
    repeat split; try constructor; destruct H.
  - cbn [App.analysis_loop].
    assert (Hskip : forall st', exists extra,
      fst (App.analysis_loop E clean_seq rest results st')
      = (results ++ extra)%list
      /\ subsequence (map App.Fragment extra)
           (map range_label ((start, end_) :: rest))
      /\ (forall r, In r extra ->
            (KNOT_THRESHOLD <? App.Probability r)%float = true
            /\ App.Type_ r <> None)).
    { intros st'. destruct (IH results st') as [extra [Hfound [Hsub Hrow]]].
      exists extra. split; [exact Hfound |].
      split; [cbn [map]; now apply subsequence_skip | exact Hrow]. }
    destruct (post E _ st) as [[[status_code text] |] st1]; [| apply Hskip].
    destruct (status_code =? 200); [| apply Hskip].
    destruct (save _ _ st1) as [[|] st2]; [| apply Hskip].
    destruct (App.run_topology_analysis E _ _) as [knot_type prob] eqn:Htopo.
    destruct (KNOT_THRESHOLD <? prob)%float eqn:Hprob; [| apply Hskip].
    match goal with
    | |- context [App.analysis_loop _ _ _ (_ ++ [?row]) ?st2] =>
        destruct (IH (results ++ [row])%list st2)
          as [extra [Hfound [Hsub Hrow]]];
        exists (row :: extra)
    end.
    rewrite Hfound, <- app_assoc. split; [reflexivity |].
    split; [cbn [map]; now apply subsequence_keep |].
    intros r [<- | Hr]; [| now apply Hrow].
    cbn [App.Probability App.Type_]. split; [exact Hprob |].
    destruct knot_type; [discriminate |].
    apply application_topology_without_type in Htopo. subst prob.
    discriminate.
Qed.

(** X5. The report of a windowed run follows the plan: the fragments it lists
    are planned ranges, under their labels and in the order of the plan,
    so they are no more than the ranges; each of them carries a knot
    type; in [app.py] the probability of each is above the threshold, and
    the conclusion counts them. *)
Theorem windowed_report_follows_the_plan :
  forall (cfg : Config) (E : Env) (sequence : string) (st : State)
         (ranges : list (Z * Z)),
    App.chunks cfg (Py.len sequence) = Some ranges ->
    (exists found,
       fst (AlphaLookup.run_sliding_window cfg E sequence st) = Some found
       /\ subsequence (map AlphaLookup.range found) (map range_label ranges)
       /\ (List.length found <= List.length ranges)%nat
       /\ (forall k, In k found -> AlphaLookup.type k <> None))
    /\ (exists rows,
          fst (App.large_sequence_logic cfg E sequence st)
          = REPORT None
              (match rows with
               | [] => NO_KNOTS_DETECTED
               | _ => KNOTS_DETECTED (List.length rows)
               end) rows
          /\ subsequence (map App.Fragment rows) (map range_label ranges)
          /\ (forall r, In r rows ->
                (KNOT_THRESHOLD <? App.Probability r)%float = true
                /\ App.Type_ r <> None)).
Proof.
  intros cfg E sequence st ranges Hchunks. split.
  - unfold App.chunks in Hchunks. unfold AlphaLookup.run_sliding_window.
    destruct (Py.range 0 (Py.len sequence) _) as [starts |]; [| discriminate].
    injection Hchunks as <-.
    destruct (sliding_loop_found cfg E sequence (Py.len sequence) starts [] st)
      as [extra [Hfound [Hsub Htype]]].
    destruct (AlphaLookup.sliding_loop _ _ _ _ _ _ _) as [found st1].
    cbn in Hfound. subst found. exists extra. cbn [fst].
    split; [reflexivity |]. split; [exact Hsub |]. split; [| exact Htype].
    apply subsequence_length in Hsub. now rewrite !length_map in Hsub.
  - unfold App.large_sequence_logic. rewrite Hchunks.
    destruct (analysis_loop_found E sequence ranges [] st)
      as [extra [Hfound [Hsub Hrow]]].
    destruct (App.analysis_loop E sequence ranges [] st) as [results st1].
    cbn in Hfound. subst results. exists extra.
    split; [destruct extra; reflexivity |]. split; assumption.
Qed.

Lemma windowed_report_follows_the_plan_witness :
  let E := Sample.world Sample.normalized_doc Sample.trefoil in
  exists found,
    fst (AlphaLookup.run_sliding_window settings E
           (Sample.poly_alanine 1000) initial_state) = Some found
    /\ (List.length found <= 5)%nat.
Proof.
  cbn zeta.
  destruct (windowed_report_follows_the_plan settings
              (Sample.world Sample.normalized_doc Sample.trefoil)
              (Sample.poly_alanine 1000) initial_state
              [(0, 400); (200, 600); (400, 800); (600, 1000); (800, 1000)]
              ltac:(vm_compute; reflexivity))
    as [[found [H1 [_ [H2 _]]]] _].
  exists found. split; assumption.
Defined.

(* ================================================================== *)
(** * Retrieving a structure *)
(* ================================================================== *)

(** X6. What a retrieval of [alpha_lookup.py] does to the state: it posts one
    request, the sanitised sequence, and changes no file but the one under
    the given name. An answer with status 200 is written under that name:
    when the file opens and the write goes through, the file holds the
    answer and its name is returned; when the file does not open, nothing
    is returned and the file is as it was; when the write stops half way,
    nothing is returned and the file holds what the write left. After any
    other answer, and after a failure of the transport, nothing is
    returned and no file changes. *)
Theorem lookup_retrieval_effect :
  forall (E : Env) (sequence filename : string) (st : State),
    let response :=
      requests_post E (List.length (posted st)) (sanitize sequence) in
    let result := AlphaLookup.retrieve_structure E sequence filename st in
    posted (snd result) = sanitize sequence :: posted st
    /\ announced (snd result) = announced st
    /\ disk (snd result) = disk st
    /\ (forall other, other <> filename ->
          files (snd result) other = files st other)
    /\ (forall text,
          response = Some (200, text) ->
          match disk st filename with
          | WRITTEN =>
              fst result = Some filename
              /\ files (snd result) filename = Some text
          | OPEN_FAILED =>
              fst result = None
              /\ files (snd result) filename = files st filename
          | WRITE_FAILED leftover =>
              fst result = None
              /\ files (snd result) filename = Some leftover
          end)
    /\ (succeeded response = false ->
          fst result = None /\ files (snd result) = files st).
Proof.
  intros E sequence filename st. cbn zeta.
  unfold AlphaLookup.retrieve_structure, post, save. cbn [disk].
  destruct (requests_post E _ _) as [[status_code text] |].
  - destruct (Z.eqb_spec status_code 200) as [-> | Hcode].
    + assert (Hother : forall t other, other <> filename ->
                (if String.eqb other filename then Some t else files st other)
                = files st other).
      { intros t other Hneq.
        now rewrite (proj2 (String.eqb_neq other filename) Hneq). }
      destruct (disk st filename) as [| | leftover]; cbn;
        (split; [reflexivity |]); (split; [reflexivity |]);
        (split; [reflexivity |]); (split; [auto |]);
        (split; [| discriminate]); intros t [= <-];
        rewrite ?String.eqb_refl; split; reflexivity.
    + split; [reflexivity |]. split; [reflexivity |]. split; [reflexivity |].
      split; [reflexivity |]. split.
      * intros t [= ? ?]. contradiction.
      * intros _. split; reflexivity.
  - split; [reflexivity |]. split; [reflexivity |]. split; [reflexivity |].
    split; [reflexivity |]. split.
    + discriminate.
    + intros _. split; reflexivity.
Qed.

Lemma lookup_retrieval_effect_witness :
  let E := Sample.world Sample.percent_doc Sample.trefoil in
  let written :=
    AlphaLookup.retrieve_structure E "MKVLA" "analysis_result.pdb"
      initial_state in
  let refused :=
    AlphaLookup.retrieve_structure E "MKVLA" "analysis_result.pdb"
      Fixture.read_only in
  (fst written = Some "analysis_result.pdb"
   /\ files (snd written) "analysis_result.pdb" = Some Sample.percent_doc)
  /\ (fst refused = None
      /\ files (snd refused) "analysis_result.pdb" = None).
Proof.
  cbn zeta. split.
  - destruct (lookup_retrieval_effect
                (Sample.world Sample.percent_doc Sample.trefoil)
                "MKVLA" "analysis_result.pdb" initial_state)
      as [_ [_ [_ [_ [H _]]]]].
    exact (H Sample.percent_doc eq_refl).
  - destruct (lookup_retrieval_effect
                (Sample.world Sample.percent_doc Sample.trefoil)
                "MKVLA" "analysis_result.pdb" Fixture.read_only)
      as [_ [_ [_ [_ [H _]]]]].
    exact (H Sample.percent_doc eq_refl).
Defined.

(** X7. The pipeline refuses a sequence that is longer than 2000 residues
    once sanitised: nothing is posted, nothing is written, and the run
    ends without a report. Any other sequence is posted, once and
    sanitised. *)
Theorem pipeline_length_limit :
  forall (E : Env) (typed : string) (st : State),
    (2000 < Py.len (sanitize (Py.strip typed)) ->
       Pipeline.main E typed st = (NO_REPORT, st))
    /\ (Py.len (sanitize (Py.strip typed)) <= 2000 ->
       posted (snd (Pipeline.main E typed st)) =
       sanitize (Py.strip typed) :: posted st).
Proof.
  intros E typed st. unfold Pipeline.main, Pipeline.retrieve_structure.
  split; intros Hlen.
  - now rewrite (proj2 (Z.ltb_lt _ _) Hlen).
  - rewrite (proj2 (Z.ltb_ge _ _) Hlen). unfold post.
    destruct (requests_post E _ _) as [[status_code text] |]; [| reflexivity].
    destruct (status_code =? 200); [| reflexivity].
    save_cases Hsave; destruct Hsave as [Hposted _]; cbn [posted] in Hposted;
      [| exact Hposted].
    replace (truthy (Some ("analysis_result" ++ ".pdb"))) with true
      by reflexivity.
    destruct (Pipeline.run_topology_analysis E _ _) as [[knot_type c] prob].
    exact Hposted.
Qed.

(* ================================================================== *)
(** * When the topology library fails *)
(* ================================================================== *)

Section TopologyDown.

Variable E : Env.
Hypothesis raises : forall path doc, topoly_alexander E path doc = None.

Lemma lookup_topology_down (st : State) (f : string) :
  AlphaLookup.run_topology_analysis E st f = (None, 0%float, 0%float).
Proof.
  unfold AlphaLookup.run_topology_analysis.
  destruct (files st f); [now rewrite raises | reflexivity].
Qed.

Lemma application_topology_down (st : State) (f : string) :
  App.run_topology_analysis E st f = (None, 0%float).
Proof.
  unfold App.run_topology_analysis.
  destruct (files st f); [now rewrite raises | reflexivity].
Qed.

Lemma pipeline_topology_down (st : State) (f : string) :
  Pipeline.run_topology_analysis E st f = (None, 0%float, 0%float).
Proof.
  unfold Pipeline.run_topology_analysis.
  destruct (files st f); [now rewrite raises | reflexivity].
Qed.

Lemma sliding_loop_topology_down (cfg : Config) (full_sequence : string)
  (seq_len : Z) (starts : list Z) :
  forall (knots_found : list AlphaLookup.Knot) (st : State),
    fst (AlphaLookup.sliding_loop cfg E full_sequence seq_len starts
           knots_found st) = knots_found.
Proof.
  induction starts as [| start rest IH]; intros knots_found st; [reflexivity |].
  cbn [AlphaLookup.sliding_loop].
  destruct (_ <? _); [reflexivity |].
  unfold AlphaLookup.analyze_chunk.
  destruct (AlphaLookup.retrieve_structure E _ _ _) as [[f |] st1];
    [| apply IH].
  destruct (truthy (Some f)); [| apply IH].
  rewrite lookup_topology_down.
  replace (KNOT_THRESHOLD <? 0)%float with false by reflexivity. apply IH.
Qed.

Lemma analysis_loop_topology_down (clean_seq : string)
  (chunks : list (Z * Z)) :
  forall (results : list App.Row) (st : State),
    fst (App.analysis_loop E clean_seq chunks results st) = results.
Proof.
  induction chunks as [| [start end_] rest IH]; intros results st;
    [reflexivity |].
  cbn [App.analysis_loop].
  destruct (post E _ st) as [[[status_code text] |] st1]; [| apply IH].
  destruct (status_code =? 200); [| apply IH].
  destruct (save _ _ st1) as [[|] st2]; [| apply IH].
  rewrite application_topology_down.
  replace (KNOT_THRESHOLD <? 0)%float with false by reflexivity. apply IH.
Qed.

End TopologyDown.

(** The file that a retrieval of the pipeline returns is the one of the
    job. *)
Lemma pipeline_retrieval_some (E : Env) (sequence job_id f : string)
  (st st1 : State) :
  Pipeline.retrieve_structure E sequence job_id st = (Some f, st1) ->
  f = job_id ++ ".pdb".
Proof.
  unfold Pipeline.retrieve_structure.
  destruct (2000 <? Py.len (sanitize sequence)); [discriminate |].
  destruct (post E (sanitize sequence) st) as [[[status_code text] |] st0];
    [| discriminate].
  destruct (status_code =? 200); [| discriminate].
  destruct (save (job_id ++ ".pdb") text st0) as [[|] st2];
    [now intros [= <- _] | discriminate].
Qed.

(** A direct run of the pipeline whose adapter returns no type and the
    probability 0 on every file: it reports exactly when the structure was
    retrieved, and then that the sequence is unknotted. *)
Lemma pipeline_main_without_verdict (E : Env) (typed : string) (st : State) :
  (forall st' f,
     Pipeline.run_topology_analysis E st' f = (None, 0%float, 0%float)) ->
  (fst (Pipeline.retrieve_structure E (Py.strip typed) "analysis_result" st)
   = None ->
   fst (Pipeline.main E typed st) = NO_REPORT)
  /\ (forall f,
        fst (Pipeline.retrieve_structure E (Py.strip typed)
               "analysis_result" st) = Some f ->
        exists q, fst (Pipeline.main E typed st) = REPORT (Some q) UNKNOTTED []).
Proof.
  intros Hdown. unfold Pipeline.main.
  destruct (Pipeline.retrieve_structure E _ _ st) as [[f |] st1] eqn:Hr;
    cbn [fst]; (split; [intros H | intros f' H]);
    try discriminate; try reflexivity.
  apply pipeline_retrieval_some in Hr as ->.
  match goal with
  | |- context [truthy (Some ?f)] =>
      replace (truthy (Some f)) with true by reflexivity
  end.
  rewrite Hdown. eexists. reflexivity.
Qed.

(** X8. When the topology library raises on every structure, the three
    adapters return no type and the probability 0, and no run reports a
    knot. A windowed run of the lookup or of the application, with a step
    that is not zero, completes with the report that no knots were
    detected. A direct run reports exactly when it has its structure, and
    then that the sequence is unknotted: in the pipeline and the lookup
    when the retrieval returned a file, in the application when the answer
    had status 200 and the file could be written. *)
Theorem topology_failure_reads_as_unknotted :
  forall (cfg : Config) (E : Env) (typed : string) (st : State),
    (forall path doc, topoly_alexander E path doc = None) ->
    WINDOW_SIZE cfg - OVERLAP cfg <> 0 ->
    (forall st' f,
       Pipeline.run_topology_analysis E st' f = (None, 0%float, 0%float)
       /\ AlphaLookup.run_topology_analysis E st' f = (None, 0%float, 0%float)
       /\ App.run_topology_analysis E st' f = (None, 0%float))
    /\ (forall f,
          fst (Pipeline.retrieve_structure E (Py.strip typed)
                 "analysis_result" st) = Some f ->
          exists q,
            fst (Pipeline.main E typed st) = REPORT (Some q) UNKNOTTED [])
    /\ (400 < Py.len (Py.strip typed) ->
        fst (AlphaLookup.main cfg E typed st)
        = REPORT None NO_KNOTS_DETECTED [])
    /\ (Py.len (Py.strip typed) <= 400 ->
        forall f,
          fst (AlphaLookup.retrieve_structure E (Py.strip typed)
                 "analysis_result.pdb" st) = Some f ->
          exists q,
            fst (AlphaLookup.main cfg E typed st)
            = REPORT (Some q) UNKNOTTED [])
    /\ (400 < Py.len typed ->
        fst (App.run_analysis cfg E typed st)
        = REPORT None NO_KNOTS_DETECTED [])
    /\ (Py.len typed <= 400 ->
        forall text,
          requests_post E (List.length (posted st)) typed = Some (200, text) ->
          disk st "analysis_result.pdb" = WRITTEN ->
          exists q,
            fst (App.run_analysis cfg E typed st)
            = REPORT (Some q) UNKNOTTED []).
Proof.
  intros cfg E typed st Hraises Hstep.
  split; [| split; [| split; [| split; [| split]]]].
  - intros st' f.
    now rewrite (pipeline_topology_down E Hraises),
      (lookup_topology_down E Hraises), (application_topology_down E Hraises).
  - apply pipeline_main_without_verdict.
    exact (pipeline_topology_down E Hraises).
  - intros Hlong. unfold AlphaLookup.main.
    rewrite (proj2 (Z.ltb_lt _ _) Hlong).
    unfold AlphaLookup.run_sliding_window.
    destruct (range_nonzero_step 0 (Py.len (Py.strip typed)) _ Hstep)
      as [starts ->].
    pose proof (sliding_loop_topology_down E Hraises cfg (Py.strip typed)
                  (Py.len (Py.strip typed)) starts [] st) as H.
    destruct (AlphaLookup.sliding_loop _ _ _ _ _ _ _) as [found st1].
    cbn in H. subst found. reflexivity.
  - intros Hshort f. unfold AlphaLookup.main.
    rewrite (proj2 (Z.ltb_ge _ _) Hshort).
    destruct (AlphaLookup.retrieve_structure E _ _ st) as [pdb_file st1]
      eqn:Hr.
    cbn [fst]. intros ->.
    apply retrieve_structure_some in Hr as ->.
    replace (truthy (Some "analysis_result.pdb")) with true by reflexivity.
    rewrite (lookup_topology_down E Hraises). eexists. reflexivity.
  - intros Hlong. unfold App.run_analysis.
    rewrite (proj2 (Z.ltb_lt _ _) Hlong).
    unfold App.large_sequence_logic, App.chunks.
    destruct (range_nonzero_step 0 (Py.len typed) _ Hstep) as [starts ->].
    pose proof (analysis_loop_topology_down E Hraises typed
                  (App.chunks_loop cfg (Py.len typed) starts) [] st) as H.
    destruct (App.analysis_loop _ _ _ _ _) as [results st1].
    cbn in H. subst results. reflexivity.
  - intros Hshort text Hanswer Hdisk. unfold App.run_analysis.
    rewrite (proj2 (Z.ltb_ge _ _) Hshort).
    unfold App.small_sequence_logic, post, save. cbn [disk].
    rewrite Hanswer, Hdisk. cbn [Z.eqb Pos.eqb].
    rewrite (application_topology_down E Hraises). eexists. reflexivity.
Qed.

Lemma topology_failure_reads_as_unknotted_witness :
  fst (Pipeline.main Fixture.topology_down (Sample.poly_alanine 100)
         initial_state) = REPORT (Some PASS) UNKNOTTED []
  /\ fst (AlphaLookup.main settings Fixture.topology_down
            (Sample.poly_alanine 100) initial_state)
     = REPORT (Some PASS) UNKNOTTED []
  /\ fst (App.run_analysis settings Fixture.topology_down
            (Sample.poly_alanine 100) initial_state)
     = REPORT (Some PASS) UNKNOTTED []
  /\ fst (AlphaLookup.main settings Fixture.topology_down
            (Sample.poly_alanine 1000) initial_state)
     = REPORT None NO_KNOTS_DETECTED []
  /\ fst (App.run_analysis settings Fixture.topology_down
            (Sample.poly_alanine 1000) initial_state)
     = REPORT None NO_KNOTS_DETECTED [].
Proof.
  split; [vm_compute; reflexivity |].
  split; [vm_compute; reflexivity |].
  split; [vm_compute; reflexivity |].
  pose proof (topology_failure_reads_as_unknotted settings
                Fixture.topology_down (Sample.poly_alanine 1000)
                initial_state (fun _ _ => eq_refl) ltac:(cbn; lia))
    as [_ [_ [Hlookup [_ [Happ _]]]]].
  split; [apply Hlookup | apply Happ]; vm_compute; reflexivity.
Defined.

(** X9. A failure of the Jones computation, whose result the pipeline never
    reads, discards the verdict of the Alexander computation: when
    [topoly.jones] raises, the adapter of the pipeline returns no type and
    the probability 0 whatever [topoly.alexander] found, and a run that
    retrieved its structure reports that the sequence is unknotted. *)
Theorem jones_failure_discards_the_verdict :
  forall (E : Env) (typed : string) (st : State),
    (forall path doc, topoly_jones E path doc = false) ->
    (forall st' f,
       Pipeline.run_topology_analysis E st' f = (None, 0%float, 0%float))
    /\ (forall f,
          fst (Pipeline.retrieve_structure E (Py.strip typed)
                 "analysis_result" st) = Some f ->
          exists q,
            fst (Pipeline.main E typed st) = REPORT (Some q) UNKNOTTED []).
Proof.
  intros E typed st Hjones.
  assert (Hdown : forall st' f,
            Pipeline.run_topology_analysis E st' f = (None, 0%float, 0%float)).
  { intros st' f. unfold Pipeline.run_topology_analysis.
    destruct (files st' f) as [doc |]; [| reflexivity].
    destruct (topoly_alexander E f doc); [| reflexivity].
    now rewrite Hjones. }
  split; [exact Hdown |].
  now apply pipeline_main_without_verdict.
Qed.

Lemma jones_failure_discards_the_verdict_witness :
  let st := write_file "analysis_result.pdb" Sample.percent_doc initial_state in
  fst (Pipeline.main (Sample.world Sample.percent_doc Sample.trefoil)
         (Sample.poly_alanine 100) initial_state)
    = REPORT (Some PASS) (KNOT_DETECTED (Some "3_1")) []
  /\ fst (Pipeline.main Fixture.jones_down (Sample.poly_alanine 100)
            initial_state)
     = REPORT (Some PASS) UNKNOTTED []
  /\ AlphaLookup.run_topology_analysis Fixture.jones_down st
       "analysis_result.pdb" = (Some "3_1", 0%float, 0.75%float)
  /\ Pipeline.run_topology_analysis Fixture.jones_down st
       "analysis_result.pdb" = (None, 0%float, 0%float).
Proof.
  cbn zeta.
  split; [vm_compute; reflexivity |].
  split; [vm_compute; reflexivity |].
  split; [vm_compute; reflexivity |].
  apply (jones_failure_discards_the_verdict Fixture.jones_down
           (Sample.poly_alanine 100) initial_state (fun _ _ => eq_refl)).
Defined.

(* ================================================================== *)
(** * A distribution without the unknotted label *)
(* ================================================================== *)

(** [d.get(k, default)] for a key that [d] does not have. *)
Lemma get_absent (d : Py.dict) (k : string) (default : float) :
  (forall v, ~ In (k, v) d) -> Py.get d k default = default.
Proof.
  induction d as [| [k' v] rest IH]; intros Habsent; [reflexivity |].
  cbn [Py.get]. destruct (String.eqb_spec k k') as [-> | Hk].
  - exfalso. apply (Habsent v). now left.
  - apply IH. intros v' Hin. apply (Habsent v'). now right.
Qed.

(** [d.get(k, default)] for a key that [d] has, the keys being distinct. *)
Lemma get_present (d : Py.dict) (k : string) (v default : float) :
  NoDup (map fst d) -> In (k, v) d -> Py.get d k default = v.
Proof.
  induction d as [| [k' v'] rest IH]; intros Hnodup Hin; [destruct Hin |].
  cbn [Py.get]. inversion Hnodup as [| ? ? Hnotin Hrest]; subst.
  destruct Hin as [[= -> ->] | Hin].
  - now rewrite String.eqb_refl.
  - destruct (String.eqb_spec k k') as [-> | Hk]; [| now apply IH].
    exfalso. apply Hnotin. now apply (in_map fst) in Hin.
Qed.

(** X10. When the distribution is not empty and has no entry for the label
    0_1, the knotted probability is 1.0 and the dominant type is a label
    of the distribution other than 0_1: so the adapters of the lookup and
    of the application return, the fragment is knotted and their direct
    verdicts are a detected knot. The adapter of the pipeline returns the
    same, with the probability of the dominant label, and its verdict is a
    detected knot, when its Jones computation returns; when that raises
    the pipeline returns no type and the probability 0.0, and its verdict
    is unknotted. *)
Theorem missing_unknot_label_means_knotted :
  forall (E : Env) (st : State) (pdb_path : string) (doc : document)
         (d : Py.dict),
    files st pdb_path = Some doc ->
    topoly_alexander E pdb_path doc = Some (Some d) ->
    d <> [] ->
    (forall v, ~ In ("0_1", v) d) ->
    exists k conf,
      k <> "0_1"
      /\ In (k, conf) d
      /\ AlphaLookup.run_topology_analysis E st pdb_path
         = (Some k, 0%float, 1%float)
      /\ App.run_topology_analysis E st pdb_path = (Some k, 1%float)
      /\ (KNOT_THRESHOLD <? 1)%float = true
      /\ AlphaLookup.direct_verdict (Some k) 1 = KNOT_DETECTED (Some k)
      /\ App.small_sequence_verdict (Some k) 1 = KNOT_DETECTED (Some k)
      /\ Pipeline.topology_verdict (Some k) 1 = KNOT_DETECTED (Some k)
      /\ (topoly_jones E pdb_path doc = true ->
          Pipeline.run_topology_analysis E st pdb_path
          = (Some k, conf, 1%float))
      /\ (topoly_jones E pdb_path doc = false ->
          Pipeline.run_topology_analysis E st pdb_path
          = (None, 0%float, 0%float)
          /\ Pipeline.topology_verdict None 0 = UNKNOTTED).
Proof.
  intros E st pdb_path doc d Hfile Htopo Hd Habsent.
  destruct (max_by_value_spec d Hd) as [k [v [Hmax [Hin _]]]].
  exists k, v. split; [intros ->; exact (Habsent v Hin) |].
  split; [exact Hin |].
  unfold AlphaLookup.run_topology_analysis, App.run_topology_analysis,
    Pipeline.run_topology_analysis.
  rewrite Hfile, Htopo, Hmax, (get_absent d "0_1" 0 Habsent).
  destruct d as [| first rest]; [contradiction |].
  do 6 (split; [reflexivity |]).
  split; intros ->; [reflexivity | split; reflexivity].
Qed.

Lemma missing_unknot_label_means_knotted_witness :
  let E := Sample.world Sample.percent_doc Fixture.no_unknot in
  let st := write_file "analysis_result.pdb" Sample.percent_doc initial_state in
  AlphaLookup.run_topology_analysis E st "analysis_result.pdb"
    = (Some "3_1", 0%float, 1%float)
  /\ Pipeline.run_topology_analysis E st "analysis_result.pdb"
     = (Some "3_1", 0.6%float, 1%float)
  /\ exists k,
       k <> "0_1"
       /\ App.run_topology_analysis E st "analysis_result.pdb"
          = (Some k, 1%float).
Proof.
  cbn zeta.
  split; [vm_compute; reflexivity |].
  split; [vm_compute; reflexivity |].
  destruct (missing_unknot_label_means_knotted
              (Sample.world Sample.percent_doc Fixture.no_unknot)
              (write_file "analysis_result.pdb" Sample.percent_doc initial_state)
              "analysis_result.pdb" Sample.percent_doc Fixture.no_unknot
              eq_refl eq_refl ltac:(discriminate)
              ltac:(intros v [H | [H | []]]; discriminate))
    as [k [conf [Hk [_ [_ [H _]]]]]].
  exists k. split; assumption.
Defined.

(* ================================================================== *)
(** * The quality status of a score that is not a number *)
(* ================================================================== *)

Lemma lex_antisym (a b : Z * Z * Z) : lex b a = CompOpp (lex a b).
Proof.
  destruct a as [[a1 a2] a3], b as [[b1 b2] b3]. unfold lex.
  rewrite (Z.compare_antisym a1 b1), (Z.compare_antisym a2 b2),
    (Z.compare_antisym a3 b3).
  destruct (a1 ?= b1); destruct (a2 ?= b2); destruct (a3 ?= b3); reflexivity.
Qed.

Lemma lex_refl (a : Z * Z * Z) : lex a a = Eq.
Proof.
  destruct a as [[a1 a2] a3]. unfold lex. now rewrite !Z.compare_refl.
Qed.

(** [q == q] holds exactly when [q] has a key, that is when it is not
    NaN. *)
Lemma is_number_key (q : float) :
  is_number q = true <-> sf_key (Prim2SF q) <> None.
Proof.
  unfold is_number. rewrite eqb_spec. unfold SFeqb. rewrite SFcompare_key.
  destruct (sf_key (Prim2SF q)) as [a |].
  - rewrite lex_refl. split; [discriminate | reflexivity].
  - split; [discriminate | intros H; now contradiction H].
Qed.

(** X11. The three variants give a score that is a number the same quality
    status, and a score that is NaN different ones: the pipeline and the
    application let it pass, the lookup calls it unreliable. *)
Theorem quality_status_agrees_on_numbers_only :
  forall q : float,
    Pipeline.quality_verdict q = App.quality_status q
    /\ (AlphaLookup.quality_status q = Pipeline.quality_verdict q
        <-> is_number q = true)
    /\ (is_number q = false ->
        Pipeline.quality_verdict q = PASS
        /\ AlphaLookup.quality_status q = UNRELIABLE).
Proof.
  intros q. split; [reflexivity |].
  assert (Hcases :
    (is_number q = true
     /\ AlphaLookup.quality_status q = Pipeline.quality_verdict q)
    \/ (is_number q = false
        /\ Pipeline.quality_verdict q = PASS
        /\ AlphaLookup.quality_status q = UNRELIABLE)).
  { pose proof (is_number_key q) as Hnum.
    unfold AlphaLookup.quality_status, Pipeline.quality_verdict, MINIMUM_PLDDT.
    rewrite ltb_spec, leb_spec. unfold SFltb, SFleb.
    rewrite !SFcompare_key.
    set (c := sf_key (Prim2SF 70)). vm_compute in c. subst c.
    destruct (sf_key (Prim2SF q)) as [a |].
    - left. split; [apply Hnum; discriminate |].
      rewrite (lex_antisym a). destruct (lex a _); reflexivity.
    - right. split; [| split; reflexivity].
      destruct (is_number q); [| reflexivity].
      exfalso. now apply (proj1 Hnum). }
  split.
  - destruct Hcases as [[Hnum Heq] | [Hnum [Hp Ha]]].
    + split; auto.
    + rewrite Hnum, Hp, Ha. split; discriminate.
  - intros Hnan. destruct Hcases as [[Hnum _] | [_ H]]; [congruence | exact H].
Qed.

(* ================================================================== *)
(** * What the quality score reads *)
(* ================================================================== *)

(** The values that [calculate_plddt] collects are the confidence fields
    that parse, in the order of the document. *)
Lemma plddt_values_of_fields (E : Env) (lines : document) :
  plddt_values E lines =
  flat_map (fun field => match py_float E field with
                         | Some val => [val]
                         | None => []
                         end)
    (confidence_fields lines).
Proof.
  unfold confidence_fields.
  induction lines as [| line rest IH]; [reflexivity |].
  cbn [plddt_values filter]. destruct (prefix "ATOM" line).
  - cbn [map flat_map]. rewrite IH.
    destruct (py_float E _); reflexivity.
  - exact IH.
Qed.

(** X12. The quality score reads the confidence fields and nothing else: two
    structure files whose ATOM lines carry the same text in columns 60 to
    66, in the same order, get the same score in each of the three
    variants, whatever their other lines and other columns are. *)
Theorem quality_reads_the_confidence_fields_only :
  forall (E : Env) (st1 st2 : State) (path1 path2 : string)
         (doc1 doc2 : document),
    files st1 path1 = Some doc1 ->
    files st2 path2 = Some doc2 ->
    confidence_fields doc1 = confidence_fields doc2 ->
    Pipeline.calculate_plddt E st1 path1 = Pipeline.calculate_plddt E st2 path2
    /\ AlphaLookup.calculate_plddt E st1 path1
       = AlphaLookup.calculate_plddt E st2 path2
    /\ App.calculate_plddt E st1 path1 = App.calculate_plddt E st2 path2.
Proof.
  intros E st1 st2 path1 path2 doc1 doc2 H1 H2 Hfields.
  unfold Pipeline.calculate_plddt, AlphaLookup.calculate_plddt,
    App.calculate_plddt.
  rewrite H1, H2, (plddt_values_of_fields E doc1),
    (plddt_values_of_fields E doc2), Hfields.
  repeat split.
Qed.

Lemma quality_reads_the_confidence_fields_only_witness :
  let E := Sample.world Sample.percent_doc Sample.trefoil in
  confidence_fields Fixture.moved_doc = ["90.00"; "90.00"]
  /\ AlphaLookup.calculate_plddt E
       (write_file "a.pdb" Sample.percent_doc initial_state) "a.pdb"
     = AlphaLookup.calculate_plddt E
         (write_file "b.pdb" Fixture.moved_doc initial_state) "b.pdb".
Proof.
  cbn zeta. split; [reflexivity |].
  exact (proj1 (proj2 (quality_reads_the_confidence_fields_only
           (Sample.world Sample.percent_doc Sample.trefoil)
           (write_file "a.pdb" Sample.percent_doc initial_state)
           (write_file "b.pdb" Fixture.moved_doc initial_state)
           "a.pdb" "b.pdb" Sample.percent_doc Fixture.moved_doc
           eq_refl eq_refl eq_refl))).
Defined.

(* ================================================================== *)
(** * Sanitising a sequence before it is posted *)
(* ================================================================== *)

Lemma chars_remove_char (d : ascii) (s : string) (c : ascii) :
  In c (chars (Py.remove_char d s)) <-> In c (chars s) /\ c <> d.
Proof.
  unfold chars. induction s as [| e s IH]; cbn; [tauto |].
  destruct (Ascii.eqb_spec d e) as [-> | Hne]; cbn; rewrite IH.
  - split; [tauto |]. intros [[-> | Hin] Hc]; [contradiction | tauto].
  - split.
    + intros [<- | [Hin Hc]]; [split; [now left | congruence] | tauto].
    + intros [[<- | Hin] Hc]; [now left | tauto].
Qed.

Lemma chars_lstrip (s : string) (c : ascii) :
  In c (chars (Py.lstrip s)) -> In c (chars s).
Proof.
  unfold chars. induction s as [| e s IH]; cbn; [tauto |].
  destruct (Py.isspace e); cbn; tauto.
Qed.

Lemma chars_rstrip (s : string) (c : ascii) :
  In c (chars (Py.rstrip s)) -> In c (chars s).
Proof.
  unfold chars. induction s as [| e s IH]; cbn; [tauto |].
  destruct (Py.rstrip s) as [| f t]; [destruct (Py.isspace e) |];
    cbn in *; tauto.
Qed.

Lemma remove_char_absent (d : ascii) (s : string) :
  (forall c, In c (chars s) -> c <> d) -> Py.remove_char d s = s.
Proof.
  unfold chars. induction s as [| e s IH]; intros Habsent; [reflexivity |].
  cbn. destruct (Ascii.eqb_spec d e) as [-> | Hne].
  - exfalso. apply (Habsent e); [now left | reflexivity].
  - f_equal. apply IH. intros c Hc. apply Habsent. now right.
Qed.

(** A string that does not start with whitespace. *)
Lemma lstrip_fixpoint (s : string) :
  match s with
  | String c _ => Py.isspace c = false
  | EmptyString => True
  end -> Py.lstrip s = s.
Proof.
  destruct s as [| c s]; [reflexivity |]. cbn. now intros ->.
Qed.

Lemma lstrip_head (s : string) :
  match Py.lstrip s with
  | String c _ => Py.isspace c = false
  | EmptyString => True
  end.
Proof.
  induction s as [| c s IH]; cbn; [exact I |].
  destruct (Py.isspace c) eqn:Hc; [exact IH | exact Hc].
Qed.

Lemma rstrip_head (s : string) :
  match s with
  | String c _ => Py.isspace c = false
  | EmptyString => True
  end ->
  match Py.rstrip s with
  | String c _ => Py.isspace c = false
  | EmptyString => True
  end.
Proof.
  destruct s as [| c s]; [trivial |]. cbn. intros Hc.
  destruct (Py.rstrip s); [rewrite Hc |]; exact Hc.
Qed.

Lemma rstrip_idempotent (s : string) : Py.rstrip (Py.rstrip s) = Py.rstrip s.
Proof.
  induction s as [| c s IH]; [reflexivity |]. cbn [Py.rstrip].
  destruct (Py.rstrip s) as [| d t] eqn:Ht.
  - destruct (Py.isspace c) eqn:Hc; [reflexivity |]. cbn. now rewrite Hc.
  - cbn [Py.rstrip] in *. now rewrite IH.
Qed.

Lemma strip_idempotent (s : string) : Py.strip (Py.strip s) = Py.strip s.
Proof.
  unfold Py.strip.
  rewrite (lstrip_fixpoint (Py.rstrip (Py.lstrip s)))
    by (apply rstrip_head, lstrip_head).
  apply rstrip_idempotent.
Qed.

(** X13. What is posted for a sequence holds no space and no newline, does not
    begin with whitespace, is left as it is by a further strip of its end,
    holds only characters of the sequence and is not longer; sanitising it
    again changes nothing. *)
Theorem sanitized_sequence_has_no_blank :
  forall sequence : string,
    (forall c, In c (chars (sanitize sequence)) ->
       In c (chars sequence) /\ c <> " "%char /\ c <> "010"%char)
    /\ match sanitize sequence with
       | String c _ => Py.isspace c = false
       | EmptyString => True
       end
    /\ Py.rstrip (sanitize sequence) = sanitize sequence
    /\ Py.len (sanitize sequence) <= Py.len sequence
    /\ sanitize (sanitize sequence) = sanitize sequence.
Proof.
  intros sequence.
  assert (Hchars : forall c, In c (chars (sanitize sequence)) ->
            In c (chars sequence) /\ c <> " "%char /\ c <> "010"%char).
  { intros c Hc. unfold sanitize, Py.strip in Hc.
    apply chars_rstrip, chars_lstrip in Hc.
    apply chars_remove_char in Hc as [Hc Hspace].
    apply chars_remove_char in Hc as [Hc Hnewline]. auto. }
  split; [exact Hchars |]. split; [| split; [| split]].
  - unfold sanitize, Py.strip. apply rstrip_head, lstrip_head.
  - unfold sanitize, Py.strip. apply rstrip_idempotent.
  - apply len_sanitize.
  - unfold sanitize at 1.
    rewrite (remove_char_absent "010" (sanitize sequence))
      by (intros c Hc; now apply Hchars in Hc).
    rewrite (remove_char_absent " " (sanitize sequence))
      by (intros c Hc; now apply Hchars in Hc).
    unfold sanitize. apply strip_idempotent.
Qed.

(* ================================================================== *)
(** * Sanitising the text of the input area *)
(* ================================================================== *)

Lemma join_cons (word : string) (words : list string) :
  Py.join EmptyString (word :: words)
  = word ++ Py.join EmptyString words.
Proof.
  destruct words as [| w ws]; cbn [Py.join]; [| reflexivity].
  induction word as [| c word IH]; cbn; [reflexivity | now rewrite <- IH].
Qed.

(** Splitting on whitespace and joining with nothing leaves the
    characters that are not whitespace. *)
Lemma join_split (s : string) :
  Py.join EmptyString (Py.split s)
  = Py.keep_chars (fun c => negb (Py.isspace c)) s.
Proof.
  induction s as [| c s IH]; [reflexivity |].
  cbn [Py.split Py.keep_chars].
  destruct (Py.isspace c) eqn:Hc; cbn [negb]; [exact IH |].
  rewrite <- IH. destruct s as [| d s']; [reflexivity |].
  destruct (Py.isspace d) eqn:Hd.
  - now rewrite join_cons.
  - destruct (Py.split (String d s')) as [| word words]; [reflexivity |].
    now rewrite !join_cons.
Qed.

Lemma keep_chars_twice (p q : ascii -> bool) (s : string) :
  (forall c, p c = true -> q c = true) ->
  Py.keep_chars p (Py.keep_chars q s) = Py.keep_chars p s.
Proof.
  intros Hpq. induction s as [| c s IH]; [reflexivity |].
  cbn [Py.keep_chars]. destruct (q c) eqn:Hq.
  - cbn [Py.keep_chars]. now rewrite IH.
  - rewrite IH. destruct (p c) eqn:Hp; [| reflexivity].
    apply Hpq in Hp. congruence.
Qed.

Lemma chars_keep_chars (p : ascii -> bool) (s : string) (c : ascii) :
  In c (chars (Py.keep_chars p s)) <-> In c (chars s) /\ p c = true.
Proof.
  unfold chars. induction s as [| d s IH]; cbn; [tauto |].
  destruct (p d) eqn:Hd; cbn; rewrite IH.
  - split; [intros [<- | H]; tauto |]. intros [[<- | H] Hp]; tauto.
  - split; [tauto |]. intros [[<- | H] Hp]; [congruence | tauto].
Qed.

Lemma keep_chars_all (p : ascii -> bool) (s : string) :
  (forall c, In c (chars s) -> p c = true) -> Py.keep_chars p s = s.
Proof.
  unfold chars. induction s as [| d s IH]; intros Hall; [reflexivity |].
  cbn. rewrite (Hall d) by now left. f_equal. apply IH.
  intros c Hc. apply Hall. now right.
Qed.

Lemma length_keep_chars (p : ascii -> bool) (s : string) :
  (String.length (Py.keep_chars p s) <= String.length s)%nat.
Proof.
  induction s as [| d s IH]; cbn; [lia |]. destruct (p d); cbn; lia.
Qed.

Lemma length_upper (s : string) :
  String.length (Py.upper s) = String.length s.
Proof.
  induction s as [| d s IH]; cbn; [reflexivity | now rewrite IH].
Qed.

(** A standard code is a capital letter and no whitespace. *)
Lemma standard_code_is_plain (c : ascii) :
  Py.contains App.standard_codes c = true ->
  Py.isspace c = false /\ Py.upper_char c = c.
Proof.
  destruct c as [[] [] [] [] [] [] [] []]; cbn; intros H;
    try discriminate; split; reflexivity.
Qed.

Lemma upper_of_standard_codes (s : string) :
  (forall c, In c (chars s) -> Py.contains App.standard_codes c = true) ->
  Py.upper s = s.
Proof.
  unfold chars. induction s as [| d s IH]; intros Hall; [reflexivity |].
  cbn. rewrite (proj2 (standard_code_is_plain d (Hall d (or_introl eq_refl)))).
  f_equal. apply IH. intros c Hc. apply Hall. now right.
Qed.

(** X14. The text of the input area, sanitised by [app.py]: for an ASCII text
    the result is the standard codes among its characters once in
    capitals, in order; it holds standard codes only, is not longer than
    the text, and sanitising it again changes nothing. *)
Theorem sanitize_sequence_keeps_standard_codes :
  forall sequence : string,
    Py.isascii sequence = true ->
    App.sanitize_sequence sequence
    = Py.keep_chars (Py.contains App.standard_codes) (Py.upper sequence)
    /\ (forall c, In c (chars (App.sanitize_sequence sequence)) ->
          Py.contains App.standard_codes c = true)
    /\ Py.len (App.sanitize_sequence sequence) <= Py.len sequence
    /\ App.sanitize_sequence (App.sanitize_sequence sequence)
       = App.sanitize_sequence sequence.
Proof.
  intros sequence _.
  assert (Hshape : forall s,
    App.sanitize_sequence s
    = Py.keep_chars (Py.contains App.standard_codes) (Py.upper s)).
  { intros s. unfold App.sanitize_sequence. rewrite join_split.
    apply keep_chars_twice. intros c Hc.
    now rewrite (proj1 (standard_code_is_plain c Hc)). }
  assert (Hcodes : forall c, In c (chars (App.sanitize_sequence sequence)) ->
            Py.contains App.standard_codes c = true).
  { intros c Hc. rewrite Hshape in Hc. now apply chars_keep_chars in Hc. }
  split; [apply Hshape |]. split; [exact Hcodes |]. split.
  - rewrite Hshape. unfold Py.len.
    pose proof (length_keep_chars (Py.contains App.standard_codes)
                  (Py.upper sequence)).
    rewrite length_upper in *. lia.
  - rewrite (Hshape (App.sanitize_sequence sequence)).
    rewrite (upper_of_standard_codes _ Hcodes).
    now apply keep_chars_all.
Qed.

Lemma sanitize_sequence_keeps_standard_codes_witness :
  Py.isascii "mkv La 12x*" = true
  /\ App.sanitize_sequence "mkv La 12x*" = "MKVLA".
Proof.
  split; [reflexivity |].
  rewrite (proj1 (sanitize_sequence_keeps_standard_codes "mkv La 12x*"
                    eq_refl)).
  reflexivity.
Defined.

(** X15. The Run Analysis button checks for an empty text before it sanitises:
    an empty text is refused without a request, and an ASCII text that is
    not empty but holds no standard code, blanks or digits for instance,
    is sent on as an empty sequence: the small sequence logic posts one
    request with an empty payload. *)
Theorem blank_input_is_posted_as_an_empty_sequence :
  forall (cfg : Config) (E : Env) (sequence_input : string) (st : State),
    Py.isascii sequence_input = true ->
    (sequence_input = EmptyString ->
       App.on_run_analysis cfg E sequence_input st = (NO_REPORT, st))
    /\ (sequence_input <> EmptyString ->
        (forall c, In c (chars sequence_input) ->
           Py.contains App.standard_codes (Py.upper_char c) = false) ->
        posted (snd (App.on_run_analysis cfg E sequence_input st))
        = EmptyString :: posted st).
Proof.
  intros cfg E sequence_input st _. split.
  - intros ->. reflexivity.
  - intros Hne Hnone. unfold App.on_run_analysis.
    rewrite (proj2 (String.eqb_neq _ _) Hne).
    assert (Hclean : App.sanitize_sequence sequence_input = EmptyString).
    { unfold App.sanitize_sequence. rewrite join_split.
      rewrite keep_chars_twice
        by (intros c Hc; now rewrite (proj1 (standard_code_is_plain c Hc))).
      clear Hne. unfold chars in Hnone.
      induction sequence_input as [| d s IH]; [reflexivity |].
      cbn [Py.upper Py.keep_chars]. rewrite (Hnone d) by now left.
      apply IH. intros c Hc. apply Hnone. now right. }
    rewrite Hclean. unfold App.run_analysis, App.small_sequence_logic, post.
    cbn [Py.len String.length Z.of_nat Z.ltb Z.compare].
    destruct (requests_post E _ _) as [[status_code text] |]; [| reflexivity].
    destruct (status_code =? 200); [| reflexivity].
    save_cases Hsave; destruct Hsave as [Hposted _]; cbn [posted] in Hposted;
      [| exact Hposted].
    destruct (App.run_topology_analysis E _ _) as [knot_type prob].
    exact Hposted.
Qed.

Lemma blank_input_is_posted_as_an_empty_sequence_witness :
  Py.isascii " 12 34 " = true
  /\ posted (snd (App.on_run_analysis settings
                    (Sample.world Sample.percent_doc Sample.trefoil)
                    " 12 34 " initial_state)) = [EmptyString].
Proof.
  split; [reflexivity |].
  apply (proj2 (blank_input_is_posted_as_an_empty_sequence settings
                  (Sample.world Sample.percent_doc Sample.trefoil)
                  " 12 34 " initial_state eq_refl)).
  - discriminate.
  - intros c Hc. cbn in Hc.
    repeat (destruct Hc as [<- | Hc]; [reflexivity |]). destruct Hc.
Defined.

(* ================================================================== *)
(** * The structure files of the fragments *)
(* ================================================================== *)










(* ================================================================== *)
(** * The requests of a whole run *)
(* ================================================================== *)

Lemma lookup_retrieval_posted (E : Env) (sequence filename : string)
  (st : State) :
  posted (snd (AlphaLookup.retrieve_structure E sequence filename st))
  = sanitize sequence :: posted st.
Proof.
  unfold AlphaLookup.retrieve_structure, post.
  destruct (requests_post E _ _) as [[status_code text] |]; [| reflexivity].
  destruct (status_code =? 200); [| reflexivity].
  save_cases Hsave; destruct Hsave as [Hposted _]; exact Hposted.
Qed.

(** X17. The number of requests that a run of the code sends: with the
    settings 400, 200 and 50, a sequence of at most 400 residues costs one
    request, and a longer one costs [(length - 50) / 200 + 1] requests,
    one for each fragment; the lookup counts the residues of the typed
    line once stripped, the application those of the sanitised text. *)
Theorem requests_of_a_run :
  forall (E : Env) (sequence : string) (st : State),
    let cost (n : Z) := if 400 <? n then (n - 50) / 200 + 1 else 1 in
    Z.of_nat (List.length (posted (snd (AlphaLookup.main settings E sequence st))))
    = Z.of_nat (List.length (posted st)) + cost (Py.len (Py.strip sequence))
    /\ Z.of_nat (List.length (posted (snd (App.run_analysis settings E sequence st))))
       = Z.of_nat (List.length (posted st)) + cost (Py.len sequence).
Proof.
  intros E sequence st. cbn zeta.
  assert (Hplan : forall n, 400 < n ->
    App.chunks settings n = Some (emit_from n 400 200 50 0)
    /\ Z.of_nat (List.length (emit_from n 400 200 50 0)) = (n - 50) / 200 + 1).
  { intros n Hn. split.
    - exact (chunks_is_emit_from settings n ltac:(cbn; lia)).
    - apply emit_from_length; lia. }
  split.
  - unfold AlphaLookup.main.
    destruct (Z.ltb_spec 400 (Py.len (Py.strip sequence))) as [Hlong | Hshort].
    + destruct (Hplan _ Hlong) as [Hchunks Hcount].
      unfold App.chunks in Hchunks. unfold AlphaLookup.run_sliding_window.
      destruct (Py.range 0 (Py.len (Py.strip sequence)) _) as [starts |];
        [| discriminate].
      injection Hchunks as Hchunks.
      pose proof (sliding_loop_posted settings E (Py.strip sequence)
                    (Py.len (Py.strip sequence)) starts [] st) as H.
      destruct (AlphaLookup.sliding_loop _ _ _ _ _ _ _) as [found st1].
      cbn [snd] in H.
      assert (Hst : posted (snd (match found with
                       | [] => (REPORT None NO_KNOTS_DETECTED found, st1)
                       | _ :: _ =>
                           (REPORT None (KNOTS_DETECTED (List.length found))
                              found, st1)
                       end)) = posted st1) by (destruct found; reflexivity).
      rewrite Hst, H, Hchunks, length_app, length_rev, length_map. lia.
    + pose proof (lookup_retrieval_posted E (Py.strip sequence)
                    "analysis_result.pdb" st) as H.
      destruct (AlphaLookup.retrieve_structure E _ _ st) as [[f |] st1];
        cbn [snd] in H.
      * destruct (truthy (Some f));
          [destruct (AlphaLookup.run_topology_analysis E st1 _)
             as [[k_type c] prob] |];
          cbn [snd]; rewrite H; cbn [List.length]; lia.
      * cbn [snd]. rewrite H. cbn [List.length]. lia.
  - unfold App.run_analysis.
    destruct (Z.ltb_spec 400 (Py.len sequence)) as [Hlong | Hshort].
    + destruct (Hplan _ Hlong) as [Hchunks Hcount].
      unfold App.large_sequence_logic. rewrite Hchunks.
      pose proof (analysis_loop_posted E sequence
                    (emit_from (Py.len sequence) 400 200 50 0) [] st) as H.
      destruct (App.analysis_loop _ _ _ _ _) as [results st1].
      cbn [snd] in H.
      assert (Hst : posted (snd (match results with
                       | [] => (REPORT None NO_KNOTS_DETECTED results, st1)
                       | _ :: _ =>
                           (REPORT None (KNOTS_DETECTED (List.length results))
                              results, st1)
                       end)) = posted st1) by (destruct results; reflexivity).
      rewrite Hst, H, length_app, length_rev, length_map. lia.
    + unfold App.small_sequence_logic, post.
      destruct (requests_post E _ _) as [[status_code text] |];
        [destruct (status_code =? 200);
           [save_cases Hsave; destruct Hsave as [Hposted _];
            [destruct (App.run_topology_analysis E _ _) as [knot_type prob] |];
            cbn [snd]; rewrite Hposted |] |];
        cbn [snd posted List.length]; lia.
Qed.

(* ================================================================== *)
(** * Files that were there before the run *)
(* ================================================================== *)

Section SameFile.

Variable E : Env.
Variables st1 st2 : State.
Variable f : string.
Hypothesis same_file : files st1 f = files st2 f.

Lemma pipeline_quality_of_file :
  Pipeline.calculate_plddt E st1 f = Pipeline.calculate_plddt E st2 f.
Proof. unfold Pipeline.calculate_plddt. now rewrite same_file. Qed.

Lemma pipeline_topology_of_file :
  Pipeline.run_topology_analysis E st1 f = Pipeline.run_topology_analysis E st2 f.
Proof. unfold Pipeline.run_topology_analysis. now rewrite same_file. Qed.

Lemma lookup_quality_of_file :
  AlphaLookup.calculate_plddt E st1 f = AlphaLookup.calculate_plddt E st2 f.
Proof. unfold AlphaLookup.calculate_plddt. now rewrite same_file. Qed.

Lemma lookup_topology_of_file :
  AlphaLookup.run_topology_analysis E st1 f
  = AlphaLookup.run_topology_analysis E st2 f.
Proof. unfold AlphaLookup.run_topology_analysis. now rewrite same_file. Qed.

Lemma application_quality_of_file :
  App.calculate_plddt E st1 f = App.calculate_plddt E st2 f.
Proof. unfold App.calculate_plddt. now rewrite same_file. Qed.

Lemma application_topology_of_file :
  App.run_topology_analysis E st1 f = App.run_topology_analysis E st2 f.
Proof. unfold App.run_topology_analysis. now rewrite same_file. Qed.

End SameFile.

Lemma same_file_after_write (filename : string) (text : document)
  (st1 st2 : State) :
  files (write_file filename text st1) filename
  = files (write_file filename text st2) filename.
Proof.
  cbn [write_file files]. now rewrite String.eqb_refl.
Qed.

Section StaleFiles.

Variable E : Env.

Lemma pipeline_retrieval_fresh (sequence job_id : string) (st1 st2 : State) :
  List.length (posted st1) = List.length (posted st2) ->
  disk st1 = disk st2 ->
  let r1 := Pipeline.retrieve_structure E sequence job_id st1 in
  let r2 := Pipeline.retrieve_structure E sequence job_id st2 in
  fst r1 = fst r2
  /\ (forall f, fst r1 = Some f -> files (snd r1) f = files (snd r2) f).
Proof.
  intros Hposted Hdisk. cbn zeta.
  unfold Pipeline.retrieve_structure, post, save. cbn [disk].
  destruct (2000 <? Py.len (sanitize sequence));
    [split; [reflexivity | discriminate] |].
  rewrite <- Hposted, Hdisk.
  destruct (requests_post E _ _) as [[status_code text] |];
    [| split; [reflexivity | discriminate]].
  destruct (status_code =? 200); [| split; [reflexivity | discriminate]].
  destruct (disk st2 _);
    [| split; [reflexivity | discriminate]
     | split; [reflexivity | discriminate]].
  split; [reflexivity |]. intros f [= <-]. apply same_file_after_write.
Qed.

Lemma lookup_retrieval_fresh (sequence filename : string) (st1 st2 : State) :
  List.length (posted st1) = List.length (posted st2) ->
  disk st1 = disk st2 ->
  let r1 := AlphaLookup.retrieve_structure E sequence filename st1 in
  let r2 := AlphaLookup.retrieve_structure E sequence filename st2 in
  fst r1 = fst r2
  /\ List.length (posted (snd r1)) = List.length (posted (snd r2))
  /\ disk (snd r1) = disk (snd r2)
  /\ (forall f, fst r1 = Some f -> files (snd r1) f = files (snd r2) f).
Proof.
  intros Hposted Hdisk. cbn zeta.
  unfold AlphaLookup.retrieve_structure, post, save. cbn [disk].
  rewrite <- Hposted, Hdisk.
  destruct (requests_post E _ _) as [[status_code text] |];
    [| cbn; rewrite Hposted; repeat split; discriminate].
  destruct (status_code =? 200);
    [| cbn; rewrite Hposted; repeat split; discriminate].
  destruct (disk st2 _);
    [| cbn; rewrite Hposted; repeat split; discriminate
     | cbn; rewrite Hposted; repeat split; discriminate].
  split; [reflexivity |]. split; [| split].
  - cbn [snd write_file posted List.length]. now rewrite Hposted.
  - reflexivity.
  - intros f [= <-]. apply same_file_after_write.
Qed.

Lemma analyze_chunk_fresh (sequence : string) (start_index end_index : Z)
  (st1 st2 : State) :
  List.length (posted st1) = List.length (posted st2) ->
  disk st1 = disk st2 ->
  let r1 := AlphaLookup.analyze_chunk E sequence start_index end_index st1 in
  let r2 := AlphaLookup.analyze_chunk E sequence start_index end_index st2 in
  fst r1 = fst r2
  /\ List.length (posted (snd r1)) = List.length (posted (snd r2))
  /\ disk (snd r1) = disk (snd r2).
Proof.
  intros Hposted Hdisk. cbn zeta. unfold AlphaLookup.analyze_chunk.
  match goal with
  | |- context [AlphaLookup.retrieve_structure E ?s ?fn (announce ?a ?b st1)] =>
      pose proof (lookup_retrieval_fresh s fn (announce a b st1)
                    (announce a b st2) Hposted Hdisk) as H;
      cbn zeta in H;
      destruct (AlphaLookup.retrieve_structure E s fn (announce a b st1))
        as [pdb1 st1'];
      destruct (AlphaLookup.retrieve_structure E s fn (announce a b st2))
        as [pdb2 st2']
  end.
  cbn [fst snd] in H. destruct H as [<- [Hposted' [Hdisk' Hfile]]].
  destruct pdb1 as [f |]; [| split; [reflexivity | split; assumption]].
  destruct (truthy (Some f)); [| split; [reflexivity | split; assumption]].
  rewrite (lookup_quality_of_file E st1' st2' f (Hfile f eq_refl)).
  rewrite (lookup_topology_of_file E st1' st2' f (Hfile f eq_refl)).
  destruct (AlphaLookup.run_topology_analysis E st2' f) as [[knot_type c] prob].
  destruct (KNOT_THRESHOLD <? prob)%float;
    (split; [reflexivity | split; assumption]).
Qed.

Lemma sliding_loop_fresh (cfg : Config) (full_sequence : string) (seq_len : Z)
  (starts : list Z) :
  forall (knots_found : list AlphaLookup.Knot) (st1 st2 : State),
    List.length (posted st1) = List.length (posted st2) ->
    disk st1 = disk st2 ->
    fst (AlphaLookup.sliding_loop cfg E full_sequence seq_len starts
           knots_found st1)
    = fst (AlphaLookup.sliding_loop cfg E full_sequence seq_len starts
             knots_found st2).
Proof.
  induction starts as [| start rest IH];
    intros knots_found st1 st2 Hposted Hdisk; [reflexivity |].
  cbn [AlphaLookup.sliding_loop].
  destruct (_ <? _); [reflexivity |].
  match goal with
  | |- context [AlphaLookup.analyze_chunk E ?s ?a ?b st1] =>
      pose proof (analyze_chunk_fresh s a b st1 st2 Hposted Hdisk) as H;
      cbn zeta in H;
      destruct (AlphaLookup.analyze_chunk E s a b st1) as [r1 st1'];
      destruct (AlphaLookup.analyze_chunk E s a b st2) as [r2 st2']
  end.
  cbn [fst snd] in H. destruct H as [<- [Hposted' Hdisk']].
  destruct r1 as [[[is_knotted k_type] qual] fname].
  now apply IH.
Qed.

Lemma analysis_loop_fresh (clean_seq : string) (chunks : list (Z * Z)) :
  forall (results : list App.Row) (st1 st2 : State),
    List.length (posted st1) = List.length (posted st2) ->
    disk st1 = disk st2 ->
    fst (App.analysis_loop E clean_seq chunks results st1)
    = fst (App.analysis_loop E clean_seq chunks results st2).
Proof.
  induction chunks as [| [start end_] rest IH];
    intros results st1 st2 Hposted Hdisk; [reflexivity |].
  cbn [App.analysis_loop]. unfold post, save. cbn [disk].
  rewrite <- Hposted, Hdisk.
  destruct (requests_post E _ _) as [[status_code text] |];
    [| apply IH; [cbn; lia | cbn; congruence]].
  destruct (status_code =? 200); [| apply IH; [cbn; lia | cbn; congruence]].
  destruct (disk st2 _);
    [| apply IH; [cbn; lia | cbn; congruence]
     | apply IH; [cbn; lia | cbn; congruence]].
  match goal with
  | |- context [App.calculate_plddt E (write_file ?fn ?t ?s1) ?fn] =>
      match goal with
      | |- context [App.calculate_plddt E (write_file fn t ?s2) fn] =>
          tryif constr_eq s1 s2 then fail else
          rewrite (application_quality_of_file E _ _ fn
                     (same_file_after_write fn t s1 s2));
          rewrite (application_topology_of_file E _ _ fn
                     (same_file_after_write fn t s1 s2))
      end
  end.
  destruct (App.run_topology_analysis E _ _) as [knot_type prob].
  apply IH; [cbn; lia | cbn; congruence].
Qed.

End StaleFiles.

(** X18. What the files of the working directory held before a run never
    reaches its report. Every structure that a run reads was written by
    that run for the fragment at hand: from two directories that take
    writes alike, whatever their files hold, the three variants give the
    same report. What stands in the way of a write does reach the report:
    when the file of a direct run cannot be written, the run ends without
    a report in the three variants. *)
Theorem files_before_the_run_do_not_matter :
  forall (cfg : Config) (E : Env) (typed : string) (st : State)
         (other_files : string -> option document),
    let st' := {| files := other_files;
                  posted := posted st;
                  announced := announced st;
                  disk := disk st |} in
    fst (Pipeline.main E typed st) = fst (Pipeline.main E typed st')
    /\ fst (AlphaLookup.main cfg E typed st)
       = fst (AlphaLookup.main cfg E typed st')
    /\ fst (App.run_analysis cfg E typed st)
       = fst (App.run_analysis cfg E typed st')
    /\ (disk st "analysis_result.pdb" <> WRITTEN ->
        fst (Pipeline.main E typed st) = NO_REPORT
        /\ (Py.len (Py.strip typed) <= 400 ->
            fst (AlphaLookup.main cfg E typed st) = NO_REPORT)
        /\ (Py.len typed <= 400 ->
            fst (App.run_analysis cfg E typed st) = NO_REPORT)).
Proof.
  intros cfg E typed st other_files st'.
  assert (Hposted : List.length (posted st) = List.length (posted st'))
    by reflexivity.
  assert (Hdisk : disk st = disk st') by reflexivity.
  clearbody st'. split; [| split; [| split]].
  - unfold Pipeline.main.
    pose proof (pipeline_retrieval_fresh E (Py.strip typed) "analysis_result"
                  st st' Hposted Hdisk) as H.
    cbn zeta in H.
    destruct (Pipeline.retrieve_structure E _ _ st) as [target1 st1].
    destruct (Pipeline.retrieve_structure E _ _ st') as [target2 st2].
    cbn [fst snd] in H. destruct H as [<- Hfile].
    destruct target1 as [f |]; [| reflexivity].
    destruct (truthy (Some f)); [| reflexivity].
    rewrite (pipeline_quality_of_file E st1 st2 f (Hfile f eq_refl)).
    rewrite (pipeline_topology_of_file E st1 st2 f (Hfile f eq_refl)).
    destruct (Pipeline.run_topology_analysis E st2 f) as [[knot_type c] prob].
    reflexivity.
  - unfold AlphaLookup.main. destruct (400 <? Py.len (Py.strip typed)).
    + unfold AlphaLookup.run_sliding_window.
      destruct (Py.range 0 (Py.len (Py.strip typed)) _) as [starts |];
        [| reflexivity].
      pose proof (sliding_loop_fresh E cfg (Py.strip typed)
                    (Py.len (Py.strip typed)) starts [] st st' Hposted Hdisk)
        as H.
      destruct (AlphaLookup.sliding_loop _ _ _ _ _ _ st) as [found1 st1].
      destruct (AlphaLookup.sliding_loop _ _ _ _ _ _ st') as [found2 st2].
      cbn [fst] in H. subst found2. destruct found1; reflexivity.
    + pose proof (lookup_retrieval_fresh E (Py.strip typed)
                    "analysis_result.pdb" st st' Hposted Hdisk) as H.
      cbn zeta in H.
      destruct (AlphaLookup.retrieve_structure E _ _ st) as [pdb1 st1] eqn:Hr.
      destruct (AlphaLookup.retrieve_structure E _ _ st') as [pdb2 st2].
      cbn [fst snd] in H. destruct H as [<- [_ [_ Hfile]]].
      destruct pdb1 as [f |]; [| reflexivity].
      apply retrieve_structure_some in Hr. subst f.
      destruct (truthy (Some "analysis_result.pdb")); [| reflexivity].
      rewrite (lookup_quality_of_file E st1 st2 _ (Hfile _ eq_refl)).
      rewrite (lookup_topology_of_file E st1 st2 _ (Hfile _ eq_refl)).
      destruct (AlphaLookup.run_topology_analysis E st2 _)
        as [[k_type c] prob].
      reflexivity.
  - unfold App.run_analysis. destruct (400 <? Py.len typed).
    + unfold App.large_sequence_logic.
      destruct (App.chunks cfg (Py.len typed)) as [chunks |]; [| reflexivity].
      pose proof (analysis_loop_fresh E typed chunks [] st st' Hposted Hdisk)
        as H.
      destruct (App.analysis_loop E typed chunks [] st) as [results1 st1].
      destruct (App.analysis_loop E typed chunks [] st') as [results2 st2].
      cbn [fst] in H. subst results2. destruct results1; reflexivity.
    + unfold App.small_sequence_logic, post, save. cbn [disk].
      rewrite <- Hposted, <- Hdisk.
      destruct (requests_post E _ _) as [[status_code text] |];
        [| reflexivity].
      destruct (status_code =? 200); [| reflexivity].
      destruct (disk st _); [| reflexivity | reflexivity].
      match goal with
      | |- context [App.calculate_plddt E (write_file ?fn ?t ?s1) ?fn] =>
          match goal with
          | |- context [App.calculate_plddt E (write_file fn t ?s2) fn] =>
              tryif constr_eq s1 s2 then fail else
              rewrite (application_quality_of_file E _ _ fn
                         (same_file_after_write fn t s1 s2));
              rewrite (application_topology_of_file E _ _ fn
                         (same_file_after_write fn t s1 s2))
          end
      end.
      destruct (App.run_topology_analysis E _ _) as [knot_type prob].
      reflexivity.
  - clear st' Hposted Hdisk. intros Hblocked. split; [| split].
    + unfold Pipeline.main, Pipeline.retrieve_structure, post, save.
      cbn [disk].
      destruct (2000 <? _); [reflexivity |].
      destruct (requests_post E _ _) as [[status_code text] |];
        [| reflexivity].
      destruct (status_code =? 200); [| reflexivity].
      change ("analysis_result" ++ ".pdb") with "analysis_result.pdb".
      destruct (disk st "analysis_result.pdb");
        [contradiction | reflexivity | reflexivity].
    + intros Hshort.
      unfold AlphaLookup.main, AlphaLookup.retrieve_structure, post, save.
      cbn [disk]. rewrite (proj2 (Z.ltb_ge _ _) Hshort).
      destruct (requests_post E _ _) as [[status_code text] |];
        [| reflexivity].
      destruct (status_code =? 200); [| reflexivity].
      destruct (disk st "analysis_result.pdb");
        [contradiction | reflexivity | reflexivity].
    + intros Hshort.
      unfold App.run_analysis, App.small_sequence_logic, post, save.
      cbn [disk]. rewrite (proj2 (Z.ltb_ge _ _) Hshort).
      destruct (requests_post E _ _) as [[status_code text] |];
        [| reflexivity].
      destruct (status_code =? 200); [| reflexivity].
      destruct (disk st "analysis_result.pdb");
        [contradiction | reflexivity | reflexivity].
Qed.

Lemma files_before_the_run_do_not_matter_witness :
  let E := Sample.world Sample.percent_doc Sample.trefoil in
  let stale :=
    write_file "analysis_result.pdb" Fixture.moved_doc initial_state in
  fst (Pipeline.main E (Sample.poly_alanine 100) initial_state)
    = REPORT (Some PASS) (KNOT_DETECTED (Some "3_1")) []
  /\ fst (Pipeline.main E (Sample.poly_alanine 100) stale)
     = fst (Pipeline.main E (Sample.poly_alanine 100) initial_state)
  /\ fst (Pipeline.main E (Sample.poly_alanine 100) Fixture.read_only)
     = NO_REPORT.
Proof.
  cbn zeta. split; [vm_compute; reflexivity |]. split.
  - exact (proj1 (files_before_the_run_do_not_matter settings
                    (Sample.world Sample.percent_doc Sample.trefoil)
                    (Sample.poly_alanine 100)
                    (write_file "analysis_result.pdb" Fixture.moved_doc
                       initial_state)
                    (fun _ => None))).
  - destruct (files_before_the_run_do_not_matter settings
                (Sample.world Sample.percent_doc Sample.trefoil)
                (Sample.poly_alanine 100) Fixture.read_only (fun _ => None))
      as [_ [_ [_ H]]].
    apply H. discriminate.
Defined.

(* ================================================================== *)
(** * The variants against each other *)
(* ================================================================== *)

(** X19. The topology adapters of the lookup and of the application return the
    same dominant type and the same knotted probability for every file,
    and so does the adapter of the pipeline whenever the Jones
    computation returns. *)
Theorem topology_adapters_agree :
  forall (E : Env) (st : State) (pdb_path : string),
    let '(lookup_type, _, lookup_prob) :=
      AlphaLookup.run_topology_analysis E st pdb_path in
    let '(pipeline_type, _, pipeline_prob) :=
      Pipeline.run_topology_analysis E st pdb_path in
    App.run_topology_analysis E st pdb_path = (lookup_type, lookup_prob)
    /\ ((forall doc, files st pdb_path = Some doc ->
           topoly_jones E pdb_path doc = true) ->
        (pipeline_type, pipeline_prob) = (lookup_type, lookup_prob)).
Proof.
  intros E st pdb_path.
  unfold AlphaLookup.run_topology_analysis, Pipeline.run_topology_analysis,
    App.run_topology_analysis.
  destruct (files st pdb_path) as [doc |];
    [| cbv beta iota zeta; split; reflexivity].
  destruct (topoly_jones E pdb_path doc) eqn:Hjones;
    destruct (topoly_alexander E pdb_path doc) as [[[| item rest] |] |];
    try destruct (Py.max_by_value (item :: rest)) as [[k v] |];
    cbv beta iota zeta; (split; [reflexivity |]);
    intros H; first [reflexivity | specialize (H doc eq_refl); congruence].
Qed.

Lemma chars_substring (s : string) :
  forall (n m : nat) (c : ascii),
    In c (chars (substring n m s)) -> In c (chars s).
Proof.
  unfold chars. induction s as [| d s IH]; intros [| n] [| m] c; cbn;
    try tauto.
  - intros [<- | H]; [now left | right; now apply (IH 0%nat m)].
  - intros H. right. now apply (IH n 0%nat).
  - intros H. right. now apply (IH n (S m)).
Qed.

Lemma rstrip_fixpoint (s : string) :
  (forall c, In c (chars s) -> Py.isspace c = false) -> Py.rstrip s = s.
Proof.
  unfold chars. induction s as [| d s IH]; intros Hall; [reflexivity |].
  cbn [Py.rstrip]. rewrite IH by (intros c Hc; apply Hall; now right).
  destruct s; [| reflexivity]. now rewrite (Hall d (or_introl eq_refl)).
Qed.

(** A sequence without whitespace is posted as it is. *)
Lemma sanitize_fixpoint (s : string) :
  (forall c, In c (chars s) -> Py.isspace c = false) -> sanitize s = s.
Proof.
  intros Hall. unfold sanitize, Py.strip.
  rewrite (remove_char_absent "010" s)
    by (intros c Hc ->; now specialize (Hall _ Hc)).
  rewrite (remove_char_absent " " s)
    by (intros c Hc ->; now specialize (Hall _ Hc)).
  rewrite lstrip_fixpoint.
  - now apply rstrip_fixpoint.
  - destruct s as [| d s]; [exact I |]. apply Hall. now left.
Qed.

(** On files with the same content the adapters of the lookup and of the
    application give the same type and probability. *)
Lemma topology_adapters_same_file (E : Env) (st1 st2 : State) (f : string) :
  files st1 f = files st2 f ->
  App.run_topology_analysis E st2 f
  = (let '(knot_type, _, prob) := AlphaLookup.run_topology_analysis E st1 f in
     (knot_type, prob)).
Proof.
  intros Hfile.
  unfold AlphaLookup.run_topology_analysis, App.run_topology_analysis.
  rewrite Hfile. destruct (files st2 f) as [doc |]; [| reflexivity].
  destruct (topoly_alexander E f doc) as [[[| item rest] |] |];
    try reflexivity.
  destruct (Py.max_by_value (item :: rest)) as [[k v] |]; reflexivity.
Qed.

(** The two windowed loops, side by side, on a sequence without
    whitespace. *)
Lemma windowed_loops_agree (cfg : Config) (E : Env) (sequence : string)
  (seq_len : Z) (starts : list Z) :
  (forall c, In c (chars sequence) -> Py.isspace c = false) ->
  forall (found : list AlphaLookup.Knot) (rows : list App.Row)
         (st1 st2 : State),
    map knot_location found
    = map (fun r => (App.Fragment r, App.Type_ r)) rows ->
    List.length (posted st1) = List.length (posted st2) ->
    disk st1 = disk st2 ->
    map knot_location
      (fst (AlphaLookup.sliding_loop cfg E sequence seq_len starts found st1))
    = map (fun r => (App.Fragment r, App.Type_ r))
        (fst (App.analysis_loop E sequence
                (App.chunks_loop cfg seq_len starts) rows st2)).
Proof.
  intros Hclean.
  induction starts as [| start rest IH];
    intros found rows st1 st2 Hsame Hposted Hdisk; [exact Hsame |].
  cbn [AlphaLookup.sliding_loop App.chunks_loop].
  destruct (_ <? _); [exact Hsame |].
  cbn [App.analysis_loop].
  unfold AlphaLookup.analyze_chunk, AlphaLookup.retrieve_structure, post, save.
  cbn [announce posted files disk].
  rewrite sanitize_fixpoint
    by (intros c Hc; apply Hclean; unfold Py.slice in Hc;
        now apply chars_substring in Hc).
  rewrite <- Hposted, Hdisk.
  destruct (requests_post E _ _) as [[status_code text] |];
    [| apply IH; [exact Hsame | cbn; lia | cbn; congruence]].
  destruct (status_code =? 200);
    [| apply IH; [exact Hsame | cbn; lia | cbn; congruence]].
  destruct (disk st2 _);
    [| apply IH; [exact Hsame | cbn; lia | cbn; congruence]
     | apply IH; [exact Hsame | cbn; lia | cbn; congruence]].
  match goal with
  | |- context [truthy (Some ?f)] =>
      replace (truthy (Some f)) with true by reflexivity
  end.
  match goal with
  | |- context [AlphaLookup.run_topology_analysis E ?s1 ?f] =>
      match goal with
      | |- context [App.run_topology_analysis E ?s2 f] =>
          pose proof (topology_adapters_same_file E s1 s2 f
                        (same_file_after_write _ _ _ _)) as Htopo
      end
  end.
  destruct (AlphaLookup.run_topology_analysis E _ _) as [[knot_type c] prob].
  rewrite Htopo.
  destruct (KNOT_THRESHOLD <? prob)%float;
    (apply IH; [| cbn; lia | cbn; congruence]); [| exact Hsame].
  rewrite !map_app, Hsame. reflexivity.
Qed.

(** X20. On a sequence without whitespace the windowed runs of the lookup and
    of the application list the same fragments, under the same labels and
    with the same knot types, or both stop on the same error of the
    planner. *)
Theorem windowed_variants_list_the_same_fragments :
  forall (cfg : Config) (E : Env) (sequence : string) (st : State),
    (forall c, In c (chars sequence) -> Py.isspace c = false) ->
    match fst (AlphaLookup.run_sliding_window cfg E sequence st),
          fst (App.large_sequence_logic cfg E sequence st) with
    | Some found, REPORT _ _ rows =>
        map knot_location found
        = map (fun r => (App.Fragment r, App.Type_ r)) rows
    | None, RAISED => True
    | _, _ => False
    end.
Proof.
  intros cfg E sequence st Hclean.
  unfold AlphaLookup.run_sliding_window, App.large_sequence_logic, App.chunks.
  destruct (Py.range 0 (Py.len sequence) _) as [starts |]; [| exact I].
  pose proof (windowed_loops_agree cfg E sequence (Py.len sequence) starts
                Hclean [] [] st st eq_refl eq_refl eq_refl) as H.
  destruct (AlphaLookup.sliding_loop _ _ _ _ _ _ _) as [found st1].
  destruct (App.analysis_loop _ _ _ _ _) as [rows st2].
  cbn [fst] in *. destruct rows; exact H.
Qed.

Lemma poly_alanine_has_no_whitespace (n : nat) :
  forall c, In c (chars (Sample.poly_alanine n)) -> Py.isspace c = false.
Proof.
  induction n as [| n IH]; intros c; [intros [] |].
  intros [<- | Hc]; [reflexivity | now apply IH].
Defined.

Lemma windowed_variants_list_the_same_fragments_witness :
  let E := Sample.world Sample.normalized_doc Sample.trefoil in
  match fst (AlphaLookup.run_sliding_window settings E
               (Sample.poly_alanine 1000) initial_state),
        fst (App.large_sequence_logic settings E
               (Sample.poly_alanine 1000) initial_state) with
  | Some found, REPORT _ _ rows =>
      map knot_location found
      = map (fun r => (App.Fragment r, App.Type_ r)) rows
  | None, RAISED => True
  | _, _ => False
  end.
Proof.
  exact (windowed_variants_list_the_same_fragments settings
           (Sample.world Sample.normalized_doc Sample.trefoil)
           (Sample.poly_alanine 1000) initial_state
           (poly_alanine_has_no_whitespace 1000)).
Defined.
